(** * Text2SQL router and retrieval engine: a shallow embedding

    The development follows three source files:
    - [unified_text2sql_streamlit.py]: the heuristic classifier
      ([detect_processing_mode]), the pattern strategy
      ([process_pattern_match]), the multi-agent stream consumer
      ([process_autogen_sync]), direct generation ([process_ai_powered],
      [create_schema_context]), the dispatcher ([unified_query_processor])
      and the logging display step ([display_unified_results]);
    - [mlflow_tracking.py]: the experiment ledger ([log_query_experiment]),
      the feedback call ([log_user_feedback]) and the usage statistics
      ([get_experiment_stats]);
    - [connectors/chroma_search.py]: the retrieval engine
      ([run_ai_search_query], [get_column_values], [get_entity_schemas],
      [add_entry_to_index]).

    Python [str] values are modelled by [string] (code points below 256),
    dictionaries with a fixed set of keys by records, dictionaries used as
    maps by [gmap], 64-bit floats by [spec_float] at binary64 precision, and
    raised exceptions by the [Raise] constructor of a small error monad. *)

From Stdlib Require Import ZArith String Ascii List Bool Lia.
From Stdlib Require Import Floats.SpecFloat.
From stdpp Require Import base option list gmap strings pretty.


(** ** Exceptions and the error monad *)

Module Py.

(** A raised exception: its class name and [str(e)]. *)
Record exn := Exn { exn_type : string; exn_msg : string }.

Inductive res (A : Type) : Type :=
| Ok (a : A)
| Raise (e : exn).
Arguments Ok {A} a.
Arguments Raise {A} e.

Definition bind {A B} (m : res A) (k : A -> res B) : res B :=
  match m with
  | Ok a => k a
  | Raise e => Raise e
  end.

Definition is_ok {A} (m : res A) : bool :=
  match m with Ok _ => true | Raise _ => false end.

(** State passing with exceptions: the state survives a raise. *)
Definition StateRes (S A : Type) : Type := S -> res A * S.

Definition lift {S A} (m : res A) : StateRes S A := fun s => (m, s).

(** ** Strings *)

(** [s.startswith(p)]. *)
Fixpoint startswith (p s : string) : bool :=
  match p, s with
  | EmptyString, _ => true
  | String _ _, EmptyString => false
  | String a p', String b s' => Ascii.eqb a b && startswith p' s'
  end.

(** [p in s] for two strings: [p] occurs somewhere in [s]. *)
Fixpoint contains (p s : string) : bool :=
  startswith p s ||
  match s with
  | EmptyString => false
  | String _ s' => contains p s'
  end.

(** [any(-)] over a generator, left to right. *)
Fixpoint any {A} (f : A -> bool) (l : list A) : bool :=
  match l with
  | [] => false
  | x :: l' => if f x then true else any f l'
  end.

(** Scanning loop of [s.replace(old, new)] for a non-empty [old]: [skip]
    counts the characters of a matched occurrence still to be consumed. *)
Fixpoint replace_scan (old new : string) (skip : nat) (s : string) : string :=
  match s with
  | EmptyString => EmptyString
  | String c s' =>
      match skip with
      | S k => replace_scan old new k s'
      | O =>
          if startswith old s
          then new +:+ replace_scan old new (Nat.pred (String.length old)) s'
          else String c (replace_scan old new O s')
      end
  end.

(** With an empty [old], [new] is inserted before every character and at
    the end. *)
Fixpoint replace_empty (new s : string) : string :=
  match s with
  | EmptyString => new
  | String c s' => new +:+ String c (replace_empty new s')
  end.

(** [s.replace(old, new)]. *)
Definition replace (old new s : string) : string :=
  match old with
  | EmptyString => replace_empty new s
  | String _ _ => replace_scan old new O s
  end.

(** [sep.join(parts)]. *)
Fixpoint join (sep : string) (parts : list string) : string :=
  match parts with
  | [] => EmptyString
  | [p] => p
  | p :: rest => p +:+ sep +:+ join sep rest
  end.

(** The characters of a string, as iteration over a [str] yields them. *)
Fixpoint chars (s : string) : list string :=
  match s with
  | EmptyString => []
  | String c s' => String c EmptyString :: chars s'
  end.

(** [str.lower] on ASCII text: [A]..[Z] go to [a]..[z]. *)
Definition ascii_lower_char (c : ascii) : ascii :=
  let n := nat_of_ascii c in
  if (65 <=? n)%nat && (n <=? 90)%nat then ascii_of_nat (n + 32) else c.

Fixpoint ascii_lower (s : string) : string :=
  match s with
  | EmptyString => EmptyString
  | String c s' => String (ascii_lower_char c) (ascii_lower s')
  end.

End Py.

Import Py.

(** The error monad uses the monadic notation [x ← m; k]. *)
#[export] Instance res_ret : MRet res := fun _ a => Ok a.
#[export] Instance res_bind : MBind res := fun _ _ k m => Py.bind m k.
#[export] Instance StateRes_ret {S} : MRet (StateRes S) := fun _ a s => (Ok a, s).
#[export] Instance StateRes_bind {S} : MBind (StateRes S) := fun _ _ k m s =>
  match m s with
  | (Ok a, s') => k a s'
  | (Raise e, s') => (Raise e, s')
  end.

(** [str.lower] is a builtin of the interpreter; the development is
    parametric in it.  [ascii_lower] is the instance used on ASCII text. *)
Class StrLower := lower : string -> string.

Definition ascii_StrLower : StrLower := Py.ascii_lower.

(** ** Values and dictionaries *)

(** binary64 *)
Definition prec : Z := 53.
Definition emax : Z := 1024.
Abbreviation float := spec_float.

Inductive value :=
| VNone
| VBool (b : bool)
| VInt (n : Z)
| VFloat (x : float)
| VStr (s : string)
| VList (l : list string).

(** A [dict] with string keys. *)
Abbreviation dict := (gmap string value).

(** * The router ([unified_text2sql_streamlit.py]) *)

Module Router.

(** Response dictionaries.  Every dictionary literal of the source has the
    keys ["method"] and ["success"]; the other keys are optional, and a
    field is [None] when the key is absent or bound to [None]. *)
Record Source := { src_sql_query : string; src_sql_rows : list dict }.

Record Response := {
  method : string;
  success : bool;
  question : option string;
  error : option string;
  sql_query : option string;
  results : option (list dict);
  explanation : option string;
  response_type : option string;
  clarification_questions : option (list string);
  user_choices : option (list string);
  answer : option string;
  follow_up_suggestions : option (list string);
  sources : option (list Source);
  processing_time : option float
}.

(** The dictionary with only ["method"] and ["success"]. *)
Definition response (m : string) (ok : bool) : Response :=
  {| method := m; success := ok; question := None; error := None;
     sql_query := None; results := None; explanation := None;
     response_type := None; clarification_questions := None;
     user_choices := None; answer := None; follow_up_suggestions := None;
     sources := None; processing_time := None |}.

Definition set_error (e : string) (r : Response) : Response :=
  {| method := method r; success := success r; question := question r;
     error := Some e; sql_query := sql_query r; results := results r;
     explanation := explanation r; response_type := response_type r;
     clarification_questions := clarification_questions r;
     user_choices := user_choices r; answer := answer r;
     follow_up_suggestions := follow_up_suggestions r;
     sources := sources r; processing_time := processing_time r |}.

Definition set_sql_query (q : option string) (r : Response) : Response :=
  {| method := method r; success := success r; question := question r;
     error := error r; sql_query := q; results := results r;
     explanation := explanation r; response_type := response_type r;
     clarification_questions := clarification_questions r;
     user_choices := user_choices r; answer := answer r;
     follow_up_suggestions := follow_up_suggestions r;
     sources := sources r; processing_time := processing_time r |}.

Definition set_results (rows : option (list dict)) (r : Response) : Response :=
  {| method := method r; success := success r; question := question r;
     error := error r; sql_query := sql_query r; results := rows;
     explanation := explanation r; response_type := response_type r;
     clarification_questions := clarification_questions r;
     user_choices := user_choices r; answer := answer r;
     follow_up_suggestions := follow_up_suggestions r;
     sources := sources r; processing_time := processing_time r |}.

Definition set_explanation (e : string) (r : Response) : Response :=
  {| method := method r; success := success r; question := question r;
     error := error r; sql_query := sql_query r; results := results r;
     explanation := Some e; response_type := response_type r;
     clarification_questions := clarification_questions r;
     user_choices := user_choices r; answer := answer r;
     follow_up_suggestions := follow_up_suggestions r;
     sources := sources r; processing_time := processing_time r |}.

Definition set_processing_time (t : float) (r : Response) : Response :=
  {| method := method r; success := success r; question := question r;
     error := error r; sql_query := sql_query r; results := results r;
     explanation := explanation r; response_type := response_type r;
     clarification_questions := clarification_questions r;
     user_choices := user_choices r; answer := answer r;
     follow_up_suggestions := follow_up_suggestions r;
     sources := sources r; processing_time := Some t |}.

Definition set_question (q : string) (r : Response) : Response :=
  {| method := method r; success := success r; question := Some q;
     error := error r; sql_query := sql_query r; results := results r;
     explanation := explanation r; response_type := response_type r;
     clarification_questions := clarification_questions r;
     user_choices := user_choices r; answer := answer r;
     follow_up_suggestions := follow_up_suggestions r;
     sources := sources r; processing_time := processing_time r |}.

(** [PATTERN_QUERIES], in insertion order. *)
Definition PATTERN_QUERIES : list (string * string) :=
  [ ("how many customers", "SELECT COUNT(*) as customer_count FROM Customer");
    ("total customers", "SELECT COUNT(*) as customer_count FROM Customer");
    ("how many products", "SELECT COUNT(*) as product_count FROM Product");
    ("total products", "SELECT COUNT(*) as product_count FROM Product");
    ("how many orders", "SELECT COUNT(*) as order_count FROM SalesOrderHeader");
    ("total orders", "SELECT COUNT(*) as order_count FROM SalesOrderHeader");
    ("total sales", "SELECT SUM(TotalDue) as total_sales FROM SalesOrderHeader");
    ("average order", "SELECT AVG(TotalDue) as average_order_value FROM SalesOrderHeader");
    ("top customers", "SELECT c.FirstName || ' ' || c.LastName as CustomerName, SUM(s.TotalDue) as TotalSales
                       FROM Customer c
                       JOIN SalesOrderHeader s ON c.CustomerID = s.CustomerID
                       GROUP BY c.CustomerID, CustomerName
                       ORDER BY TotalSales DESC LIMIT 10");
    ("top products", "SELECT p.Name, COUNT(sod.SalesOrderDetailID) as TimesSold, SUM(sod.LineTotal) as TotalRevenue
                      FROM Product p
                      JOIN SalesOrderDetail sod ON p.ProductID = sod.ProductID
                      GROUP BY p.ProductID, p.Name
                      ORDER BY TotalRevenue DESC LIMIT 10");
    ("product categories", "SELECT pc.Name as Category, COUNT(p.ProductID) as ProductCount
                            FROM ProductCategory pc
                            LEFT JOIN Product p ON pc.ProductCategoryID = p.ProductCategoryID
                            GROUP BY pc.ProductCategoryID, pc.Name
                            ORDER BY ProductCount DESC");
    ("recent orders", "SELECT SalesOrderID, OrderDate, TotalDue, Status
                       FROM SalesOrderHeader
                       ORDER BY OrderDate DESC LIMIT 10") ].

Definition complex_indicators : list string :=
  [ "analysis"; "compare"; "correlation"; "trend"; "comprehensive";
    "multi-dimensional"; "progression"; "deteriorating";
    "concerning patterns"; "early warning"; "multiple warning signs" ].

(** The [for pattern in PATTERN_QUERIES.keys()] loop of
    [detect_processing_mode]: [true] when the body returns. *)
Fixpoint pattern_loop (keys : list string) (question_lower : string) : bool :=
  match keys with
  | [] => false
  | pattern :: keys' =>
      if Py.contains pattern question_lower then true
      else pattern_loop keys' question_lower
  end.

Definition detect_processing_mode `{StrLower} (question : string) : string :=
  let question_lower := lower question in
  if pattern_loop (map fst PATTERN_QUERIES) question_lower then "Pattern Match"
  else if Py.any (fun indicator => Py.contains indicator question_lower)
                 complex_indicators
  then "AutoGen Multi-Agent"
  else "AI-Powered".

(** The database connector object: only [query_execution] is used. *)
Record DbConnector := { query_execution : string -> res (list dict) }.

(** The [for pattern, sql_query in PATTERN_QUERIES.items()] loop of
    [process_pattern_match]; [None] is the final [return None]. *)
Fixpoint pattern_items_loop (items : list (string * string))
    (question_lower : string) (db_connector : DbConnector) : option Response :=
  match items with
  | [] => None
  | (pattern, sql) :: items' =>
      if Py.contains pattern question_lower then
        match query_execution db_connector sql with
        | Ok result =>
            Some (set_explanation ("Matched pattern '" +:+ pattern +:+ "'")
                   (set_results (Some result)
                     (set_sql_query (Some sql) (response "Pattern Match" true))))
        | Raise e =>
            Some (set_error (exn_msg e)
                   (set_results None
                     (set_sql_query (Some sql) (response "Pattern Match" false))))
        end
      else pattern_items_loop items' question_lower db_connector
  end.

Definition process_pattern_match `{StrLower} (question : string)
    (db_connector : DbConnector) : option Response :=
  let question_lower := lower question in
  pattern_items_loop PATTERN_QUERIES question_lower db_connector.

(** *** The multi-agent stream consumer *)

(** Modelled from the spec: the payload classes of
    [text_2_sql_core.payloads.interaction_payloads] are not part of the
    sources at hand.  A payload is an object whose attributes may be absent
    ([hasattr] is [is_Some]); a terminal payload is an answer with sources
    (narrative answer, [{sql, rows}] source pairs, optional follow-up
    suggestions) or a disambiguation request (clarifying questions, each
    with optional choices). *)
Record DisambiguationRequest := {
  assistant_question : option string;
  dr_user_choices : option (list string)
}.

Record Body := {
  disambiguation_requests : option (list DisambiguationRequest);
  body_sources : option (list Source);
  body_follow_up_suggestions : option (list string);
  body_answer : option string
}.

Record Payload := {
  payload_type : option string;  (* [payload_type.value] *)
  body : option Body;
  payload_answer : option string;
  payload_str : string           (* [str(payload)] *)
}.

(** What an asynchronous generator does when it is driven to its end: it
    yields finitely many payloads, then stops or raises. *)
Record Stream := { events : list Payload; ending : option exn }.

Record AutoGenText2Sql := {
  process_user_message : string -> string -> Stream
}.

(** [response_data.body], raising [AttributeError] when absent. *)
Definition get_body (p : Payload) : res Body :=
  match body p with
  | Some b => Ok b
  | None => Raise (Exn "AttributeError" "object has no attribute 'body'")
  end.

(** The [async for] loop: the first payload that has a [payload_type]
    other than ["processing_update"] is kept and the loop is left. *)
Fixpoint stream_loop (evs : list Payload) (ending : option exn)
  : res (option Payload) :=
  match evs with
  | [] => match ending with
          | None => Ok None
          | Some e => Raise e
          end
  | response_payload :: evs' =>
      match payload_type response_payload with
      | Some t =>
          if negb (String.eqb t "processing_update")
          then Ok (Some response_payload)
          else stream_loop evs' ending
      | None => stream_loop evs' ending
      end
  end.

Definition truthy_str (s : option string) : bool :=
  match s with
  | Some (String _ _) => true
  | _ => false
  end.

(** [for req in disambiguation_requests], with its two accumulators. *)
Fixpoint requests_loop (reqs : list DisambiguationRequest)
    (user_choices clarification_questions : list string)
  : list string * list string :=
  match reqs with
  | [] => (user_choices, clarification_questions)
  | req :: reqs' =>
      let clarification_questions :=
        match assistant_question req with
        | Some q => if truthy_str (Some q)
                    then clarification_questions ++ [q]
                    else clarification_questions
        | None => clarification_questions
        end in
      let user_choices :=
        match dr_user_choices req with
        | Some (c :: cs) => user_choices ++ (c :: cs)
        | _ => user_choices
        end in
      requests_loop reqs' user_choices clarification_questions
  end.

(** [for source in sources]: the last source wins. *)
Fixpoint sources_loop (srcs : list Source) (sql_query : option string)
    (results : list dict) : option string * list dict :=
  match srcs with
  | [] => (sql_query, results)
  | source :: srcs' =>
      sources_loop srcs' (Some (src_sql_query source)) (src_sql_rows source)
  end.

Definition disambiguation_response (clarification_questions user_choices : list string)
  : Response :=
  {| method := "AutoGen Multi-Agent"; success := true; question := None;
     error := None; sql_query := None; results := None;
     explanation :=
       Some "AutoGen is requesting clarification to provide better analysis";
     response_type := Some "disambiguation";
     clarification_questions := Some clarification_questions;
     user_choices := Some user_choices; answer := None;
     follow_up_suggestions := None; sources := None;
     processing_time := None |}.

Definition answer_response (answer : string) (sql_query : option string)
    (results : list dict) (follow_up_suggestions : list string)
    (sources : list Source) : Response :=
  {| method := "AutoGen Multi-Agent"; success := true; question := None;
     error := None; sql_query := sql_query; results := Some results;
     explanation := Some "AutoGen multi-agent processing completed";
     response_type := Some "answer";
     clarification_questions := None; user_choices := None;
     answer := Some answer;
     follow_up_suggestions := Some follow_up_suggestions;
     sources := Some sources; processing_time := None |}.

Definition unknown_response (response_type : string) (rd : Payload) : Response :=
  {| method := "AutoGen Multi-Agent"; success := true; question := None;
     error := None; sql_query := None; results := None;
     explanation :=
       Some ("AutoGen processing completed (type: " +:+ response_type +:+ ")");
     response_type := Some "unknown";
     clarification_questions := None; user_choices := None;
     answer := Some (payload_str rd);
     follow_up_suggestions := None; sources := None;
     processing_time := None |}.

(** The body of the [try] block of [run_autogen]. *)
Definition run_autogen_try (new_system : res AutoGenText2Sql)
    (question : string) : res Response :=
  fresh_autogen_system ← new_system;
  let stream := process_user_message fresh_autogen_system "thread_1" question in
  response_data ← stream_loop (events stream) (ending stream);
  match response_data with
  | None =>
      Ok (set_error "No response received from AutoGen system"
            (response "AutoGen Multi-Agent" false))
  | Some response_data =>
      let response_type :=
        match payload_type response_data with
        | Some t => t
        | None => "unknown"
        end in
      if String.eqb response_type "disambiguation_requests" then
        b ← get_body response_data;
        let disambiguation_requests :=
          match disambiguation_requests b with
          | Some l => l
          | None => []
          end in
        let '(user_choices, clarification_questions) :=
          requests_loop disambiguation_requests [] [] in
        Ok (disambiguation_response clarification_questions user_choices)
      else if String.eqb response_type "answer_with_sources"
              || bool_decide (is_Some (body response_data)) then
        let sources :=
          match body response_data with
          | Some b => match body_sources b with
                      | Some l => l
                      | None => []
                      end
          | None => []
          end in
        let '(sql_query, results) := sources_loop sources None [] in
        b ← get_body response_data;
        let follow_up_suggestions :=
          match body_follow_up_suggestions b with
          | Some l => l
          | None => []
          end in
        let answer :=
          if truthy_str (payload_answer response_data)
          then match payload_answer response_data with
               | Some a => a
               | None => ""
               end
          else match body_answer b with
               | Some a => a
               | None => "Analysis completed successfully"
               end in
        Ok (answer_response answer sql_query results follow_up_suggestions sources)
      else
        Ok (unknown_response response_type response_data)
  end.

(** [process_autogen_sync]: [run_autogen] driven to completion; its
    [except Exception] handler turns any exception into a failure. *)
Definition process_autogen_sync (new_system : res AutoGenText2Sql)
    (question : string) : Response :=
  match run_autogen_try new_system question with
  | Ok r => r
  | Raise e =>
      set_error ("AutoGen processing failed: " +:+ exn_msg e)
        (response "AutoGen Multi-Agent" false)
  end.

(** [process_autogen]: the worker-thread wrapper.  [waited] is what
    [future.result(timeout=120)] does: it hands over the worker's result or
    raises (time-out included). *)
Definition process_autogen (waited : option exn)
    (new_system : res AutoGenText2Sql) (question : string) : Response :=
  match waited with
  | None => process_autogen_sync new_system question
  | Some e => set_error (exn_msg e) (response "AutoGen Multi-Agent" false)
  end.

(** *** The dispatcher *)

(** The [systems] dictionary.  [llm_client] is present when the
    completion client could be built; [process_ai_powered], whose body no
    property below depends on, is kept as the function it computes.
    [autogen_system] is present when the multi-agent system could be built
    at start-up; it carries what building a fresh system in the worker
    thread yields, and [autogen_waited] what waiting for the worker does. *)
Record Systems := {
  db_connector : DbConnector;
  llm_client : option (string -> Response);
  autogen_system : option (res AutoGenText2Sql);
  autogen_waited : option exn
}.

(** The mode after the [Smart Auto] step of [unified_query_processor]. *)
Definition select_mode `{StrLower} (processing_mode question : string) : string :=
  if String.eqb processing_mode "Smart Auto"
  then detect_processing_mode question
  else processing_mode.

Definition mode_in (mode : string) (l : list string) : bool :=
  existsb (String.eqb mode) l.

Definition unified_query_processor `{StrLower} (processing_mode : string)
    (question : string) (systems : Systems) (elapsed : float) : Response :=
  let mode := select_mode processing_mode question in
  let pattern_result :=
    if mode_in mode ["Smart Auto"; "Pattern Match"]
    then process_pattern_match question (db_connector systems)
    else None in
  match pattern_result with
  | Some r => set_processing_time elapsed r
  | None =>
      match (if mode_in mode ["Smart Auto"; "AI-Powered"]
             then llm_client systems else None) with
      | Some process_ai_powered =>
          set_processing_time elapsed (process_ai_powered question)
      | None =>
          match (if String.eqb mode "AutoGen Multi-Agent"
                 then autogen_system systems else None) with
          | Some new_system =>
              set_processing_time elapsed
                (process_autogen (autogen_waited systems) new_system question)
          | None =>
              set_error
                ("No suitable processing method available for mode: " +:+ mode)
                (response "Fallback" false)
          end
      end
  end.

(** The [try]/[except] of [main] around the dispatcher. *)
Definition main_response (outcome : res Response) (final_question : string)
    (execution_time : float) : Response :=
  match outcome with
  | Ok r => set_question final_question (set_processing_time execution_time r)
  | Raise e =>
      set_question final_question
        (set_processing_time execution_time
           (set_error (exn_msg e) (response "Error" false)))
  end.

End Router.

(** * The experiment ledger ([mlflow_tracking.py]) *)

Module Ledger.
Import Router.

(** The content of the JSON artifact [query_result_<run_id>.json]. *)
Record ResultData := {
  rd_question : string;
  rd_approach : string;
  rd_execution_time : float;
  rd_timestamp : string;
  rd_result : Response
}.

(** One run of the tracking store. *)
Record Run := {
  run_id : string;
  run_params : list (string * string);
  run_metrics : list (string * value);
  run_artifacts : list (string * ResultData);
  run_status : string
}.

(** The tracking store: its runs, oldest first, and the number of calls
    made to the tracking API and the file system so far. *)
Record Store := { runs : list Run; calls : nat }.

(** The behaviour of the tracking library that the source cannot see: the
    identifier given to the [n]-th run, and whether the [k]-th call
    raises. *)
Record Backend := {
  fresh_run_id : nat -> string;
  raises : nat -> option exn
}.

(** What the interpreter supplies during one call. *)
Record Ambient := {
  uuid4 : string;
  now_param : string;     (* first  [datetime.now().isoformat()] *)
  now_artifact : string   (* second [datetime.now().isoformat()] *)
}.

(** Calls on the store are state passing with exceptions. *)
Abbreviation M := (StateRes Store).

Definition skip : M unit := mret tt.

Definition tick (s : Store) : Store := {| runs := runs s; calls := S (calls s) |}.

(** A call into the library: it raises when the backend says so, and has
    its effect on the store otherwise. *)
Definition api_call (B : Backend) (effect : list Run -> list Run) : M unit :=
  fun s =>
    match raises B (calls s) with
    | Some e => (Raise e, tick s)
    | None => (Ok tt, tick {| runs := effect (runs s); calls := calls s |})
    end.

(** The active run is the most recent one. *)
Fixpoint on_active (f : Run -> Run) (rs : list Run) : list Run :=
  match rs with
  | [] => []
  | [r] => [f r]
  | r :: rs' => r :: on_active f rs'
  end.

Definition new_run (id : string) : Run :=
  {| run_id := id; run_params := []; run_metrics := [];
     run_artifacts := []; run_status := "RUNNING" |}.

Definition add_param (k v : string) (r : Run) : Run :=
  {| run_id := run_id r; run_params := run_params r ++ [(k, v)];
     run_metrics := run_metrics r; run_artifacts := run_artifacts r;
     run_status := run_status r |}.

Definition add_metric (k : string) (v : value) (r : Run) : Run :=
  {| run_id := run_id r; run_params := run_params r;
     run_metrics := run_metrics r ++ [(k, v)];
     run_artifacts := run_artifacts r; run_status := run_status r |}.

Definition add_artifact (f : string) (d : ResultData) (r : Run) : Run :=
  {| run_id := run_id r; run_params := run_params r;
     run_metrics := run_metrics r;
     run_artifacts := run_artifacts r ++ [(f, d)];
     run_status := run_status r |}.

Definition set_status (st : string) (r : Run) : Run :=
  {| run_id := run_id r; run_params := run_params r;
     run_metrics := run_metrics r; run_artifacts := run_artifacts r;
     run_status := st |}.

(** [mlflow.start_run()] *)
Definition start_run (B : Backend) : M string := fun s =>
  let id := fresh_run_id B (length (runs s)) in
  match api_call B (fun rs => rs ++ [new_run id]) s with
  | (Ok _, s') => (Ok id, s')
  | (Raise e, s') => (Raise e, s')
  end.

Definition log_param (B : Backend) (k v : string) : M unit :=
  api_call B (on_active (add_param k v)).

Definition log_metric (B : Backend) (k : string) (v : value) : M unit :=
  api_call B (on_active (add_metric k v)).

Definition log_artifact (B : Backend) (f : string) (d : ResultData) : M unit :=
  api_call B (on_active (add_artifact f d)).

(** [open(f, 'w')] with [json.dump], and [os.remove]: no effect on the
    ledger, but they can raise. *)
Definition write_file (B : Backend) : M unit := api_call B (fun rs => rs).
Definition remove_file (B : Backend) : M unit := api_call B (fun rs => rs).

(** Leaving the [with mlflow.start_run()] block ends the run. *)
Definition end_run (ok : bool) (s : Store) : Store :=
  {| runs := on_active (set_status (if ok then "FINISHED" else "FAILED")) (runs s);
     calls := calls s |}.

(** The statements inside the [with] block, after [run_id] is bound. *)
Definition log_query_body (B : Backend) (amb : Ambient) (run_id : string)
    (question approach : string) (result : Response)
    (execution_time : float) (session_id : option string) : M unit :=
  log_param B "question" question;;
  log_param B "approach" approach;;
  log_param B "session_id"
    (if truthy_str session_id then default "" session_id else uuid4 amb);;
  log_param B "timestamp" (now_param amb);;
  log_metric B "execution_time_seconds" (VFloat execution_time);;
  log_metric B "success" (VInt (if success result then 1 else 0));;
  (if truthy_str (sql_query result)
   then log_param B "sql_query" (default "" (sql_query result))
   else skip);;
  match results result with
  | Some (r :: rs) =>
      log_metric B "result_count" (VInt (Z.of_nat (length (r :: rs))))
  | _ => log_metric B "result_count" (VInt 0)
  end;;
  (if String.eqb approach "Pattern Match"
   then log_metric B "pattern_match_used" (VInt 1)
   else if String.eqb approach "AI-Powered"
   then log_metric B "ai_powered_used" (VInt 1)
   else if String.eqb approach "AutoGen Multi-Agent"
   then log_metric B "autogen_used" (VInt 1)
   else skip);;
  (if negb (success result) && truthy_str (error result)
   then log_param B "error_message" (default "" (error result))
   else skip);;
  let result_data :=
    {| rd_question := question; rd_approach := approach;
       rd_execution_time := execution_time;
       rd_timestamp := now_artifact amb; rd_result := result |} in
  let result_file := "query_result_" +:+ run_id +:+ ".json" in
  write_file B;;
  log_artifact B result_file result_data;;
  remove_file B.

(** [Text2SQLMLflowTracker.log_query_experiment].  The [except] handler
    logs the exception and falls through to [return run_id], which is
    [None] only when [start_run] itself raised. *)
Definition log_query_experiment (B : Backend) (amb : Ambient)
    (question approach : string) (result : Response)
    (execution_time : float) (session_id : option string)
    (s : Store) : option string * Store :=
  match start_run B s with
  | (Raise _, s') => (None, s')
  | (Ok run_id, s1) =>
      match log_query_body B amb run_id question approach result
              execution_time session_id s1 with
      | (Ok _, s2) => (Some run_id, end_run true s2)
      | (Raise _, s2) => (Some run_id, end_run false s2)
      end
  end.

(** *** The display step *)

(** What the page shows, by kind. *)
Inductive Ui :=
| UiError (method : string) (error : string)
| UiSuccess (method : string)
| UiClarification (questions : list string)
| UiChoices (choices : list string)
| UiAnswer (answer : string)
| UiSql (sql : string)
| UiResults (rows : list dict)
| UiSources (sources : list Source).

(** The observable steps of [display_unified_results], in program order. *)
Inductive Event :=
| Logged (run_id : option string)
| Shown (u : Ui).

Definition zero : float := S754_zero false.

(** The part of [display_unified_results] after the ledger call. *)
Definition display_body (response : Response) : list Ui :=
  let method := method response in
  if negb (success response) then
    [UiError method (default "Unknown error" (error response))]
  else
    (if mode_in method ["Pattern Match"; "AI-Powered"; "AutoGen Multi-Agent"]
     then [UiSuccess method] else []) ++
    if bool_decide (response_type response = Some "disambiguation") then
      match clarification_questions response with
      | Some (q :: qs) => [UiClarification (q :: qs)]
      | _ => []
      end ++
      match user_choices response with
      | Some (c :: cs) => [UiChoices (c :: cs)]
      | _ => []
      end
    else
      (if truthy_str (answer response)
       then [UiAnswer (default "" (answer response))] else []) ++
      (if truthy_str (sql_query response)
       then [UiSql (default "" (sql_query response))] else []) ++
      match results response with
      | Some (r :: rs) => [UiResults (r :: rs)]
      | _ => []
      end ++
      match sources response with
      | Some (x :: xs) => [UiSources (x :: xs)]
      | _ => []
      end.

(** [display_unified_results]: the new store, [current_run_id], and the
    trace of what happened. *)
Definition display_unified_results (B : Backend) (amb : Ambient)
    (session_id : string) (response : Response) (s : Store)
  : list Event * option string * Store :=
  let question := default "" (question response) in
  let method := method response in
  let processing_time := default zero (processing_time response) in
  let '(run_id, s') :=
    log_query_experiment B amb question method response processing_time
      (Some session_id) s in
  (Logged run_id :: map Shown (display_body response), run_id, s').

End Ledger.

(** * The retrieval engine ([connectors/chroma_search.py]) *)

Module Chroma.

(** [str(x)] for the values handed over as [engine_specific_fields]
    ([DatabaseEngineSpecificFields], declared outside the sources at
    hand). *)
Class Str (A : Type) := str : A -> string.

Abbreviation Embedding := (list float).

(** One stored item of a collection. *)
Record Entry := {
  entry_embedding : Embedding;
  entry_metadata : dict;
  entry_document : string
}.

(** A collection maps document ids to items; the client maps collection
    names to collections. *)
Abbreviation Collection := (gmap string Entry).
Abbreviation Client := (gmap string (gmap string Entry)).

(** The answer of [collection.query], restricted to the two keys read. *)
Record QueryResult := {
  metadatas : option (list (list (option dict)));
  distances : option (list (list float))
}.

(** The collaborators of [ChromaSearchConnector]: the embedding request
    of the completion provider, the two search modes of a collection, and
    the validation a collection runs on an entry that is upserted, which
    raises when the store rejects the identifier, the embedding or the
    metadata. *)
Record Connector := {
  run_embedding_request : list value -> res (list Embedding);
  query_embeddings : Collection -> Embedding -> Z -> res QueryResult;
  query_texts : Collection -> string -> Z -> res QueryResult;
  upsert_rejects : Collection -> string -> Entry -> option exn
}.

(** [_get_or_create_collection] *)
Definition _get_or_create_collection (collection_name : string)
  : StateRes Client Collection :=
  fun client =>
    match client !! collection_name with
    | Some collection => (Ok collection, client)
    | None => (Ok ∅, <[collection_name := ∅]> client)
    end.

Definition one : float := S754_finite false 4503599627370496 (-52).
Definition four : float := S754_finite false 4503599627370496 (-50).
Definition five : float := S754_finite false 5629499534213120 (-50).
Definition one_and_a_half : float := S754_finite false 6755399441055744 (-52).

(** [1 - d] and [minimum_score / 4.0], in binary64 arithmetic. *)
Definition similarity (d : float) : float := SFsub prec emax one d.
Definition rescaled (minimum_score : float) : float :=
  SFdiv prec emax minimum_score four.
Arguments similarity : simpl never.
Arguments rescaled : simpl never.

(** [1 - results['distances'][0][i] if results['distances'] else 1.0] *)
Definition score_at (distances : option (list (list float))) (i : nat)
  : res float :=
  match distances with
  | Some (d0 :: _) =>
      match d0 !! i with
      | Some d => Ok (similarity d)
      | None => Raise (Exn "IndexError" "list index out of range")
      end
  | _ => Ok one
  end.

(** [minimum_score is not None and score < (minimum_score / 4.0)] *)
Definition below_minimum (minimum_score : option float) (score : float) : bool :=
  match minimum_score with
  | Some m => SFltb score (rescaled m)
  | None => false
  end.

(** [metadata.copy()], with the score attached on request. *)
Definition result_item (include_scores : bool) (metadata : dict) (score : float)
  : dict :=
  if include_scores then <["@search.score" := VFloat score]> metadata
  else metadata.

(** The [for i, metadata in enumerate(results['metadatas'][0])] loop,
    started at index [i] with the results combined so far. *)
Fixpoint results_loop (i : nat) (mds : list (option dict))
    (distances : option (list (list float))) (include_scores : bool)
    (minimum_score : option float) (combined_results : list dict)
  : res (list dict) :=
  match mds with
  | [] => Ok combined_results
  | metadata :: mds' =>
      score ← score_at distances i;
      if below_minimum minimum_score score then
        results_loop (S i) mds' distances include_scores minimum_score
          combined_results
      else
        match metadata with
        | None => Raise (Exn "AttributeError"
                           "'NoneType' object has no attribute 'copy'")
        | Some metadata =>
            results_loop (S i) mds' distances include_scores minimum_score
              (combined_results ++ [result_item include_scores metadata score])
        end
  end.

Definition process_results (results : QueryResult) (include_scores : bool)
    (minimum_score : option float) : res (list dict) :=
  match metadatas results with
  | Some (m0 :: _) =>
      results_loop 0 m0 (distances results) include_scores minimum_score []
  | _ => Ok []
  end.

Definition first_embedding (embeddings : list Embedding) : res Embedding :=
  match embeddings with
  | e :: _ => Ok e
  | [] => Raise (Exn "IndexError" "list index out of range")
  end.

(** The query step of [run_ai_search_query]. *)
Definition search (C : Connector) (collection : Collection) (query : string)
    (vector_fields : list string) (top : Z) : res QueryResult :=
  if (0 <? length vector_fields)%nat then
    embeddings ← run_embedding_request C [VStr query];
    query_embedding ← first_embedding embeddings;
    query_embeddings C collection query_embedding top
  else
    query_texts C collection query top.

Definition run_ai_search_query (C : Connector) (query : string)
    (vector_fields retrieval_fields : list string) (index_name : string)
    (semantic_config : option string) (top : Z) (include_scores : bool)
    (minimum_score : option float) : StateRes Client (list dict) :=
  collection ← _get_or_create_collection index_name;
  results ← lift (search C collection query vector_fields top);
  lift (process_results results include_scores minimum_score).

(** [os.environ.get(name, default)] for the two index names. *)
Record Environ := {
  CHROMA_TEXT2SQL_COLUMN_VALUE_STORE : option string;
  CHROMA_TEXT2SQL_SCHEMA_STORE : option string
}.

Definition get_column_values (C : Connector) (env : Environ) (text : string)
  : StateRes Client (list dict) :=
  let index_name :=
    default "text2sql-column-value-store"
      (CHROMA_TEXT2SQL_COLUMN_VALUE_STORE env) in
  run_ai_search_query C text [] ["FQN"; "Column"; "Value"] index_name None
    50 false (Some five).

(** [len(v)] *)
Definition len (v : value) : res nat :=
  match v with
  | VStr s => Ok (String.length s)
  | VList l => Ok (length l)
  | _ => Raise (Exn "TypeError" "object has no len()")
  end.

(** [schema.get(k) is not None and len(schema[k]) == 0] *)
Definition present_and_empty (schema : dict) (k : string) : res bool :=
  match schema !! k with
  | None | Some VNone => Ok false
  | Some v => n ← len v; Ok (n =? 0)%nat
  end.

(** [list(map(lambda x: x.replace(fqn_to_trim, ""), v))] for a non-empty
    [v]: a list is mapped over its elements, a string over its
    characters. *)
Definition trim_graph (fqn_to_trim : string) (v : value) : value :=
  match v with
  | VList l => VList (map (Py.replace fqn_to_trim "") l)
  | VStr s => VList (map (Py.replace fqn_to_trim "") (Py.chars s))
  | _ => v
  end.

(** [schema.get("Entity", "").lower()] *)
Definition entity_lower `{StrLower} (schema : dict) : res string :=
  match schema !! "Entity" with
  | None => Ok (lower "")
  | Some (VStr s) => Ok (lower s)
  | Some _ => Raise (Exn "AttributeError" "object has no attribute 'lower'")
  end.

(** The body of [for schema in schemas]: the schema after the deletions
    and the rewrite, and whether it is appended. *)
Definition schema_step `{StrLower} (fqn_to_trim : string)
    (excluded_entities : list string) (schema : dict) : res (dict * bool) :=
  let schema := if bool_decide (is_Some (schema !! "FQN"))
                then delete "FQN" schema else schema in
  e ← present_and_empty schema "CompleteEntityRelationshipsGraph";
  let schema :=
    if e : bool then delete "CompleteEntityRelationshipsGraph" schema
    else
      match schema !! "CompleteEntityRelationshipsGraph" with
      | None | Some VNone => schema
      | Some v =>
          <["CompleteEntityRelationshipsGraph" := trim_graph fqn_to_trim v]>
            schema
      end in
  e ← present_and_empty schema "SampleValues";
  let schema := if e : bool then delete "SampleValues" schema else schema in
  e ← present_and_empty schema "EntityRelationships";
  let schema := if e : bool then delete "EntityRelationships" schema
                else schema in
  entity ← entity_lower schema;
  Ok (schema, negb (bool_decide (entity ∈ excluded_entities))).

Fixpoint schemas_loop `{StrLower} (fqn_to_trim : string)
    (excluded_entities : list string) (schemas filtered_schemas : list dict)
  : res (list dict) :=
  match schemas with
  | [] => Ok filtered_schemas
  | schema :: schemas' =>
      '(schema, keep) ← schema_step fqn_to_trim excluded_entities schema;
      schemas_loop fqn_to_trim excluded_entities schemas'
        (if keep : bool then filtered_schemas ++ [schema] else filtered_schemas)
  end.

Definition schema_retrieval_fields : list string :=
  [ "FQN"; "Entity"; "EntityName"; "Schema"; "Definition"; "Columns";
    "EntityRelationships"; "CompleteEntityRelationshipsGraph" ].

Definition get_entity_schemas `{StrLower} {F} `{Str F} (C : Connector)
    (env : Environ) (text : string) (excluded_entities : list string)
    (engine_specific_fields : list F) : StateRes Client (list dict) :=
  let stringified_engine_specific_fields := map str engine_specific_fields in
  let retrieval_fields :=
    schema_retrieval_fields ++ stringified_engine_specific_fields in
  let index_name :=
    default "text2sql-schema-store" (CHROMA_TEXT2SQL_SCHEMA_STORE env) in
  schemas ← run_ai_search_query C text ["DefinitionEmbedding"]
               retrieval_fields index_name None 3 false (Some one_and_a_half);
  let fqn_to_trim := Py.join "." stringified_engine_specific_fields in
  if (length excluded_entities =? 0)%nat then mret schemas
  else lift (schemas_loop fqn_to_trim excluded_entities schemas []).

(** *** Document identity *)

(** Byte strings. *)
Abbreviation bytes := (list ascii).

(** [str.encode()]: UTF-8, one byte below code point 128 and two bytes
    from there on. *)
Fixpoint encode (s : string) : bytes :=
  match s with
  | EmptyString => []
  | String c s' =>
      let n := N_of_ascii c in
      if (n <? 128)%N then c :: encode s'
      else ascii_of_N (192 + n / 64) :: ascii_of_N (128 + n mod 64) :: encode s'
  end.

(** The inverse direction, [bytes.decode()]; [None] on malformed input. *)
Fixpoint decode (bs : bytes) : option string :=
  match bs with
  | [] => Some EmptyString
  | b :: bs' =>
      let n := N_of_ascii b in
      if (n <? 128)%N then String b <$> decode bs'
      else
        match bs' with
        | b2 :: bs'' =>
            let n2 := N_of_ascii b2 in
            if (192 <=? n)%N && (n <? 196)%N && (128 <=? n2)%N && (n2 <? 192)%N
            then String (ascii_of_N ((n - 192) * 64 + (n2 - 128))) <$> decode bs''
            else None
        | [] => None
        end
  end.

(** The URL-safe base64 alphabet: [A-Z], [a-z], [0-9], [-], [_]. *)
Definition sextet_char (n : N) : ascii :=
  ascii_of_N
    (if n <? 26 then 65 + n
     else if n <? 52 then 71 + n
     else if n <? 62 then n - 4
     else if n =? 62 then 45
     else 95)%N.

Definition char_sextet (c : ascii) : option N :=
  let k := N_of_ascii c in
  (if (65 <=? k) && (k <=? 90) then Some (k - 65)
   else if (97 <=? k) && (k <=? 122) then Some (k - 71)
   else if (48 <=? k) && (k <=? 57) then Some (k + 4)
   else if k =? 45 then Some 62
   else if k =? 95 then Some 63
   else None)%N.

Arguments sextet_char : simpl never.
Arguments char_sextet : simpl never.

Definition pad : ascii := "="%char.

(** [base64.urlsafe_b64encode]: three bytes give four characters, and a
    final group of one or two bytes is padded with [=]. *)
Fixpoint urlsafe_b64encode (bs : bytes) : bytes :=
  match bs with
  | [] => []
  | [a] =>
      let a := N_of_ascii a in
      [sextet_char (a / 4); sextet_char ((a mod 4) * 16); pad; pad]%N
  | [a; b] =>
      let a := N_of_ascii a in
      let b := N_of_ascii b in
      [sextet_char (a / 4); sextet_char ((a mod 4) * 16 + b / 16);
       sextet_char ((b mod 16) * 4); pad]%N
  | a :: b :: c :: bs' =>
      let a := N_of_ascii a in
      let b := N_of_ascii b in
      let c := N_of_ascii c in
      (sextet_char (a / 4) :: sextet_char ((a mod 4) * 16 + b / 16)
       :: sextet_char ((b mod 16) * 4 + c / 64) :: sextet_char (c mod 64)
       :: urlsafe_b64encode bs')%N
  end.

(** [base64.urlsafe_b64decode]; [None] on input that is not an encoding. *)
Fixpoint urlsafe_b64decode (cs : bytes) : option bytes :=
  match cs with
  | [] => Some []
  | c1 :: c2 :: c3 :: c4 :: cs' =>
      s1 ← char_sextet c1;
      s2 ← char_sextet c2;
      if Ascii.eqb c3 pad then
        if Ascii.eqb c4 pad && bool_decide (cs' = [])
        then Some [ascii_of_N (s1 * 4 + s2 / 16)]
        else None
      else
        s3 ← char_sextet c3;
        if Ascii.eqb c4 pad then
          if bool_decide (cs' = [])
          then Some [ascii_of_N (s1 * 4 + s2 / 16);
                     ascii_of_N ((s2 mod 16) * 16 + s3 / 4)]
          else None
        else
          s4 ← char_sextet c4;
          rest ← urlsafe_b64decode cs';
          Some (ascii_of_N (s1 * 4 + s2 / 16)
                :: ascii_of_N ((s2 mod 16) * 16 + s3 / 4)
                :: ascii_of_N ((s3 mod 4) * 64 + s4) :: rest)
  | _ => None
  end%N.

(** [base64.urlsafe_b64encode(question.encode()).decode("utf-8")] *)
Definition doc_id (question : string) : string :=
  string_of_list_ascii (urlsafe_b64encode (encode question)).

(** The way back from an identifier to the question. *)
Definition doc_id_question (id : string) : option string :=
  bs ← urlsafe_b64decode (list_ascii_of_string id); decode bs.

(** *** Adding an entry *)

(** The validation loop: [false] when some key of [vector_fields] is not
    a key of the document. *)
Fixpoint fields_in_document (fields : list string) (document : dict) : bool :=
  match fields with
  | [] => true
  | field :: fields' =>
      if bool_decide (is_Some (document !! field))
      then fields_in_document fields' document
      else false
  end.

(** [document["Question"].encode()] needs a string under that key. *)
Definition question_of (document : dict) : res string :=
  match document !! "Question" with
  | Some (VStr q) => Ok q
  | Some _ => Raise (Exn "AttributeError" "object has no attribute 'encode'")
  | None => Raise (Exn "KeyError" "'Question'")
  end.

(** The statements of the [try] block up to the arguments of [upsert]. *)
Definition prepare_entry (C : Connector) (document : dict)
    (vector_fields : list (string * string)) (fields_to_embed : list value)
  : res (string * Entry) :=
  embeddings ← run_embedding_request C fields_to_embed;
  question ← question_of document;
  let metadata :=
    filter (λ kv : string * value, kv.1 ∉ map snd vector_fields) document in
  embedding ← first_embedding embeddings;
  Ok (doc_id question,
      {| entry_embedding := embedding; entry_metadata := metadata;
         entry_document := question |}).

(** [collection.upsert(ids=[id], ...)] on the collection [index_name]: it
    raises when the store rejects the entry, and puts the entry under its
    identifier otherwise. *)
Definition upsert (C : Connector) (index_name id : string) (e : Entry)
    (client : Client) : res Client :=
  let collection := default ∅ (client !! index_name) in
  match upsert_rejects C collection id e with
  | Some x => Raise x
  | None => Ok (<[index_name := <[id := e]> collection]> client)
  end.

(** [add_entry_to_index]: the caller's document after the call, and the
    client after the call.  [now] is [datetime.now(timezone.utc).isoformat()].
    A failed validation returns early; an exception inside the [try]
    block, that of [upsert] included, is logged and dropped. *)
Definition add_entry_to_index (C : Connector) (now : string) (document : dict)
    (vector_fields : list (string * string)) (index_name : string)
    (client : Client) : dict * Client :=
  if negb (fields_in_document (map fst vector_fields) document)
  then (document, client)
  else
    let '(_, client) := _get_or_create_collection index_name client in
    let fields_to_embed :=
      omap (λ field, document !! field) (map fst vector_fields) in
    let document := <["DateLastModified" := VStr now]> document in
    match prepare_entry C document vector_fields fields_to_embed with
    | Ok (id, e) =>
        match upsert C index_name id e client with
        | Ok client' => (document, client')
        | Raise _ => (document, client)
        end
    | Raise _ => (document, client)
    end.

End Chroma.

(** * The vocabulary of the specification *)

Module Spec.
Import Router.

(** [p] occurs in [s] as a substring. *)
Definition occurs_in (p s : string) : Prop :=
  ∃ pre post, s = pre +:+ p +:+ post.

(** Some key of the pattern dictionary occurs in the lowercased question. *)
Definition has_pattern_key (question_lower : string) : Prop :=
  ∃ k, k ∈ map fst PATTERN_QUERIES ∧ occurs_in k question_lower.

(** Some complexity keyword occurs in the lowercased question. *)
Definition has_complexity_keyword (question_lower : string) : Prop :=
  ∃ w, w ∈ complex_indicators ∧ occurs_in w question_lower.

(** The three-way rule of the specification, on the lowercased question. *)
Inductive classified (question_lower : string) : string -> Prop :=
| classified_pattern :
    has_pattern_key question_lower ->
    classified question_lower "Pattern Match"
| classified_multi_agent :
    ¬ has_pattern_key question_lower ->
    has_complexity_keyword question_lower ->
    classified question_lower "AutoGen Multi-Agent"
| classified_direct :
    ¬ has_pattern_key question_lower ->
    ¬ has_complexity_keyword question_lower ->
    classified question_lower "AI-Powered".

(** A payload the stream consumer skips: a processing update, or an
    object without a payload type. *)
Definition non_terminal (p : Payload) : Prop :=
  payload_type p = None ∨ payload_type p = Some "processing_update".

(** A terminal payload of the specification: an answer with sources or a
    disambiguation request. *)
Definition terminal (p : Payload) : Prop :=
  payload_type p = Some "answer_with_sources" ∨
  payload_type p = Some "disambiguation_requests".

(** A float that is a number. *)
Definition is_number (x : float) : bool :=
  match x with
  | S754_nan => false
  | _ => true
  end.

(** Stripping the prefix [p] from [s], in the words of the specification:
    a leading [p] is removed and the rest of [s] is left as it is. *)
Fixpoint strip_prefix (p s : string) : string :=
  match p, s with
  | EmptyString, _ => s
  | String a p', String b s' =>
      if Ascii.eqb a b && Py.startswith p' s' then strip_prefix p' s' else s
  | String _ _, EmptyString => s
  end.

(** The variant of the result contract a response dictionary stands for. *)
Inductive Variant := Tabular | Disambiguation | Failure.

Definition variant (r : Response) : Variant :=
  if success r then
    if bool_decide (response_type r = Some "disambiguation")
    then Disambiguation else Tabular
  else Failure.

(** The value last logged under a key. *)
Fixpoint lookup_last (k : string) (l : list (string * value)) : option value :=
  match l with
  | [] => None
  | (k', v) :: l' =>
      match lookup_last k l' with
      | Some v' => Some v'
      | None => if String.eqb k k' then Some v else None
      end
  end.

Definition metric (k : string) (r : Ledger.Run) : option value :=
  lookup_last k (Ledger.run_metrics r).

(** The [success] field a record must carry for a response. *)
Definition success_field (r : Response) : value :=
  match variant r with
  | Tabular | Disambiguation => VInt 1
  | Failure => VInt 0
  end.

(** Exactly one record was added to the ledger, and its [success] field
    matches the response. *)
Definition one_record_created (s s' : Ledger.Store) (r : Response) : Prop :=
  ∃ run, Ledger.runs s' = Ledger.runs s ++ [run] ∧
         metric "success" run = Some (success_field r).

(** The backend raises in none of the [n] calls that follow call [from]. *)
Definition quiet (B : Ledger.Backend) (from n : nat) : Prop :=
  ∀ k, from ≤ k < from + n -> Ledger.raises B k = None.

(** A computation that works on the active run only: whatever happens, the
    older runs stay as they are, the active run keeps its identifier and at
    most [n] calls are made; and when the backend is quiet it ends normally
    and takes the active run from [P] to [Q]. *)
Definition logs (B : Ledger.Backend) (n : nat) (P Q : Ledger.Run -> Prop)
    (m : Ledger.M unit) : Prop :=
  ∀ s base r0, Ledger.runs s = base ++ [r0] ->
    ∃ r1, Ledger.runs (m s).2 = base ++ [r1] ∧
          Ledger.run_id r1 = Ledger.run_id r0 ∧
          Ledger.calls s ≤ Ledger.calls (m s).2 ≤ Ledger.calls s + n ∧
          (P r0 -> quiet B (Ledger.calls s) n -> (m s).1 = Ok tt ∧ Q r1).

(** The invariants of the active run during [log_query_body]. *)
Definition has_id (id : string) (r : Ledger.Run) : Prop := Ledger.run_id r = id.

Definition has_success (id : string) (v : value) (r : Ledger.Run) : Prop :=
  Ledger.run_id r = id ∧ metric "success" r = Some v.

(** The key of the relationship graph in a schema entry. *)
Abbreviation graph_key := "CompleteEntityRelationshipsGraph".

(** The name under which an entry is looked up in the exclusion list:
    its [Entity] in lowercase, the empty string when it has none. *)
Definition entity_name `{StrLower} (schema : dict) : string :=
  lower (match schema !! "Entity" with
         | Some (VStr s) => s
         | _ => EmptyString
         end).

(** The relationship graph of an entry after the rewrite.  An empty graph
    is removed.  A non-empty list has every occurrence of [fqn_to_trim]
    deleted from each of its strings.  A non-empty string is read as the
    sequence of its characters, and gives the list of these, each with the
    occurrences of [fqn_to_trim] deleted from it.  A missing graph, or
    [None], stays as it is. *)
Definition trimmed_graph (fqn_to_trim : string) (graph : option value)
  : option value :=
  match graph with
  | Some (VList (x :: l)) =>
      Some (VList (map (Py.replace fqn_to_trim "") (x :: l)))
  | Some (VStr (String c s)) =>
      Some (VList (map (Py.replace fqn_to_trim "") (Py.chars (String c s))))
  | Some (VList []) | Some (VStr EmptyString) => None
  | o => o
  end.

(** The keys that the post-processing of a match may touch. *)
Definition post_processed_keys : list string :=
  [ "FQN"; graph_key; "SampleValues"; "EntityRelationships" ].

(** The metadata stored for a document: the stamped document without the
    keys that name embedding fields. *)
Definition stored_metadata (now : string) (document : dict)
    (vector_fields : list (string * string)) : dict :=
  filter (λ kv : string * value, kv.1 ∉ map snd vector_fields)
    (<["DateLastModified" := VStr now]> document).

Definition one_and_a_quarter : float :=
  S754_finite false 5629499534213120 (-52).

(** Candidate [j] of a query result: its metadata and its score. *)
Definition candidate (r : Chroma.QueryResult) (j : nat) (md : dict) (s : float)
  : Prop :=
  ∃ m0 rest, Chroma.metadatas r = Some (m0 :: rest) ∧
             m0 !! j = Some (Some md) ∧
             Chroma.score_at (Chroma.distances r) j = Ok s.

(** The answer to a single query whose candidates all carry metadata and
    a distance. *)
Definition regular (cands : list (dict * float)) : Chroma.QueryResult :=
  {| Chroma.metadatas := Some [map (λ c, Some c.1) cands];
     Chroma.distances := Some [map snd cands] |}.

(** The candidates that pass the filter, rendered, in their order. *)
Definition passing (include_scores : bool) (minimum_score : option float)
    (cands : list (dict * float)) : list dict :=
  map (λ c, Chroma.result_item include_scores c.1 (Chroma.similarity c.2))
    (filter (λ c, Chroma.below_minimum minimum_score (Chroma.similarity c.2) = false)
       cands).

End Spec.

(** * Concrete collaborators, used to run the definitions *)

Module Demo.
Import Router.

Definition db : DbConnector := {| query_execution := λ _, Ok [] |}.

Definition systems : Systems :=
  {| db_connector := db; llm_client := None;
     autogen_system := None; autogen_waited := None |}.

(** Payloads of the multi-agent pipeline, and a pipeline that yields a
    given list of payloads and stops. *)
Definition update : Payload :=
  {| payload_type := Some "processing_update"; body := None;
     payload_answer := None; payload_str := "ProcessingUpdatePayload" |}.

Definition answer_body : Body :=
  {| disambiguation_requests := None;
     body_sources :=
       Some [{| src_sql_query := "SELECT COUNT(*) FROM Customer";
                src_sql_rows := [{["COUNT(*)" := VInt 847]}] |}];
     body_follow_up_suggestions := None;
     body_answer := Some "There are 847 customers." |}.

Definition answer_payload : Payload :=
  {| payload_type := Some "answer_with_sources"; body := Some answer_body;
     payload_answer := None; payload_str := "AnswerWithSourcesPayload" |}.

Definition disambiguation_body : Body :=
  {| disambiguation_requests :=
       Some [{| assistant_question := Some "Which region?";
                dr_user_choices := Some ["North"; "South"] |};
             {| assistant_question := Some "Which year?";
                dr_user_choices := Some ["2024"] |}];
     body_sources := None; body_follow_up_suggestions := None;
     body_answer := None |}.

Definition disambiguation_payload : Payload :=
  {| payload_type := Some "disambiguation_requests";
     body := Some disambiguation_body;
     payload_answer := None; payload_str := "DisambiguationRequestsPayload" |}.

Definition pipeline (evs : list Payload) : AutoGenText2Sql :=
  {| process_user_message := λ _ _, {| events := evs; ending := None |} |}.

(** A tracking backend that accepts every call, and one that is down. *)
Definition backend_ok : Ledger.Backend :=
  {| Ledger.fresh_run_id := λ n, "run-" +:+ pretty n;
     Ledger.raises := λ _, None |}.

Definition backend_down : Ledger.Backend :=
  {| Ledger.fresh_run_id := λ n, "run-" +:+ pretty n;
     Ledger.raises := λ _, Some (Exn "MlflowException" "tracking store unavailable") |}.

Definition ambient : Ledger.Ambient :=
  {| Ledger.uuid4 := "6f1c"; Ledger.now_param := "2025-01-01T00:00:00";
     Ledger.now_artifact := "2025-01-01T00:00:01" |}.

Definition empty_store : Ledger.Store := {| Ledger.runs := []; Ledger.calls := 0 |}.

(** The response of the pattern strategy to a question about customers. *)
Definition pattern_response : Response :=
  set_question "How many customers do we have?"
    (set_explanation "Matched pattern 'how many customers'"
       (set_results (Some [{["customer_count" := VInt 847]}])
          (set_sql_query (Some "SELECT COUNT(*) as customer_count FROM Customer")
             (response "Pattern Match" true)))).

(** A collection answering every query with three candidates, at
    distances 0.2, 0.5 and 0.9. *)
Definition customer : dict :=
  {[ "Entity" := VStr "Customer"; "FQN" := VStr "db.sch.Customer";
     "CompleteEntityRelationshipsGraph" :=
       VList ["db.sch.Customer -> db.sch.SalesOrderHeader"] ]}.
Definition product : dict :=
  {[ "Entity" := VStr "Product"; "FQN" := VStr "db.sch.Product" ]}.
Definition address : dict :=
  {[ "Entity" := VStr "Address"; "FQN" := VStr "db.sch.Address" ]}.

Definition distance_02 : float := S754_finite false 7205759403792794 (-55).
Definition distance_05 : float := S754_finite false 4503599627370496 (-53).
Definition distance_09 : float := S754_finite false 8106479329266893 (-53).

Definition three_candidates : Chroma.QueryResult :=
  Spec.regular
    [(customer, distance_02); (product, distance_05); (address, distance_09)].

(** The customer entry as [get_entity_schemas] hands it over when the
    engine-specific fields are [db] and [sch]. *)
Definition customer_trimmed : dict :=
  {[ "Entity" := VStr "Customer";
     "CompleteEntityRelationshipsGraph" :=
       VList [".Customer -> .SalesOrderHeader"] ]}.

(** [str] of a string is the string. *)
#[export] Instance str_string : Chroma.Str string := λ s, s.

Definition connector : Chroma.Connector :=
  {| Chroma.run_embedding_request := λ l, Ok (map (λ _, [Chroma.one]) l);
     Chroma.query_embeddings := λ _ _ _, Ok three_candidates;
     Chroma.query_texts := λ _ _ _, Ok three_candidates;
     Chroma.upsert_rejects := λ _ _ _, None |}.

Definition environ : Chroma.Environ :=
  {| Chroma.CHROMA_TEXT2SQL_COLUMN_VALUE_STORE := None;
     Chroma.CHROMA_TEXT2SQL_SCHEMA_STORE := None |}.

(** A client without collections. *)
Definition no_collections : gmap string (gmap string Chroma.Entry) := ∅.

(** Two cache documents with the same question, and their vector fields. *)
Definition document_A1 : dict :=
  {[ "Question" := VStr "Q1"; "Answer" := VStr "A1" ]}.
Definition document_A2 : dict :=
  {[ "Question" := VStr "Q1"; "Answer" := VStr "A2" ]}.

Definition question_fields : list (string * string) :=
  [("Question", "QuestionEmbedding")].
Definition summary_fields : list (string * string) :=
  [("Summary", "SummaryEmbedding")].

(** What the first document leaves in the collection. *)
Definition entry_A1 : Chroma.Entry :=
  {| Chroma.entry_embedding := [Chroma.one];
     Chroma.entry_metadata :=
       {[ "Question" := VStr "Q1"; "Answer" := VStr "A1";
          "DateLastModified" := VStr "2025-01-01T00:00:00+00:00" ]};
     Chroma.entry_document := "Q1" |}.

End Demo.

(** * Direct generation ([process_ai_powered], [create_schema_context]) *)

(** [str.upper] is a builtin of the interpreter, like [str.lower]. *)
Class StrUpper := upper : string -> string.

Module Generation.
Import Router.

Definition nl : string := String (ascii_of_nat 10) EmptyString.
Definition dq : string := String (ascii_of_nat 34) EmptyString.

(** [str.isspace] and the regular-expression class [\s], on code points
    below 256. *)
Definition is_space (c : ascii) : bool :=
  let n := N_of_ascii c in
  ((9 <=? n) && (n <=? 13) || (28 <=? n) && (n <=? 32)
   || (n =? 133) || (n =? 160))%N.

(** [s.lstrip()], [s.rstrip()] and [s.strip()]. *)
Fixpoint lstrip (s : string) : string :=
  match s with
  | EmptyString => EmptyString
  | String c s' => if is_space c then lstrip s' else s
  end.

Fixpoint rstrip (s : string) : string :=
  match s with
  | EmptyString => EmptyString
  | String c s' =>
      match rstrip s' with
      | EmptyString => if is_space c then EmptyString
                       else String c EmptyString
      | r => String c r
      end
  end.

Definition strip (s : string) : string := rstrip (lstrip s).

(** [s[n:]] *)
Fixpoint drop_chars (n : nat) (s : string) : string :=
  match n, s with
  | O, _ => s
  | S n', String _ s' => drop_chars n' s'
  | S _, EmptyString => EmptyString
  end.

(** [re.sub] of the pattern made of [^], a literal [fence] and [\s*], by
    the empty string: a leading fence goes, with the white space after it. *)
Definition sub_leading (fence s : string) : string :=
  if Py.startswith fence s
  then lstrip (drop_chars (String.length fence) s)
  else s.

Definition fence : string := "```".

(** Whether the pattern [\s*], three backquotes, [$] matches at the start
    of [s]: after the longest run of white space come the backquotes, and
    then the end of the string or its final newline. *)
Definition trailing_fence_here (s : string) : bool :=
  let t := lstrip s in
  Py.startswith fence t &&
  (String.eqb (drop_chars 3 t) EmptyString || String.eqb (drop_chars 3 t) nl).

(** [re.sub] of that pattern by the empty string: the leftmost match is
    removed; what follows it is nothing or the final newline. *)
Fixpoint sub_trailing (s : string) : string :=
  match s with
  | EmptyString => EmptyString
  | String c s' =>
      if trailing_fence_here s then drop_chars 3 (lstrip s)
      else String c (sub_trailing s')
  end.

(** From the text of the completion to the query that is executed. *)
Definition clean_sql (text : string) : string :=
  let sql_query := strip text in
  let sql_query := sub_leading "```sql" sql_query in
  let sql_query := sub_leading fence sql_query in
  let sql_query := sub_trailing sql_query in
  strip sql_query.

(** [schema_info]: per table, in insertion order, its columns as
    name and type; [None] when no schema could be read. *)
Abbreviation SchemaInfo := (option (list (string * list (string * string)))).

Definition table_descriptions : list (string * string) :=
  [ ("Customer", "Customer information: names, contact details");
    ("Product", "Product catalog: names, categories, prices");
    ("SalesOrderHeader", "Sales orders: totals, dates, customer IDs, status");
    ("SalesOrderDetail", "Order line items: products, quantities, prices");
    ("ProductCategory", "Product categories and names");
    ("Address", "Customer addresses");
    ("CustomerAddress", "Links customers to addresses") ].

(** [table_descriptions.get(table_name, default)] *)
Fixpoint get_description (l : list (string * string)) (table_name : string)
    (default : string) : string :=
  match l with
  | [] => default
  | (k, v) :: l' =>
      if String.eqb k table_name then v
      else get_description l' table_name default
  end.

Definition key_relationships : string :=
  "
KEY RELATIONSHIPS:
- Customer.CustomerID = SalesOrderHeader.CustomerID
- SalesOrderHeader.SalesOrderID = SalesOrderDetail.SalesOrderID
- Product.ProductID = SalesOrderDetail.ProductID
- Product.ProductCategoryID = ProductCategory.ProductCategoryID
- Customer.CustomerID = CustomerAddress.CustomerID
- Address.AddressID = CustomerAddress.AddressID
".

(** The [for table_name, table_data in schema_info.items()] loop. *)
Fixpoint tables_loop (tables : list (string * list (string * string)))
    (context : string) : string :=
  match tables with
  | [] => context
  | (table_name, columns) :: tables' =>
      let description :=
        get_description table_descriptions table_name "Data table" in
      let context := context +:+ ("TABLE: " +:+ table_name +:+ nl) in
      let context := context +:+ ("Description: " +:+ description +:+ nl) in
      let context :=
        context +:+ ("Columns: " +:+ Py.join ", " (map fst columns)
                     +:+ nl +:+ nl) in
      tables_loop tables' context
  end.

Definition create_schema_context (schema_info : SchemaInfo) : string :=
  match schema_info with
  | None | Some [] => "No schema information available."
  | Some tables =>
      tables_loop tables ("ADVENTUREWORKS DATABASE SCHEMA:" +:+ nl +:+ nl)
      +:+ key_relationships
  end.

Definition system_prompt_head : string :=
  "You are an expert SQL analyst. Generate precise SQL queries for the AdventureWorks sales database.

".

Definition system_prompt_tail : string :=
  "

IMPORTANT NOTES:
- This is AdventureWorks, a sales/retail database (NOT a banking/loan database)
- For questions about " +:+ dq +:+ "portfolio" +:+ dq +:+ " or " +:+ dq +:+ "loans" +:+ dq +:+ ", interpret them as sales/revenue questions
- Use SUM(TotalDue) or SUM(SubTotal) from SalesOrderHeader for total sales/revenue
- Use COUNT(*) on Customer for customer counts
- Use Product table for product information

RULES:
1. Generate only valid SQLite syntax
2. Use appropriate JOINs when accessing multiple tables
3. Order results by relevance (highest values, most recent, etc.)
4. Limit results to reasonable numbers (10-20 rows)
5. Use proper column names as they exist in the schema above
6. Table names are case-sensitive: Customer, Product, SalesOrderHeader, etc.

Return ONLY the SQL query, no explanations or markdown formatting.".

(** The completion client: what the first content block of the answer
    holds, or the exception of the call.  [messages_create] takes the model,
    the system prompt and the user message; [chat_completions_create] the
    system prompt and the user message. *)
Record LlmClient := {
  messages_create : string -> string -> string -> res string;
  chat_completions_create : string -> string -> res string
}.

(** The body of the [try] block of [process_ai_powered].  [claude_model]
    is the environment variable of that name. *)
Definition process_ai_powered_try `{StrUpper} (claude_model : option string)
    (question : string) (db_connector : DbConnector) (llm_client : LlmClient)
    (llm_provider : string) (schema_info : SchemaInfo) : res Response :=
  let schema_context := create_schema_context schema_info in
  let system_prompt :=
    system_prompt_head +:+ schema_context +:+ system_prompt_tail in
  let user_prompt := "Question: " +:+ question in
  text ← (if String.eqb llm_provider "claude"
          then messages_create llm_client
                 (default "claude-3-haiku-20240307" claude_model)
                 system_prompt user_prompt
          else chat_completions_create llm_client system_prompt user_prompt);
  let sql_query := clean_sql text in
  result ← query_execution db_connector sql_query;
  Ok (set_explanation
        ("AI-generated SQL using " +:+ upper llm_provider +:+ ": '"
         +:+ question +:+ "'")
        (set_results (Some result)
           (set_sql_query (Some sql_query)
              (response ("AI-Powered (" +:+ upper llm_provider +:+ ")") true)))).

Definition process_ai_powered `{StrUpper} (claude_model : option string)
    (question : string) (db_connector : DbConnector) (llm_client : LlmClient)
    (llm_provider : string) (schema_info : SchemaInfo) : Response :=
  match process_ai_powered_try claude_model question db_connector llm_client
          llm_provider schema_info with
  | Ok r => r
  | Raise e =>
      set_error (exn_msg e)
        (set_results None (set_sql_query None (response "AI-Powered" false)))
  end.

End Generation.

(** * User feedback ([log_user_feedback]) *)

Module Feedback.
Import Router Ledger.

(** The content of the JSON artifact [feedback_<run_id>.json]. *)
Record FeedbackData := {
  fd_run_id : string;
  fd_user_rating : Z;
  fd_user_comment : string;
  fd_user_id : option string;
  fd_feedback_timestamp : string
}.

(** The tracking store together with the feedback artifacts uploaded to
    it, each with the run it belongs to and its file name. *)
Record Tracking := {
  store : Store;
  feedback_artifacts : list (string * string * FeedbackData)
}.

(** The two readings of the clock during one call. *)
Record FeedbackAmbient := {
  now_feedback_param : string;
  now_feedback_artifact : string
}.

(** The runs with a given identifier, updated in place. *)
Definition on_run (id : string) (f : Run -> Run) (rs : list Run) : list Run :=
  map (λ r, if String.eqb (run_id r) id then f r else r) rs.

Definition has_run (id : string) (rs : list Run) : bool :=
  existsb (λ r, String.eqb (run_id r) id) rs.

(** [mlflow.start_run(run_id=run_id)]: the run is resumed when it exists,
    and the call raises otherwise. *)
Definition resume_run (B : Backend) (id : string) : M unit := fun s =>
  match raises B (calls s) with
  | Some e => (Raise e, tick s)
  | None =>
      if has_run id (runs s)
      then (Ok tt, tick {| runs := on_run id (set_status "RUNNING") (runs s);
                           calls := calls s |})
      else (Raise (Exn "MlflowException" ("Run '" +:+ id +:+ "' not found")),
            tick s)
  end.

(** A call of the store seen from the tracking state. *)
Definition on_store {A} (m : M A) : StateRes Tracking A := fun t =>
  let '(r, s') := m (store t) in
  (r, {| store := s'; feedback_artifacts := feedback_artifacts t |}).

(** [mlflow.log_artifact(feedback_file)] *)
Definition log_feedback_artifact (B : Backend) (id file : string)
    (d : FeedbackData) : StateRes Tracking unit := fun t =>
  match raises B (calls (store t)) with
  | Some e => (Raise e, {| store := tick (store t);
                           feedback_artifacts := feedback_artifacts t |})
  | None => (Ok tt, {| store := tick (store t);
                       feedback_artifacts :=
                         feedback_artifacts t ++ [(id, file, d)] |})
  end.

(** The statements inside the [with] block. *)
Definition feedback_body (B : Backend) (amb : FeedbackAmbient) (id : string)
    (user_rating : Z) (user_comment : string) (user_id : option string)
  : StateRes Tracking unit :=
  on_store (api_call B (on_run id (add_metric "user_rating" (VInt user_rating))));;
  on_store (api_call B (on_run id (add_param "user_comment" user_comment)));;
  on_store (api_call B (on_run id
    (add_param "user_id"
       (if truthy_str user_id then default "" user_id else "anonymous"))));;
  on_store (api_call B (on_run id
    (add_param "feedback_timestamp" (now_feedback_param amb))));;
  let feedback_data :=
    {| fd_run_id := id; fd_user_rating := user_rating;
       fd_user_comment := user_comment; fd_user_id := user_id;
       fd_feedback_timestamp := now_feedback_artifact amb |} in
  let feedback_file := "feedback_" +:+ id +:+ ".json" in
  on_store (write_file B);;
  log_feedback_artifact B id feedback_file feedback_data;;
  on_store (remove_file B).

(** Leaving the [with] block ends the resumed run. *)
Definition end_resumed (id : string) (ok : bool) (t : Tracking) : Tracking :=
  {| store :=
       {| runs := on_run id (set_status (if ok then "FINISHED" else "FAILED"))
                    (runs (store t));
          calls := calls (store t) |};
     feedback_artifacts := feedback_artifacts t |}.

(** [Text2SQLMLflowTracker.log_user_feedback]: every exception is logged
    and dropped. *)
Definition log_user_feedback (B : Backend) (amb : FeedbackAmbient)
    (id : string) (user_rating : Z) (user_comment : string)
    (user_id : option string) (t : Tracking) : Tracking :=
  match on_store (resume_run B id) t with
  | (Raise _, t') => t'
  | (Ok _, t1) =>
      match feedback_body B amb id user_rating user_comment user_id t1 with
      | (Ok _, t2) => end_resumed id true t2
      | (Raise _, t2) => end_resumed id false t2
      end
  end.

End Feedback.

(** * Usage statistics ([get_experiment_stats]) *)

(** [Series.mean()] is a function of the table library; a run without
    the metric has no value in the column. *)
Class SeriesMean := series_mean : list (option value) -> float.

Module Stats.
Import Ledger.

(** The table of [mlflow.search_runs] has a column [metrics.<k>] for the
    keys [k] that some run has a metric for, holding no value for the runs
    without it; [runs['metrics.<k>']] raises [KeyError] for any other
    key. *)
Definition column (k : string) (runs : list Run) : res (list (option value)) :=
  if existsb (λ r, bool_decide (is_Some (Spec.metric k r))) runs
  then Ok (map (Spec.metric k) runs)
  else Raise (Exn "KeyError" ("'metrics." +:+ k +:+ "'")).

(** [x == 1.0] on a cell of a metric column: a number is compared as a
    float, and a missing value is not equal to anything. *)
Definition is_one (v : option value) : bool :=
  match v with
  | Some (VInt n) => (n =? 1)%Z
  | Some (VFloat f) => SFeqb f Chroma.one
  | _ => false
  end.

(** [len(runs[runs['metrics.<k>'] == 1.0])] *)
Definition count_ones (k : string) (runs : list Run) : res nat :=
  c ← column k runs; Ok (length (filter (λ v, is_one v = true) c)).

(** The dictionary of statistics, by its three shapes: [{}],
    [{"total_runs": 0}] and the full one, in which the two rating entries
    are optional. *)
Record Full := {
  total_runs : nat;
  successful_runs : nat;
  average_execution_time : float;
  pattern_match : nat;
  ai_powered : nat;
  autogen : nat;
  average_user_rating : option float;
  total_rated_runs : option nat
}.

Inductive Statistics :=
| Nothing
| NoRuns
| Filled (stats : Full).

(** The body of the [try] block.  [experiment] is the outcome of
    [mlflow.get_experiment_by_name], whether the experiment was found;
    [search_runs] the outcome of [mlflow.search_runs]. *)
Definition get_experiment_stats_try `{SeriesMean} (experiment : res bool)
    (search_runs : res (list Run)) : res Statistics :=
  found ← experiment;
  if negb found then Ok Nothing
  else
    runs ← search_runs;
    match runs with
    | [] => Ok NoRuns
    | _ :: _ =>
        successful_runs ← count_ones "success" runs;
        times ← column "execution_time_seconds" runs;
        pattern_match ← count_ones "pattern_match_used" runs;
        ai_powered ← count_ones "ai_powered_used" runs;
        autogen ← count_ones "autogen_used" runs;
        ratings ← column "user_rating" runs;
        let rated_runs := filter is_Some ratings in
        Ok (Filled
              {| total_runs := length runs;
                 successful_runs := successful_runs;
                 average_execution_time := series_mean times;
                 pattern_match := pattern_match;
                 ai_powered := ai_powered;
                 autogen := autogen;
                 average_user_rating :=
                   match rated_runs with
                   | [] => None
                   | _ :: _ => Some (series_mean rated_runs)
                   end;
                 total_rated_runs :=
                   match rated_runs with
                   | [] => None
                   | _ :: _ => Some (length rated_runs)
                   end |})
    end.

(** [Text2SQLMLflowTracker.get_experiment_stats]: any exception gives the
    empty dictionary. *)
Definition get_experiment_stats `{SeriesMean} (experiment : res bool)
    (search_runs : res (list Run)) : Statistics :=
  match get_experiment_stats_try experiment search_runs with
  | Ok stats => stats
  | Raise _ => Nothing
  end.

End Stats.

(** * The vocabulary of the further properties *)

Module Props.
Import Router Ledger.

(** The computation ends normally exactly when none of the calls it made
    raised. *)
Definition tracks (B : Backend) (m : M unit) : Prop :=
  ∀ s, calls s ≤ calls (m s).2 ∧
       ((m s).1 = Ok tt ↔
        ∀ k, calls s ≤ k < calls (m s).2 -> raises B k = None).

(** On a backend that is quiet for [n] calls, the computation ends
    normally after at most [n] calls, keeps the older runs and maps the
    active run by [g]. *)
Definition computes (B : Backend) (n : nat) (g : Run -> Run) (m : M unit)
  : Prop :=
  ∀ s base r0, runs s = base ++ [r0] -> Spec.quiet B (calls s) n ->
    ∃ k, k ≤ n ∧
         m s = (Ok tt, {| runs := base ++ [g r0]; calls := calls s + k |}).

(** Whatever the backend does, the computation keeps the older runs and
    the property [I] of the active run. *)
Definition keeps (I : Run -> Prop) (m : M unit) : Prop :=
  ∀ s base r0, runs s = base ++ [r0] -> I r0 ->
               ∃ r1, runs (m s).2 = base ++ [r1] ∧ I r1.

(** What [log_query_body] writes into the active run when no call raises. *)
Definition record_query (amb : Ambient) (id question approach : string)
    (result : Response) (execution_time : float) (session_id : option string)
    (r : Run) : Run :=
  let r := add_param "question" question r in
  let r := add_param "approach" approach r in
  let r := add_param "session_id"
             (if truthy_str session_id then default "" session_id
              else uuid4 amb) r in
  let r := add_param "timestamp" (now_param amb) r in
  let r := add_metric "execution_time_seconds" (VFloat execution_time) r in
  let r := add_metric "success" (VInt (if success result then 1 else 0)) r in
  let r := if truthy_str (sql_query result)
           then add_param "sql_query" (default "" (sql_query result)) r
           else r in
  let r := add_metric "result_count"
             (VInt (Z.of_nat (length (default [] (results result))))) r in
  let r := if String.eqb approach "Pattern Match"
           then add_metric "pattern_match_used" (VInt 1) r
           else if String.eqb approach "AI-Powered"
           then add_metric "ai_powered_used" (VInt 1) r
           else if String.eqb approach "AutoGen Multi-Agent"
           then add_metric "autogen_used" (VInt 1) r
           else r in
  let r := if negb (success result) && truthy_str (error result)
           then add_param "error_message" (default "" (error result)) r
           else r in
  add_artifact ("query_result_" +:+ id +:+ ".json")
    {| rd_question := question; rd_approach := approach;
       rd_execution_time := execution_time;
       rd_timestamp := now_artifact amb; rd_result := result |} r.

(** The value last logged under a parameter key. *)
Fixpoint lookup_param (k : string) (l : list (string * string)) : option string :=
  match l with
  | [] => None
  | (k', v) :: l' =>
      match lookup_param k l' with
      | Some v' => Some v'
      | None => if String.eqb k k' then Some v else None
      end
  end.

Definition param (k : string) (r : Run) : option string :=
  lookup_param k (run_params r).

(** [r'] is [r] with more logged under the same identifier: what was
    logged is still there, in its place. *)
Definition extends (r r' : Run) : Prop :=
  run_id r' = run_id r ∧ run_params r `prefix_of` run_params r' ∧
  run_metrics r `prefix_of` run_metrics r' ∧
  run_artifacts r' = run_artifacts r.

(** The runs of [t] are those of [rs0], the ones named [id] extended. *)
Definition rated (id : string) (rs0 : list Run) (t : Feedback.Tracking) : Prop :=
  ∃ g, (∀ r, extends r (g r)) ∧
       runs (Feedback.store t) = Feedback.on_run id g rs0.

(** What a feedback call keeps: the shape of the runs, and a list of
    feedback artifacts that is [fa], with at most one more when [more] is
    set. *)
Definition kept (id : string) (rs0 : list Run)
    (fa : list (string * string * Feedback.FeedbackData)) (more : bool)
    (t : Feedback.Tracking) : Prop :=
  rated id rs0 t ∧
  (Feedback.feedback_artifacts t = fa ∨
   (more = true ∧ ∃ a, Feedback.feedback_artifacts t = fa ++ [a])).

(** From a state in [P] the computation leads to a state in [Q], whether
    it ends normally or raises. *)
Definition leads (P : Feedback.Tracking -> Prop)
    (m : StateRes Feedback.Tracking unit) (Q : Feedback.Tracking -> Prop)
  : Prop :=
  ∀ t, P t -> Q (m t).2.

(** The stored entries of a collection, empty when it does not exist. *)
Definition entries (client : gmap string (gmap string Chroma.Entry))
    (name : string) : gmap string Chroma.Entry :=
  default ∅ (client !! name).

(** A field that is present and empty. *)
Definition empty_field (v : option value) : Prop :=
  v = Some (VList []) ∨ v = Some (VStr EmptyString).

(** The metric columns that [get_experiment_stats] reads. *)
Definition stats_columns : list string :=
  [ "success"; "execution_time_seconds"; "pattern_match_used";
    "ai_powered_used"; "autogen_used"; "user_rating" ].

(** One query of a session, as it is handed to [log_query_experiment]. *)
Record Query := {
  q_ambient : Ambient;
  q_question : string;
  q_approach : string;
  q_result : Response;
  q_time : float;
  q_session : option string
}.

(** A session: the queries are logged one after the other. *)
Definition log_queries (B : Backend) (qs : list Query) (s : Store) : Store :=
  fold_left
    (λ s q, (log_query_experiment B (q_ambient q) (q_question q)
               (q_approach q) (q_result q) (q_time q) (q_session q) s).2)
    qs s.

End Props.

(** * Further collaborators, used to run the definitions *)

Module Samples.
Import Router.

(** [str.upper] on ASCII text: [a]..[z] go to [A]..[Z]. *)
Definition ascii_upper_char (c : ascii) : ascii :=
  let n := nat_of_ascii c in
  if (97 <=? n)%nat && (n <=? 122)%nat then ascii_of_nat (n - 32) else c.

Fixpoint ascii_upper (s : string) : string :=
  match s with
  | EmptyString => EmptyString
  | String c s' => String (ascii_upper_char c) (ascii_upper s')
  end.

(** A database that is down. *)
Definition db_down : DbConnector :=
  {| query_execution := λ _,
       Raise (Exn "OperationalError" "no such table: SalesOrderHeader") |}.

(** What the pattern strategy makes of a question that holds the keys
    [top customers] and [total sales], with the database up and down. *)
Definition sales_question : string := "Top customers by total sales".

Definition sales_response : Response :=
  set_explanation "Matched pattern 'total sales'"
    (set_results (Some [])
       (set_sql_query
          (Some "SELECT SUM(TotalDue) as total_sales FROM SalesOrderHeader")
          (response "Pattern Match" true))).

Definition sales_failure : Response :=
  set_error "no such table: SalesOrderHeader"
    (set_results None
       (set_sql_query
          (Some "SELECT SUM(TotalDue) as total_sales FROM SalesOrderHeader")
          (response "Pattern Match" false))).

(** A payload of a type the consumer does not know, without a body. *)
Definition notice : Payload :=
  {| payload_type := Some "notice"; body := None;
     payload_answer := None; payload_str := "NoticePayload" |}.

(** A pipeline that yields a list of payloads and then raises. *)
Definition broken_pipeline (evs : list Payload) (e : exn) : AutoGenText2Sql :=
  {| process_user_message := λ _ _, {| events := evs; ending := Some e |} |}.

(** A completion wrapped in a code fence, and the query inside it. *)
Definition count_query : string := "SELECT COUNT(*) FROM Customer".

(** A tracking backend whose sixth call raises. *)
Definition backend_flaky : Ledger.Backend :=
  {| Ledger.fresh_run_id := λ n, "run-" +:+ pretty n;
     Ledger.raises := λ k,
       if (k =? 5)%nat then Some (Exn "MlflowException" "time-out") else None |}.

(** The tracking state after one query has been logged. *)
Definition logged : Feedback.Tracking :=
  {| Feedback.store :=
       (Ledger.log_query_experiment Demo.backend_ok Demo.ambient
          "How many customers do we have?" "Pattern Match"
          Demo.pattern_response Ledger.zero (Some "session")
          Demo.empty_store).2;
     Feedback.feedback_artifacts := [] |}.

Definition nothing_logged : Feedback.Tracking :=
  {| Feedback.store := Demo.empty_store; Feedback.feedback_artifacts := [] |}.

Definition feedback_ambient : Feedback.FeedbackAmbient :=
  {| Feedback.now_feedback_param := "2025-01-01T00:05:00";
     Feedback.now_feedback_artifact := "2025-01-01T00:05:01" |}.

(** A match whose relationship graph is a string, and what the
    post-processing makes of it when the engine-specific field is [db]. *)
Definition order : dict :=
  {[ "Entity" := VStr "Order"; "FQN" := VStr "db.Order";
     "SampleValues" := VList [];
     "CompleteEntityRelationshipsGraph" := VStr "db.x" ]}.

Definition order_exploded : dict :=
  {[ "Entity" := VStr "Order";
     "CompleteEntityRelationshipsGraph" := VList ["d"; "b"; "."; "x"] ]}.

(** A match whose [Entity] is a number. *)
Definition numbered : dict := {[ "Entity" := VInt 7 ]}.

Definition answering (cands : list (dict * float)) : Chroma.Connector :=
  {| Chroma.run_embedding_request := λ l, Ok (map (λ _, [Chroma.one]) l);
     Chroma.query_embeddings := λ _ _ _, Ok (Spec.regular cands);
     Chroma.query_texts := λ _ _ _, Ok (Spec.regular cands);
     Chroma.upsert_rejects := λ _ _ _, None |}.

(** A store that accepts an entry when the values of its metadata are
    strings, numbers or booleans, and rejects it otherwise. *)
Definition scalar (v : value) : bool :=
  match v with
  | VList _ | VNone => false
  | _ => true
  end.

Definition strict_connector : Chroma.Connector :=
  {| Chroma.run_embedding_request := λ l, Ok (map (λ _, [Chroma.one]) l);
     Chroma.query_embeddings := λ _ _ _, Ok Demo.three_candidates;
     Chroma.query_texts := λ _ _ _, Ok Demo.three_candidates;
     Chroma.upsert_rejects := λ _ _ e,
       if forallb (λ kv, scalar kv.2)
            (map_to_list (Chroma.entry_metadata e))
       then None
       else Some (Exn "ValueError"
                    "Expected metadata value to be a str, int, float or bool") |}.

(** A document of the same question that carries a list. *)
Definition document_tagged : dict :=
  {[ "Question" := VStr "Q1"; "Tags" := VList ["count"] ]}.

(** An embedding provider that is down. *)
Definition connector_down : Chroma.Connector :=
  {| Chroma.run_embedding_request := λ _,
       Raise (Exn "APIConnectionError" "Connection error.");
     Chroma.query_embeddings := λ _ _ _, Ok Demo.three_candidates;
     Chroma.query_texts := λ _ _ _, Ok Demo.three_candidates;
     Chroma.upsert_rejects := λ _ _ _, None |}.

#[export] Instance ascii_StrUpper : StrUpper := ascii_upper.

(** A completion client that answers every request with a fenced query. *)
Definition fenced_client : Generation.LlmClient :=
  {| Generation.messages_create := λ _ _ _,
       Ok ("```sql" +:+ Generation.nl +:+ count_query +:+ Generation.nl
           +:+ Generation.fence);
     Generation.chat_completions_create := λ _ _,
       Ok ("```sql" +:+ Generation.nl +:+ count_query +:+ Generation.nl
           +:+ Generation.fence) |}.

(** The systems with a completion client and no multi-agent system. *)
Definition systems_with_llm : Systems :=
  {| db_connector := Demo.db;
     llm_client :=
       Some (λ question,
               Generation.process_ai_powered None question Demo.db
                 fenced_client "claude" None);
     autogen_system := None; autogen_waited := None |}.

(** A schema with a table that has a description and one that has
    none. *)
Definition schema_info : option (list (string * list (string * string))) :=
  Some [ ("Customer", [("CustomerID", "INTEGER"); ("FirstName", "TEXT")]);
         ("Audit", [("id", "INTEGER")]) ].

(** One query of a session. *)
Definition customers_query : Props.Query :=
  {| Props.q_ambient := Demo.ambient;
     Props.q_question := "How many customers do we have?";
     Props.q_approach := "Pattern Match";
     Props.q_result := Demo.pattern_response;
     Props.q_time := Ledger.zero;
     Props.q_session := Some "session" |}.

(** A stand-in for the mean of the table library, for running the
    statistics where the mean is not looked at. *)
#[export] Instance first_SeriesMean : SeriesMean := λ column,
  match column with
  | Some (VFloat x) :: _ => x
  | _ => Ledger.zero
  end.

End Samples.

(** * Properties *)

(** ** Strings *)

Section StringFacts.
Import Spec.

Lemma append_nil_l s : "" +:+ s = s.
Proof. reflexivity. Qed.

Lemma append_cons c s t : String c s +:+ t = String c (s +:+ t).
Proof. reflexivity. Qed.

Lemma startswith_app p t : Py.startswith p (p +:+ t) = true.
Proof.
  induction p as [|a p IH]; simpl; [done|].
  by rewrite Ascii.eqb_refl, IH.
Qed.

Lemma startswith_inv p s :
  Py.startswith p s = true -> ∃ t, s = p +:+ t.
Proof.
  revert s; induction p as [|a p IH]; intros s Hs.
  - by exists s.
  - destruct s as [|b s]; simpl in Hs; [done|].
    apply andb_true_iff in Hs as [Hab Hps].
    apply Ascii.eqb_eq in Hab as ->.
    destruct (IH _ Hps) as [t ->]. by exists t.
Qed.

Lemma startswith_contains p s :
  Py.startswith p s = true -> Py.contains p s = true.
Proof. intros Hs. destruct s; simpl; by rewrite Hs. Qed.

Lemma contains_occurs p s : Py.contains p s = true <-> occurs_in p s.
Proof.
  split.
  - induction s as [|c s IH]; simpl; intros H.
    + rewrite orb_false_r in H. apply startswith_inv in H as [t Ht].
      by exists EmptyString, t.
    + apply orb_true_iff in H as [H|H].
      * apply startswith_inv in H as [t Ht]. by exists EmptyString, t.
      * destruct (IH H) as (pre & post & ->). by exists (String c pre), post.
  - intros (pre & post & ->).
    induction pre as [|c pre IH].
    + rewrite append_nil_l. apply startswith_contains, startswith_app.
    + rewrite append_cons. simpl. by rewrite IH, orb_true_r.
Qed.

Lemma contains_not_occurs p s : Py.contains p s = false <-> ¬ occurs_in p s.
Proof.
  rewrite <- contains_occurs. by destruct (Py.contains p s).
Qed.

Lemma any_exists {A} (f : A -> bool) l :
  Py.any f l = true <-> ∃ x, x ∈ l ∧ f x = true.
Proof.
  induction l as [|a l IH]; simpl.
  - split; [done|]. intros (x & Hx & _). by apply elem_of_nil in Hx.
  - destruct (f a) eqn:Ha.
    + split; [|done]. intros _. exists a. split; [left|done].
    + rewrite IH. split.
      * intros (x & Hx & Hf). exists x. split; [by right|done].
      * intros (x & Hx & Hf). apply elem_of_cons in Hx as [->|Hx];
          [congruence|by exists x].
Qed.

End StringFacts.

(** ** The classifier and the pattern strategy *)

Section Classifier.
Import Router Spec.
Context `{StrLower}.

Lemma pattern_loop_key keys ql :
  pattern_loop keys ql = true <-> ∃ k, k ∈ keys ∧ occurs_in k ql.
Proof.
  induction keys as [|k keys IH]; simpl.
  - split; [done|]. intros (x & Hx & _). by apply elem_of_nil in Hx.
  - destruct (Py.contains k ql) eqn:Hk.
    + split; [|done]. intros _. exists k. split; [left|].
      by apply contains_occurs.
    + rewrite IH. apply contains_not_occurs in Hk. split.
      * intros (x & Hx & Ho). exists x. split; [by right|done].
      * intros (x & Hx & Ho). apply elem_of_cons in Hx as [->|Hx];
          [done|by exists x].
Qed.

Lemma detect_classified q :
  classified (lower q) (detect_processing_mode q).
Proof.
  unfold detect_processing_mode.
  destruct (pattern_loop _ _) eqn:Hp.
  - apply classified_pattern, pattern_loop_key, Hp.
  - assert (¬ has_pattern_key (lower q)) as Hn.
    { intros Hk. apply pattern_loop_key in Hk. congruence. }
    destruct (Py.any _ _) eqn:Ha.
    + apply classified_multi_agent; [done|].
      apply any_exists in Ha as (w & Hw & Hc).
      exists w. split; [done|]. by apply contains_occurs.
    + apply classified_direct; [done|].
      intros (w & Hw & Ho).
      assert (Py.any (λ i, Py.contains i (lower q)) complex_indicators = true);
        [|congruence].
      apply any_exists. exists w. split; [done|]. by apply contains_occurs.
Qed.

Lemma detect_lower q q' :
  lower q' = lower q -> detect_processing_mode q' = detect_processing_mode q.
Proof. unfold detect_processing_mode. by intros ->. Qed.

(** The two loops over the dictionary stop at the same key. *)
Lemma loops_agree items ql db :
  pattern_loop (map fst items) ql = true ->
  ∃ k sql r, (k, sql) ∈ items ∧ Py.contains k ql = true ∧
             pattern_items_loop items ql db = Some r ∧
             method r = "Pattern Match" ∧ sql_query r = Some sql.
Proof.
  induction items as [|[k sql] items IH]; simpl; [done|].
  destruct (Py.contains k ql) eqn:Hk.
  - intros _. exists k, sql.
    destruct (query_execution db sql); eexists; (split; [left|]); done.
  - intros Hl. destruct (IH Hl) as (k' & sql' & r & Hin & ? & ? & ? & ?).
    exists k', sql', r. split; [by right|done].
Qed.

Lemma loops_agree_none items ql db :
  pattern_loop (map fst items) ql = false ->
  pattern_items_loop items ql db = None.
Proof.
  induction items as [|[k sql] items IH]; simpl; [done|].
  destruct (Py.contains k ql); [done|apply IH].
Qed.

Lemma detect_pattern_loop q :
  detect_processing_mode q = "Pattern Match" <->
  pattern_loop (map fst PATTERN_QUERIES) (lower q) = true.
Proof.
  unfold detect_processing_mode.
  destruct (pattern_loop _ _); [done|].
  by destruct (Py.any _ _).
Qed.

End Classifier.

(** C1.  With no override (mode ["Smart Auto"]) the selected mode follows
    the three-way rule on the lowercased question: Pattern Match when a
    dictionary key occurs in it, otherwise Multi-Agent when a complexity
    keyword occurs in it, otherwise direct generation.  The keys and the
    keywords are their own lowercase forms, so the match ignores the case of
    the question; and two questions with the same lowercase form are
    classified alike. *)
Theorem C1_classification `{StrLower} (q : string) :
  Spec.classified (lower q) (Router.select_mode "Smart Auto" q) ∧
  Forall (λ k, Py.ascii_lower k = k)
    (map fst Router.PATTERN_QUERIES ++ Router.complex_indicators) ∧
  ∀ q', lower q' = lower q ->
        Router.select_mode "Smart Auto" q' = Router.select_mode "Smart Auto" q.
Proof.
  split; [|split].
  - apply detect_classified.
  - repeat constructor.
  - intros q' Hq. by apply detect_lower.
Qed.

Lemma C1_classification_witness :
  Py.ascii_lower "HOW MANY Customers?" = Py.ascii_lower "how many customers?" ∧
  Router.select_mode (H := ascii_StrLower) "Smart Auto" "HOW MANY Customers?" =
  Router.select_mode (H := ascii_StrLower) "Smart Auto" "how many customers?".
Proof.
  split; [reflexivity|].
  apply (proj2 (proj2 (C1_classification (H := ascii_StrLower)
                         "how many customers?"))).
  reflexivity.
Defined.

(** C9.  When the classifier selects Pattern Match, the pattern strategy
    finds a key for the same question: it returns a response of method
    Pattern Match carrying the template of a matching key, never the
    no-match sentinel, and the dispatcher hands that response over instead
    of falling through. *)
Theorem C9_pattern_match_found `{StrLower} (q : string)
    (systems : Router.Systems) (elapsed : float) :
  Router.detect_processing_mode q = "Pattern Match" ->
  ∃ k sql r,
    (k, sql) ∈ Router.PATTERN_QUERIES ∧ Spec.occurs_in k (lower q) ∧
    Router.process_pattern_match q (Router.db_connector systems) = Some r ∧
    Router.method r = "Pattern Match" ∧ Router.sql_query r = Some sql ∧
    Router.unified_query_processor "Smart Auto" q systems elapsed =
      Router.set_processing_time elapsed r.
Proof.
  intros Hd.
  pose proof (proj1 (detect_pattern_loop q) Hd) as Hl.
  destruct (loops_agree _ _ (Router.db_connector systems) Hl)
    as (k & sql & r & Hin & Hk & Hr & Hm & Hs).
  exists k, sql, r. repeat split; try done.
  - by apply contains_occurs.
  - unfold Router.unified_query_processor, Router.select_mode. simpl.
    rewrite Hd. simpl. unfold Router.process_pattern_match in *. by rewrite Hr.
Qed.

Lemma C9_pattern_match_found_witness :
  ∃ k sql r,
    (k, sql) ∈ Router.PATTERN_QUERIES ∧
    Spec.occurs_in k (Py.ascii_lower "How many customers do we have?") ∧
    Router.process_pattern_match (H := ascii_StrLower)
      "How many customers do we have?" Demo.db = Some r ∧
    Router.method r = "Pattern Match" ∧ Router.sql_query r = Some sql ∧
    Router.unified_query_processor (H := ascii_StrLower) "Smart Auto"
      "How many customers do we have?" Demo.systems Ledger.zero =
      Router.set_processing_time Ledger.zero r.
Proof.
  apply (C9_pattern_match_found (H := ascii_StrLower)
           "How many customers do we have?" Demo.systems Ledger.zero).
  reflexivity.
Defined.

(** ** The multi-agent stream consumer *)

Section StreamConsumer.
Import Router Spec.

Lemma stream_loop_skip pre evs ending :
  Forall non_terminal pre ->
  stream_loop (pre ++ evs) ending = stream_loop evs ending.
Proof.
  induction 1 as [|p pre Hp _ IH]; [done|]. simpl.
  destruct Hp as [-> | ->]; [done|]. apply IH.
Qed.

Lemma stream_loop_first pre e post ending t :
  Forall non_terminal pre ->
  payload_type e = Some t -> t ≠ "processing_update" ->
  stream_loop (pre ++ e :: post) ending = Ok (Some e).
Proof.
  intros Hpre He Ht. rewrite stream_loop_skip by done. simpl. rewrite He.
  destruct (String.eqb_spec t "processing_update"); done.
Qed.

Lemma stream_loop_none pre :
  Forall non_terminal pre -> stream_loop pre None = Ok None.
Proof.
  intros Hpre. rewrite <- (app_nil_r pre). by rewrite stream_loop_skip.
Qed.

End StreamConsumer.

Section StreamMore.
Import Router Spec.

Lemma requests_loop_spec reqs : ∀ cs qs,
  requests_loop reqs cs qs =
  (cs ++ concat (map (λ r, default [] (dr_user_choices r)) reqs),
   qs ++ omap (λ r, if truthy_str (assistant_question r)
                    then assistant_question r else None) reqs).
Proof.
  induction reqs as [|r reqs IH]; intros cs qs; simpl.
  - by rewrite !app_nil_r.
  - rewrite IH. destruct (assistant_question r) as [[|c q]|];
      destruct (dr_user_choices r) as [[|x xs]|]; simpl;
      by rewrite <- ?app_assoc.
Qed.

Lemma sources_loop_spec srcs : ∀ sql rows,
  sources_loop srcs sql rows =
  match last srcs with
  | Some s => (Some (src_sql_query s), src_sql_rows s)
  | None => (sql, rows)
  end.
Proof.
  induction srcs as [|s srcs IH]; intros sql rows; simpl; [done|].
  rewrite IH. destruct srcs as [|s' srcs]; [done|].
  change (last (s :: s' :: srcs)) with (last (s' :: srcs)).
  destruct (last (s' :: srcs)) eqn:E; [done|]. by apply last_None in E.
Qed.

Lemma omap_length_le {A B} (f : A -> option B) (l : list A) :
  length (omap f l) ≤ length l.
Proof.
  induction l as [|x l IH]; [done|].
  change (omap f (x :: l))
    with (match f x with Some y => y :: omap f l | None => omap f l end).
  destruct (f x); simpl; lia.
Qed.

End StreamMore.




(** ** The ledger *)

Section LedgerFacts.
Import Router Ledger Spec.
Variable B : Backend.

Lemma on_active_snoc f base r : on_active f (base ++ [r]) = base ++ [f r].
Proof.
  induction base as [|x base IH]; [done|].
  simpl. rewrite IH. by destruct base.
Qed.

Lemma lookup_last_snoc k l k' v :
  lookup_last k (l ++ [(k', v)]) =
  if String.eqb k k' then Some v else lookup_last k l.
Proof.
  induction l as [|[k0 v0] l IH]; simpl; [done|].
  rewrite IH. by destruct (String.eqb k k').
Qed.

Local Abbreviation logs := (Spec.logs B).

Lemma logs_skip P : logs 0 P P skip.
Proof.
  intros s base r0 Hs. exists r0. simpl.
  split; [done|]. split; [done|]. split; [lia|done].
Qed.

Lemma logs_api f (P Q : Run -> Prop) :
  (∀ r, run_id (f r) = run_id r) ->
  (∀ r, P r -> Q (f r)) -> logs 1 P Q (api_call B (on_active f)).
Proof.
  intros Hid Hf s base r0 Hs. unfold api_call.
  destruct (raises B (calls s)) eqn:Hr; simpl.
  - exists r0. split; [done|]. split; [done|]. split; [lia|].
    intros _ Hq. rewrite Hq in Hr by lia. done.
  - exists (f r0). rewrite Hs, on_active_snoc.
    split; [done|]. split; [apply Hid|]. split; [lia|].
    intros HP _. split; [done|by apply Hf].
Qed.

Lemma logs_call P : logs 1 P P (api_call B (λ rs, rs)).
Proof.
  intros s base r0 Hs. unfold api_call.
  destruct (raises B (calls s)) eqn:Hr; simpl.
  - exists r0. split; [done|]. split; [done|]. split; [lia|].
    intros _ Hq. rewrite Hq in Hr by lia. done.
  - exists r0. split; [done|]. split; [done|]. split; [lia|done].
Qed.

Lemma logs_bind n1 n2 P Q R (m1 m2 : M unit) :
  logs n1 P Q m1 -> logs n2 Q R m2 -> logs (n1 + n2) P R (m1 ;; m2).
Proof.
  intros H1 H2 s base r0 Hs.
  destruct (H1 s base r0 Hs) as (r1 & Hr1 & Hi1 & Hc1 & Hk1).
  unfold mbind, StateRes_bind.
  destruct (m1 s) as [[[]|e] s1] eqn:Hm1; simpl in *.
  - destruct (H2 s1 base r1 Hr1) as (r2 & Hr2 & Hi2 & Hc2 & Hk2).
    exists r2. split; [done|]. split; [congruence|]. split; [lia|].
    intros HP Hq. destruct Hk1 as [_ HQ]; [done|intros k Hk; apply Hq; lia|].
    apply Hk2; [done|]. intros k Hk. apply Hq. lia.
  - exists r1. split; [done|]. split; [done|]. split; [lia|].
    intros HP Hq. destruct Hk1 as [Hbad _]; [done|intros k Hk; apply Hq; lia|].
    done.
Qed.

Lemma logs_weaken n n' P Q m : n ≤ n' -> logs n P Q m -> logs n' P Q m.
Proof.
  intros Hn Hm s base r0 Hs.
  destruct (Hm s base r0 Hs) as (r1 & Hr1 & Hi1 & Hc1 & Hk1).
  exists r1. split; [done|]. split; [done|]. split; [lia|].
  intros HP Hq. apply Hk1; [done|]. intros k Hk. apply Hq. lia.
Qed.

Lemma logs_if (c : bool) n P Q m1 m2 :
  logs n P Q m1 -> logs n P Q m2 -> logs n P Q (if c then m1 else m2).
Proof. by destruct c. Qed.

Lemma log_param_id id k v : logs 1 (has_id id) (has_id id) (log_param B k v).
Proof. apply logs_api; by intros r. Qed.

Lemma log_metric_id id k v : logs 1 (has_id id) (has_id id) (log_metric B k v).
Proof. apply logs_api; by intros r. Qed.

Lemma log_metric_success id v :
  logs 1 (has_id id) (has_success id v) (log_metric B "success" v).
Proof.
  apply logs_api; [done|]. intros r Hr. split; [done|].
  unfold metric. simpl. by rewrite lookup_last_snoc.
Qed.

Lemma log_param_keeps id v k x :
  logs 1 (has_success id v) (has_success id v) (log_param B k x).
Proof. apply logs_api; by intros r. Qed.

Lemma log_metric_keeps id v k x :
  String.eqb "success" k = false ->
  logs 1 (has_success id v) (has_success id v) (log_metric B k x).
Proof.
  intros Hk. apply logs_api; [done|]. intros r [Hid Hm]. split; [done|].
  unfold metric in *. simpl. by rewrite lookup_last_snoc, Hk.
Qed.

Lemma log_artifact_keeps id v f d :
  logs 1 (has_success id v) (has_success id v) (log_artifact B f d).
Proof. apply logs_api; by intros r. Qed.

Lemma log_query_body_logs amb id question approach result t sid :
  logs 13 (has_id id)
    (has_success id (VInt (if success result then 1 else 0)))
    (log_query_body B amb id question approach result t sid).
Proof.
  unfold log_query_body. set (v := VInt _).
  apply (logs_bind 1 12 _ (has_id id)); [apply log_param_id|].
  apply (logs_bind 1 11 _ (has_id id)); [apply log_param_id|].
  apply (logs_bind 1 10 _ (has_id id)); [apply log_param_id|].
  apply (logs_bind 1 9 _ (has_id id)); [apply log_param_id|].
  apply (logs_bind 1 8 _ (has_id id)); [apply log_metric_id|].
  apply (logs_bind 1 7 _ (has_success id v)); [apply log_metric_success|].
  apply (logs_bind 1 6 _ (has_success id v)).
  { apply logs_if; [apply log_param_keeps|].
    apply (logs_weaken 0); [lia|apply logs_skip]. }
  apply (logs_bind 1 5 _ (has_success id v)).
  { destruct (results result) as [[|r rs]|]; by apply log_metric_keeps. }
  apply (logs_bind 1 4 _ (has_success id v)).
  { repeat (apply logs_if; [by apply log_metric_keeps|]).
    apply (logs_weaken 0); [lia|apply logs_skip]. }
  apply (logs_bind 1 3 _ (has_success id v)).
  { apply logs_if; [apply log_param_keeps|].
    apply (logs_weaken 0); [lia|apply logs_skip]. }
  apply (logs_bind 1 2 _ (has_success id v)); [apply logs_call|].
  apply (logs_bind 1 1 _ (has_success id v));
    [apply log_artifact_keeps|apply logs_call].
Qed.

(** What one call of [log_query_experiment] does to the store. *)
Lemma log_query_experiment_runs amb question approach result t sid s :
  let out := log_query_experiment B amb question approach result t sid s in
  (out.1 = None ∧ runs out.2 = runs s ∧ is_Some (raises B (calls s))) ∨
  (∃ run, out.1 = Some (run_id run) ∧ runs out.2 = runs s ++ [run] ∧
          (quiet B (calls s) 14 ->
           metric "success" run = Some (VInt (if success result then 1 else 0)) ∧
           run_status run = "FINISHED")).
Proof.
  unfold log_query_experiment, start_run, api_call.
  destruct (raises B (calls s)) eqn:Hr; simpl; [left; eauto|right].
  set (id := fresh_run_id B (length (runs s))).
  set (s1 := tick _).
  destruct (log_query_body_logs amb id question approach result t sid
              s1 (runs s) (new_run id) eq_refl) as (r1 & Hr1 & Hi & Hc & Hk).
  simpl in Hi.
  destruct (log_query_body B amb id question approach result t sid s1)
    as [[[]|e] s2] eqn:Hb; simpl in *.
  - exists (set_status "FINISHED" r1). rewrite Hr1, on_active_snoc.
    split; [by rewrite <- Hi|]. split; [done|].
    intros Hq. destruct Hk as [_ [_ Hm]]; [done| |done].
    intros k Hk. apply Hq. lia.
  - exists (set_status "FAILED" r1). rewrite Hr1, on_active_snoc.
    split; [by rewrite <- Hi|]. split; [done|].
    intros Hq. destruct Hk as [Hbad _]; [done| |done].
    intros k Hk. apply Hq. lia.
Qed.

End LedgerFacts.

Lemma success_field_eq (r : Router.Response) :
  Spec.success_field r = VInt (if Router.success r then 1 else 0).
Proof.
  unfold Spec.success_field, Spec.variant.
  destruct (Router.success r); [|done]. by case_bool_decide.
Qed.

(** C2, as the code has it.  Every call of the display step makes exactly one
    logging call, before anything is shown.  That call leaves the older
    records alone and adds at most one record, none when it hands back no
    run identifier; and when the tracking backend raises in none of its
    calls, it adds exactly one record, whose [success] metric is 1 for a
    tabular or disambiguation response and 0 for a failure. *)
Theorem C2_record_per_dispatch (B : Ledger.Backend) (amb : Ledger.Ambient)
    (session_id : string) (response : Router.Response) (s : Ledger.Store) :
  let out := Ledger.display_unified_results B amb session_id response s in
  out.1.1 = Ledger.Logged out.1.2 ::
            map Ledger.Shown (Ledger.display_body response) ∧
  (∃ new, Ledger.runs out.2 = Ledger.runs s ++ new ∧ length new ≤ 1 ∧
          (out.1.2 = None -> new = [])) ∧
  (Spec.quiet B (Ledger.calls s) 14 ->
   Spec.one_record_created s out.2 response ∧ is_Some out.1.2).
Proof.
  unfold Ledger.display_unified_results.
  pose proof (log_query_experiment_runs B amb
                (default "" (Router.question response)) (Router.method response)
                response (default Ledger.zero (Router.processing_time response))
                (Some session_id) s) as Hl.
  destruct (Ledger.log_query_experiment _ _ _ _ _ _ _ s) as [rid s'].
  simpl in *. split; [done|].
  destruct Hl as [(-> & Hruns & Hraise) | (run & -> & Hruns & Hq)].
  - split.
    + exists []. rewrite Hruns, app_nil_r.
      split; [done|]. split; [simpl; lia|done].
    + intros Hquiet. destruct Hraise as [e He].
      rewrite Hquiet in He by lia. done.
  - split.
    + exists [run]. split; [done|]. split; [simpl; lia|done].
    + intros Hquiet. destruct (Hq Hquiet) as [Hm _].
      split; [|by eexists]. exists run. split; [done|].
      by rewrite success_field_eq.
Qed.

Lemma C2_record_per_dispatch_witness :
  Spec.quiet Demo.backend_ok 0 14 ∧
  Spec.one_record_created Demo.empty_store
    (Ledger.display_unified_results Demo.backend_ok Demo.ambient "session"
       Demo.pattern_response Demo.empty_store).2
    Demo.pattern_response.
Proof.
  assert (Spec.quiet Demo.backend_ok 0 14) as Hq by (intros k _; reflexivity).
  split; [exact Hq|].
  exact (proj1 (proj2 (proj2 (C2_record_per_dispatch Demo.backend_ok
           Demo.ambient "session" Demo.pattern_response Demo.empty_store)) Hq)).
Defined.

(** C2, as stated, fails when the tracking backend is down: the response
    is shown, and the ledger has no record of it. *)
Lemma C2_counterexample :
  let out := Ledger.display_unified_results Demo.backend_down Demo.ambient
               "session" Demo.pattern_response Demo.empty_store in
  Ledger.Shown (Ledger.UiSuccess "Pattern Match") ∈ out.1.1 ∧
  Ledger.runs out.2 = [] ∧
  ¬ Spec.one_record_created Demo.empty_store out.2 Demo.pattern_response.
Proof.
  split; [|split].
  - right. left.
  - reflexivity.
  - intros (run & Hruns & _). simpl in Hruns. discriminate Hruns.
Qed.

(** ** Floats *)

Section FloatFacts.
Import Spec.

Lemma compare_cont_Eq a b : PosDef.Pos.compare_cont Eq a b = Pos.compare a b.
Proof. reflexivity. Qed.

Lemma SFcompare_antisym x y :
  SFcompare y x = option_map CompOpp (SFcompare x y).
Proof.
  destruct x as [sx|sx| |sx mx ex], y as [sy|sy| |sy my ey]; simpl;
    try done; try (by destruct sx); try (by destruct sy);
    try (by destruct sx, sy).
  destruct sx, sy; simpl; try done; rewrite (Z.compare_antisym ex ey);
    destruct (ex ?= ey)%Z; simpl; try done;
    rewrite (compare_cont_Eq my mx), (compare_cont_Eq mx my),
      (Pos.compare_antisym mx my); by destruct (mx ?= my)%positive.
Qed.

Lemma SFcompare_numbers x y :
  is_number x = true -> is_number y = true -> is_Some (SFcompare x y).
Proof. destruct x, y; simpl; try done; by eexists. Qed.

(** Among numbers, not being below is being at least. *)
Lemma not_below_at_least x y :
  is_number x = true -> is_number y = true ->
  SFltb x y = false -> SFleb y x = true.
Proof.
  intros Hx Hy. unfold SFltb, SFleb. rewrite (SFcompare_antisym x y).
  destruct (SFcompare_numbers x y Hx Hy) as [c ->]. by destruct c.
Qed.

Lemma threshold_five : Chroma.rescaled Chroma.five = one_and_a_quarter.
Proof. vm_compute. reflexivity. Qed.

(** A score of at most 1 is below 1.25. *)
Lemma at_most_one_below s :
  SFleb s Chroma.one = true -> SFltb s one_and_a_quarter = true.
Proof.
  unfold SFleb, SFltb, Chroma.one, one_and_a_quarter.
  destruct s as [sx|sx| |sx mx ex].
  - destruct sx; intros _; reflexivity.
  - destruct sx; cbn; [reflexivity|discriminate].
  - cbn. discriminate.
  - unfold SFcompare. destruct sx; [reflexivity|].
    destruct (ex ?= -52)%Z; [|reflexivity|discriminate].
    rewrite compare_cont_Eq.
    destruct (Pos.compare_spec mx 4503599627370496) as [E|E|E].
    + subst mx. intros _. vm_compute. reflexivity.
    + intros _. rewrite compare_cont_Eq.
      assert ((mx ?= 5629499534213120)%positive = Lt) as ->; [|reflexivity].
      apply Pos.compare_lt_iff. apply (Pos.lt_trans _ _ _ E).
      vm_compute. reflexivity.
    + discriminate.
Qed.

End FloatFacts.

(** ** Retrieval *)

Section RetrievalFacts.
Import Chroma Spec.

Lemma results_loop_sound mds : ∀ i ds inc ms acc out,
  results_loop i mds ds inc ms acc = Ok out ->
  ∃ new, out = acc ++ new ∧
    ∀ e, e ∈ new ->
      ∃ j md s, mds !! j = Some (Some md) ∧ score_at ds (i + j) = Ok s ∧
                below_minimum ms s = false ∧ e = result_item inc md s.
Proof.
  induction mds as [|omd mds IH]; intros i ds inc ms acc out; simpl.
  - intros [= <-]. exists []. rewrite app_nil_r. split; [done|].
    intros e He. by apply elem_of_nil in He.
  - unfold mbind, res_bind, Py.bind.
    destruct (score_at ds i) as [s|x] eqn:Hs; [|done].
    destruct (below_minimum ms s) eqn:Hb.
    + intros Hl. destruct (IH _ _ _ _ _ _ Hl) as (new & -> & Hnew).
      exists new. split; [done|]. intros e He.
      destruct (Hnew e He) as (j & md & s' & Hj & Hsc & Hbl & ->).
      exists (S j), md, s'. by rewrite Nat.add_succ_r.
    + destruct omd as [md|]; [|done].
      intros Hl. destruct (IH _ _ _ _ _ _ Hl) as (new & -> & Hnew).
      exists (result_item inc md s :: new).
      split; [by rewrite <- app_assoc|]. intros e He.
      apply elem_of_cons in He as [->|He].
      * exists 0, md, s. by rewrite Nat.add_0_r.
      * destruct (Hnew e He) as (j & md' & s' & Hj & Hsc & Hbl & ->).
        exists (S j), md', s'. by rewrite Nat.add_succ_r.
Qed.

Lemma results_loop_regular cands : ∀ pre inc ms acc,
  results_loop (length pre) (map (λ c, Some c.1) cands)
    (Some [map snd (pre ++ cands)]) inc ms acc =
  Ok (acc ++ passing inc ms cands).
Proof.
  induction cands as [|c cands IH]; intros pre inc ms acc; simpl.
  - by rewrite app_nil_r.
  - rewrite list_lookup_fmap, list_lookup_middle by done. simpl.
    specialize (IH (pre ++ [c]) inc ms).
    rewrite length_app, Nat.add_1_r, <- app_assoc in IH. simpl in IH.
    unfold passing. rewrite filter_cons.
    destruct (below_minimum ms (Chroma.similarity c.2)) eqn:Hb.
    + rewrite decide_False by done. apply IH.
    + rewrite decide_True by done. rewrite IH. simpl.
      by rewrite <- app_assoc.
Qed.

Lemma results_loop_all_below mds : ∀ i ds inc ms acc,
  (∀ j, j < length mds ->
        ∃ s, score_at ds (i + j) = Ok s ∧ below_minimum ms s = true) ->
  results_loop i mds ds inc ms acc = Ok acc.
Proof.
  induction mds as [|omd mds IH]; intros i ds inc ms acc Hall; simpl; [done|].
  destruct (Hall 0) as (s & Hs & Hb); [simpl; lia|].
  rewrite Nat.add_0_r in Hs. rewrite Hs. simpl. rewrite Hb.
  apply IH. intros j Hj. destruct (Hall (S j)) as (s' & Hs' & Hb');
    [simpl; lia|]. exists s'. by rewrite Nat.add_succ_r in Hs'.
Qed.

(** [run_ai_search_query], one step unfolded. *)
Lemma run_ai_search_query_unfold C q vf rf idx sc top inc ms client :
  run_ai_search_query C q vf rf idx sc top inc ms client =
  (r ← search C (default ∅ (client !! idx)) q vf top;
   process_results r inc ms,
   match client !! idx with
   | Some _ => client
   | None => <[idx := ∅]> client
   end).
Proof.
  unfold run_ai_search_query, _get_or_create_collection, lift.
  unfold mbind at 1 2, StateRes_bind.
  destruct (client !! idx); simpl;
    by destruct (search C _ q vf top).
Qed.

End RetrievalFacts.

(** C3.  When a minimum score is supplied, every returned entry is the
    rendering of a candidate whose score is not below [minimum_score / 4.0]
    (so, for scores and a threshold that are numbers, at least the
    threshold), with that score attached when scores are requested; and on
    an answer whose candidates all carry metadata and a distance, the
    returned sequence is exactly the candidates that are not below the
    threshold, in their order: the others are dropped.  The statement does
    not depend on [vector_fields], hence on the search branch. *)
Theorem C3_minimum_score_filter (C : Chroma.Connector) (q : string)
    (vf rf : list string) (idx : string) (sc : option string) (top : Z)
    (inc : bool) (m : float) (client client' : gmap string (gmap string Chroma.Entry))
    (out : list dict) :
  Chroma.run_ai_search_query C q vf rf idx sc top inc (Some m) client =
    (Ok out, client') ->
  ∃ coll r,
    Chroma.search C coll q vf top = Ok r ∧
    (∀ e, e ∈ out ->
       ∃ j md s,
         Spec.candidate r j md s ∧ e = Chroma.result_item inc md s ∧
         SFltb s (Chroma.rescaled m) = false ∧
         (Spec.is_number s = true -> Spec.is_number (Chroma.rescaled m) = true ->
          SFleb (Chroma.rescaled m) s = true) ∧
         (inc = true -> e !! "@search.score" = Some (VFloat s))) ∧
    (∀ cands, r = Spec.regular cands -> out = Spec.passing inc (Some m) cands).
Proof.
  rewrite run_ai_search_query_unfold. intros [= Hrun _].
  exists (default ∅ (client !! idx)).
  destruct (Chroma.search C _ q vf top) as [r|x]; [|done].
  exists r. split; [done|]. simpl in Hrun. split.
  - unfold Chroma.process_results in Hrun.
    destruct (Chroma.metadatas r) as [[|m0 rest]|] eqn:Hmd.
    1,3: injection Hrun as <-; intros e He; by apply elem_of_nil in He.
    apply results_loop_sound in Hrun as (new & -> & Hnew). simpl.
    intros e He. destruct (Hnew e He) as (j & md & s & Hj & Hs & Hb & ->).
    exists j, md, s. split; [by exists m0, rest|]. split; [done|].
    split; [done|]. split.
    + intros Hn1 Hn2. by apply not_below_at_least.
    + intros ->. apply lookup_insert_eq.
  - intros cands ->. unfold Chroma.process_results in Hrun. simpl in Hrun.
    pose proof (results_loop_regular cands [] inc (Some m) []) as Hreg.
    simpl in Hreg. rewrite Hreg in Hrun. by injection Hrun as <-.
Qed.

Lemma C3_minimum_score_filter_witness :
  ∃ coll r,
    Chroma.search Demo.connector coll "customers" ["DefinitionEmbedding"] 3
      = Ok r ∧
    (∀ e, e ∈ [Chroma.result_item true Demo.customer
                 (Chroma.similarity Demo.distance_02);
               Chroma.result_item true Demo.product
                 (Chroma.similarity Demo.distance_05)] ->
       ∃ j md s,
         Spec.candidate r j md s ∧ e = Chroma.result_item true md s ∧
         SFltb s (Chroma.rescaled Chroma.one_and_a_half) = false ∧
         (Spec.is_number s = true ->
          Spec.is_number (Chroma.rescaled Chroma.one_and_a_half) = true ->
          SFleb (Chroma.rescaled Chroma.one_and_a_half) s = true) ∧
         (true = true -> e !! "@search.score" = Some (VFloat s))) ∧
    (∀ cands, r = Spec.regular cands ->
       [Chroma.result_item true Demo.customer
          (Chroma.similarity Demo.distance_02);
        Chroma.result_item true Demo.product
          (Chroma.similarity Demo.distance_05)]
       = Spec.passing true (Some Chroma.one_and_a_half) cands).
Proof.
  apply (C3_minimum_score_filter Demo.connector "customers"
           ["DefinitionEmbedding"] [] "text2sql-schema-store" None 3 true
           Chroma.one_and_a_half ∅ {["text2sql-schema-store" := ∅]}).
  rewrite run_ai_search_query_unfold. f_equal.
Defined.

(** C4.  [get_column_values] is the search with [top = 50] and
    [minimum_score = 5], whose threshold [5 / 4.0] is 1.25.  Whenever the
    full-text query answers and every score it leads to is at most 1.0, as
    [1 - d] is for a cosine distance [d], every candidate is dropped and the
    result is the empty sequence. *)
Theorem C4_column_values_empty (C : Chroma.Connector) (env : Chroma.Environ)
    (text : string) (client : gmap string (gmap string Chroma.Entry))
    (r : Chroma.QueryResult) :
  let index_name := default "text2sql-column-value-store"
                      (Chroma.CHROMA_TEXT2SQL_COLUMN_VALUE_STORE env) in
  Chroma.query_texts C (default ∅ (client !! index_name)) text 50 = Ok r ->
  (∀ m0 rest j, Chroma.metadatas r = Some (m0 :: rest) -> j < length m0 ->
     ∃ s, Chroma.score_at (Chroma.distances r) j = Ok s ∧
          SFleb s Chroma.one = true) ->
  (Chroma.get_column_values C env text client).1 = Ok [] ∧
  Chroma.rescaled Chroma.five = Spec.one_and_a_quarter ∧
  Chroma.get_column_values C env text =
    Chroma.run_ai_search_query C text [] ["FQN"; "Column"; "Value"] index_name
      None 50 false (Some Chroma.five).
Proof.
  intros index_name Hq Hscores.
  split; [|split; [apply threshold_five|done]].
  unfold Chroma.get_column_values. fold index_name.
  rewrite run_ai_search_query_unfold.
  change (Chroma.search C ?c text [] 50) with (Chroma.query_texts C c text 50).
  rewrite Hq. simpl. unfold Chroma.process_results.
  destruct (Chroma.metadatas r) as [[|m0 rest]|] eqn:Hmd; try done.
  apply results_loop_all_below. intros j Hj.
  destruct (Hscores m0 rest j eq_refl Hj) as (s & Hs & Hle).
  exists s. split; [done|]. simpl. rewrite threshold_five.
  by apply at_most_one_below.
Qed.

Lemma C4_column_values_empty_witness :
  (Chroma.get_column_values Demo.connector Demo.environ "red bikes" ∅).1
    = Ok [] ∧
  Chroma.rescaled Chroma.five = Spec.one_and_a_quarter ∧
  Chroma.get_column_values Demo.connector Demo.environ "red bikes" =
    Chroma.run_ai_search_query Demo.connector "red bikes" []
      ["FQN"; "Column"; "Value"] "text2sql-column-value-store" None 50 false
      (Some Chroma.five).
Proof.
  apply (C4_column_values_empty Demo.connector Demo.environ "red bikes" ∅
           Demo.three_candidates).
  - reflexivity.
  - intros m0 rest j [= <- <-] Hj.
    destruct j as [|[|[|j]]]; [| | |simpl in Hj; lia].
    + eexists. split; [reflexivity|]. vm_compute. reflexivity.
    + eexists. split; [reflexivity|]. vm_compute. reflexivity.
    + eexists. split; [reflexivity|]. vm_compute. reflexivity.
Defined.

(** ** Schema post-processing *)

Section SchemaFacts.
Import Chroma Spec.
Context `{StrLower}.

Lemma present_and_empty_inv schema k b :
  present_and_empty schema k = Ok b ->
  (b = false ∧ (schema !! k = None ∨ schema !! k = Some VNone)) ∨
  (∃ v n, schema !! k = Some v ∧ v ≠ VNone ∧ len v = Ok n ∧
          b = (n =? 0)%nat).
Proof.
  unfold present_and_empty.
  destruct (schema !! k) as [v|]; [|intros [= <-]; left; by auto].
  destruct v; simpl; try done; intros [= <-].
  - left; by auto.
  - right. eexists _, _. by repeat split.
  - right. eexists _, _. by repeat split.
Qed.

(** What one pass of the loop body does to the keys of interest. *)
Lemma schema_step_spec trim excl schema schema' keep :
  schema_step trim excl schema = Ok (schema', keep) ->
  schema' !! "FQN" = None ∧
  schema' !! "Entity" = schema !! "Entity" ∧
  (keep = true ->
   ∀ s, schema' !! "Entity" = Some (VStr s) -> lower s ∉ excl) ∧
  (∀ l, schema !! graph_key = Some (VList l) -> l ≠ [] ->
        schema' !! graph_key = Some (VList (map (Py.replace trim "") l))).
Proof.
  unfold schema_step.
  set (s0 := if bool_decide _ then delete "FQN" schema else schema).
  assert (s0 = delete "FQN" schema) as Hs0.
  { subst s0. case_bool_decide as Hf; [done|].
    symmetry. apply delete_id. by apply eq_None_not_Some. }
  clearbody s0. subst s0.
  unfold mbind, res_bind, Py.bind.
  destruct (present_and_empty (delete "FQN" schema) graph_key)
    as [b1|] eqn:H1; [|done].
  set (s1 := if b1 then _ else _).
  destruct (present_and_empty s1 "SampleValues") as [b2|] eqn:H2; [|done].
  set (s2 := if b2 then _ else _).
  destruct (present_and_empty s2 "EntityRelationships") as [b3|] eqn:H3;
    [|done].
  set (s3 := if b3 then _ else _).
  destruct (entity_lower s3) as [ent|] eqn:He; [|done].
  intros [= <- <-].
  assert (s1 !! "FQN" = None ∧ s1 !! "Entity" = schema !! "Entity" ∧
          ∀ l, schema !! graph_key = Some (VList l) -> l ≠ [] ->
               s1 !! graph_key = Some (VList (map (Py.replace trim "") l)))
    as (Hf1 & He1 & Hg1).
  { subst s1. apply present_and_empty_inv in H1
      as [[-> Hnone]|(v & n & Hv & Hnn & Hlen & ->)].
    - rewrite lookup_delete_ne in Hnone by done.
      destruct Hnone as [Hn|Hn].
      + rewrite lookup_delete_ne, Hn by done.
        split; [by simplify_map_eq|]. split; [by simplify_map_eq|].
        intros l Hl. congruence.
      + rewrite lookup_delete_ne, Hn by done.
        split; [by simplify_map_eq|]. split; [by simplify_map_eq|].
        intros l Hl. congruence.
    - rewrite lookup_delete_ne in Hv by done. rewrite lookup_delete_ne by done.
      rewrite Hv.
      destruct (n =? 0)%nat eqn:Hn.
      + split; [by simplify_map_eq|]. split; [by simplify_map_eq|].
        intros l Hl Hne. rewrite Hl in Hv. simplify_eq.
        simpl in Hlen. simplify_eq.
        apply Nat.eqb_eq in Hn. by destruct l.
      + destruct v; try done; (split; [by simplify_map_eq|]);
          (split; [by simplify_map_eq|]); intros l' Hl Hne;
          rewrite Hl in Hv; simplify_eq; by simplify_map_eq. }
  assert (s3 !! "FQN" = None ∧ s3 !! "Entity" = schema !! "Entity" ∧
          s3 !! graph_key = s1 !! graph_key) as (Hf3 & He3 & Hg3).
  { subst s3 s2. destruct b2, b3; by simplify_map_eq. }
  split; [done|]. split; [done|]. split.
  - intros Hkeep s Hs. unfold entity_lower in He. rewrite Hs in He.
    injection He as <-. apply negb_true_iff in Hkeep.
    by apply bool_decide_eq_false in Hkeep.
  - intros l Hl Hne. rewrite Hg3. by apply Hg1.
Qed.

Lemma schemas_loop_spec trim excl schemas : ∀ acc out,
  schemas_loop trim excl schemas acc = Ok out ->
  ∃ new, out = acc ++ new ∧
         ∀ e, e ∈ new ->
              ∃ raw, raw ∈ schemas ∧ schema_step trim excl raw = Ok (e, true).
Proof.
  induction schemas as [|schema schemas IH]; intros acc out; simpl.
  - intros [= <-]. exists []. rewrite app_nil_r. split; [done|].
    intros e He. by apply elem_of_nil in He.
  - unfold mbind, res_bind, Py.bind.
    destruct (schema_step trim excl schema) as [[schema' keep]|] eqn:Hstep;
      [|done].
    intros Hl. destruct (IH _ _ Hl) as (new & -> & Hnew).
    destruct keep.
    + exists (schema' :: new). split; [by rewrite <- app_assoc|].
      intros e He. apply elem_of_cons in He as [->|He].
      * exists schema. split; [left|done].
      * destruct (Hnew e He) as (raw & Hraw & Hs).
        exists raw. split; [by right|done].
    + exists new. split; [done|]. intros e He.
      destruct (Hnew e He) as (raw & Hraw & Hs).
      exists raw. split; [by right|done].
Qed.

(** [get_entity_schemas], one step unfolded. *)
Lemma get_entity_schemas_unfold {F} `{Str F} C env text excl
    (fields : list F) client :
  get_entity_schemas C env text excl fields client =
  match run_ai_search_query C text ["DefinitionEmbedding"]
          (schema_retrieval_fields ++ map str fields)
          (default "text2sql-schema-store" (CHROMA_TEXT2SQL_SCHEMA_STORE env))
          None 3 false (Some one_and_a_half) client with
  | (Ok schemas, client') =>
      (if (length excl =? 0)%nat then Ok schemas
       else schemas_loop (Py.join "." (map str fields)) excl schemas [],
       client')
  | (Raise e, client') => (Raise e, client')
  end.
Proof.
  unfold get_entity_schemas, mbind, StateRes_bind.
  destruct (run_ai_search_query _ _ _ _ _ _ _ _ _ client) as [[schemas|e] c'];
    [|done].
  by destruct (length excl =? 0)%nat.
Qed.

(** A field that is deleted when it is present and empty. *)
Lemma present_and_empty_delete schema k b :
  present_and_empty schema k = Ok b ->
  (if b then delete k schema else schema) !! k =
    match schema !! k with
    | Some (VList []) | Some (VStr EmptyString) => None
    | o => o
    end ∧
  (b = false -> ∀ v, schema !! k = Some v -> v = VNone ∨
     (∃ x l, v = VList (x :: l)) ∨ (∃ c s, v = VStr (String c s))).
Proof.
  unfold present_and_empty.
  destruct (schema !! k) as [v|] eqn:Hk; [|intros [= <-]; by rewrite Hk].
  destruct v as [| | | |s|l]; simpl; try done; intros [= <-].
  - rewrite Hk. split; [done|]. intros _ v [= <-]. by left.
  - destruct s as [|c s]; simpl.
    + rewrite lookup_delete_eq. split; [done|]. done.
    + rewrite Hk. split; [done|]. intros _ v [= <-]. right. right. by eauto.
  - destruct l as [|x l]; simpl.
    + rewrite lookup_delete_eq. split; [done|]. done.
    + rewrite Hk. split; [done|]. intros _ v [= <-]. right. left. by eauto.
Qed.

Lemma present_and_empty_other (schema : dict) (k k' : string) b :
  k' ≠ k -> (if b : bool then delete k schema else schema) !! k' = schema !! k'.
Proof. intros Hne. destruct b; [|done]. by rewrite lookup_delete_ne. Qed.

(** What one pass of the loop body leaves under each key. *)
Lemma schema_step_lookup trim excl schema schema' keep :
  schema_step trim excl schema = Ok (schema', keep) ->
  schema' !! "FQN" = None ∧
  schema' !! graph_key =
    match schema !! graph_key with
    | Some (VList (x :: l)) =>
        Some (VList (map (Py.replace trim "") (x :: l)))
    | Some (VStr (String c s)) =>
        Some (VList (map (Py.replace trim "") (Py.chars (String c s))))
    | Some (VList []) | Some (VStr EmptyString) => None
    | o => o
    end ∧
  (∀ k, k = "SampleValues" ∨ k = "EntityRelationships" ->
     schema' !! k =
       match schema !! k with
       | Some (VList []) | Some (VStr EmptyString) => None
       | o => o
       end) ∧
  (∀ k, k ∉ ["FQN"; graph_key; "SampleValues"; "EntityRelationships"] ->
        schema' !! k = schema !! k) ∧
  (∃ entity, entity_lower schema = Ok entity ∧
             keep = negb (bool_decide (entity ∈ excl))).
Proof.
  unfold schema_step.
  set (s0 := if bool_decide _ then delete "FQN" schema else schema).
  assert (s0 = delete "FQN" schema) as Hs0.
  { subst s0. case_bool_decide as Hf; [done|].
    symmetry. apply delete_id. by apply eq_None_not_Some. }
  clearbody s0. subst s0.
  unfold mbind, res_bind, Py.bind.
  destruct (present_and_empty (delete "FQN" schema) graph_key)
    as [b1|] eqn:H1; [|done].
  set (s1 := if b1 then _ else _).
  destruct (present_and_empty s1 "SampleValues") as [b2|] eqn:H2; [|done].
  set (s2 := if b2 then _ else _).
  destruct (present_and_empty s2 "EntityRelationships") as [b3|] eqn:H3;
    [|done].
  set (s3 := if b3 then _ else _).
  destruct (entity_lower s3) as [ent|] eqn:He; [|done].
  intros [= <- <-].
  (* the graph step *)
  assert (s1 !! graph_key =
            match schema !! graph_key with
            | Some (VList (x :: l)) =>
                Some (VList (map (Py.replace trim "") (x :: l)))
            | Some (VStr (String c s)) =>
                Some (VList (map (Py.replace trim "") (Py.chars (String c s))))
            | Some (VList []) | Some (VStr EmptyString) => None
            | o => o
            end ∧
          ∀ k, k ≠ graph_key -> s1 !! k = delete "FQN" schema !! k)
    as [Hg1 Ho1].
  { apply present_and_empty_delete in H1 as [Hd Hv].
    rewrite lookup_delete_ne in Hd by done.
    subst s1. destruct b1.
    - split; [|intros k Hk; by rewrite lookup_delete_ne].
      rewrite Hd. rewrite lookup_delete_eq in Hd.
      by destruct (schema !! graph_key) as [[| | | |[|? ?]|[|? ?]]|].
    - specialize (Hv eq_refl). rewrite lookup_delete_ne in Hv by done.
      rewrite lookup_delete_ne by done.
      destruct (schema !! graph_key) as [v|] eqn:Hgk; [|by split].
      destruct (Hv v eq_refl) as [->|[(x & l & ->)|(c & s & ->)]].
      + by split.
      + split; [by rewrite lookup_insert_eq|].
        intros k Hk. by rewrite lookup_insert_ne.
      + split; [by rewrite lookup_insert_eq|].
        intros k Hk. by rewrite lookup_insert_ne. }
  apply present_and_empty_delete in H2 as [Hd2 _].
  apply present_and_empty_delete in H3 as [Hd3 _].
  fold s2 in Hd2. fold s3 in Hd3.
  assert (∀ k, k ≠ "SampleValues" -> s2 !! k = s1 !! k) as Ho2.
  { intros k Hk. subst s2. by apply present_and_empty_other. }
  assert (∀ k, k ≠ "EntityRelationships" -> s3 !! k = s2 !! k) as Ho3.
  { intros k Hk. subst s3. by apply present_and_empty_other. }
  split; [|split; [|split; [|split]]].
  - rewrite Ho3, Ho2, Ho1 by done. apply lookup_delete_eq.
  - by rewrite Ho3, Ho2 by done.
  - intros k [-> | ->].
    + rewrite Ho3, Hd2, Ho1 by done. by rewrite lookup_delete_ne.
    + rewrite Hd3, Ho2, Ho1 by done. by rewrite lookup_delete_ne.
  - intros k Hk.
    rewrite Ho3, Ho2, Ho1, lookup_delete_ne; [done|..];
      intros Heq; subst k; apply Hk; repeat constructor.
  - exists ent. split; [|done]. unfold entity_lower in *.
    rewrite Ho3, Ho2, Ho1, lookup_delete_ne in He by done. done.
Qed.

(** The loop links each entry it hands back to the match it comes from:
    the entries are, in their order, what the loop body makes of the
    matches whose name is not excluded. *)
Lemma schemas_loop_linked trim excl schemas : ∀ acc out,
  schemas_loop trim excl schemas acc = Ok out ->
  ∃ new, out = acc ++ new ∧
    Forall2 (λ raw e, schema_step trim excl raw = Ok (e, true))
      (filter (λ raw, entity_name raw ∉ excl) schemas) new.
Proof.
  induction schemas as [|schema schemas IH]; intros acc out; simpl.
  - intros [= <-]. exists []. rewrite app_nil_r. split; [done|].
    constructor.
  - unfold mbind, res_bind, Py.bind.
    destruct (schema_step trim excl schema) as [[schema' keep]|] eqn:Hstep;
      [|done].
    intros Hl. destruct (IH _ _ Hl) as (new & -> & Hnew).
    pose proof Hstep as Hlook.
    apply schema_step_lookup in Hlook as (_ & _ & _ & _ & ent & He & Hkeep).
    assert (ent = entity_name schema) as ->.
    { unfold entity_lower, entity_name in *.
      destruct (schema !! "Entity") as [[| | | |x|]|]; congruence. }
    rewrite filter_cons. destruct keep.
    + symmetry in Hkeep. apply negb_true_iff, bool_decide_eq_false in Hkeep.
      rewrite decide_True by done.
      exists (schema' :: new). split; [by rewrite <- app_assoc|].
      by constructor.
    + symmetry in Hkeep. apply negb_false_iff, bool_decide_eq_true in Hkeep.
      rewrite decide_False by auto.
      exists new. by split.
Qed.

End SchemaFacts.

(** C5.  With a non-empty exclusion list, no returned entry has an [FQN]
    key, and no returned entry has an [Entity] name whose lowercase form is
    in the exclusion list. *)
Theorem C5_excluded_and_fqn `{StrLower} {F} `{Chroma.Str F}
    (C : Chroma.Connector) (env : Chroma.Environ) (text : string)
    (excluded_entities : list string) (engine_specific_fields : list F)
    (client client' : gmap string (gmap string Chroma.Entry))
    (out : list dict) :
  excluded_entities ≠ [] ->
  Chroma.get_entity_schemas C env text excluded_entities
    engine_specific_fields client = (Ok out, client') ->
  ∀ e, e ∈ out ->
    e !! "FQN" = None ∧
    ∀ s, e !! "Entity" = Some (VStr s) -> lower s ∉ excluded_entities.
Proof.
  intros Hne. rewrite get_entity_schemas_unfold.
  destruct (Chroma.run_ai_search_query _ _ _ _ _ _ _ _ _ client)
    as [[schemas|x] c']; [|done].
  destruct excluded_entities as [|x excl]; [done|]. simpl.
  intros [= Hloop _] e He.
  apply schemas_loop_spec in Hloop as (new & -> & Hnew).
  destruct (Hnew e He) as (raw & _ & Hstep).
  apply schema_step_spec in Hstep as (Hf & _ & Hk & _).
  split; [done|]. by apply Hk.
Qed.

(** The schema search on the demonstration collection, excluding
    [product], with the engine-specific fields [db] and [sch]. *)
Lemma demo_entity_schemas :
  @Chroma.get_entity_schemas ascii_StrLower string Demo.str_string
    Demo.connector Demo.environ "customers" ["product"] ["db"; "sch"] ∅ =
  (Ok [Demo.customer_trimmed], {["text2sql-schema-store" := ∅]}).
Proof.
  vm_cast_no_check
    (eq_refl (Ok [Demo.customer_trimmed],
              ({["text2sql-schema-store" := ∅]}
                 : gmap string (gmap string Chroma.Entry)))).
Qed.

Lemma C5_excluded_and_fqn_witness :
  ["product"] ≠ [] ∧
  ∀ e, e ∈ [Demo.customer_trimmed] ->
    e !! "FQN" = None ∧
    ∀ s, e !! "Entity" = Some (VStr s) -> Py.ascii_lower s ∉ ["product"].
Proof.
  split; [discriminate|].
  apply (@C5_excluded_and_fqn ascii_StrLower string Demo.str_string
           Demo.connector Demo.environ "customers" ["product"] ["db"; "sch"] ∅
           {["text2sql-schema-store" := ∅]}).
  - discriminate.
  - apply demo_entity_schemas.
Defined.

(** With nothing to exclude, the matches are handed over as they are. *)
Lemma get_entity_schemas_nothing_excluded `{StrLower} {F} `{Chroma.Str F}
    (C : Chroma.Connector) (env : Chroma.Environ) (text : string)
    (engine_specific_fields : list F)
    (client : gmap string (gmap string Chroma.Entry)) :
  Chroma.get_entity_schemas C env text [] engine_specific_fields client =
  Chroma.run_ai_search_query C text ["DefinitionEmbedding"]
    (Chroma.schema_retrieval_fields ++ map Chroma.str engine_specific_fields)
    (default "text2sql-schema-store" (Chroma.CHROMA_TEXT2SQL_SCHEMA_STORE env))
    None 3 false (Some Chroma.one_and_a_half) client.
Proof.
  rewrite get_entity_schemas_unfold.
  by destruct (Chroma.run_ai_search_query _ _ _ _ _ _ _ _ _ client) as [[?|?] ?].
Qed.

(** C6.  With an empty exclusion list the result of [get_entity_schemas]
    is the result of the search itself, with [top = 3] and
    [minimum_score = 1.5]: nothing is removed from the matches, trimmed in
    them or dropped. *)
Theorem C6_empty_exclusion_raw `{StrLower} {F} `{Chroma.Str F}
    (C : Chroma.Connector) (env : Chroma.Environ) (text : string)
    (engine_specific_fields : list F)
    (client : gmap string (gmap string Chroma.Entry)) :
  Chroma.get_entity_schemas C env text [] engine_specific_fields client =
  Chroma.run_ai_search_query C text ["DefinitionEmbedding"]
    (Chroma.schema_retrieval_fields ++ map Chroma.str engine_specific_fields)
    (default "text2sql-schema-store" (Chroma.CHROMA_TEXT2SQL_SCHEMA_STORE env))
    None 3 false (Some Chroma.one_and_a_half) client.
Proof. apply get_entity_schemas_nothing_excluded. Qed.

(** ** Replacing *)

Section ReplaceFacts.
Import Spec.

Lemma replace_scan_skip old new u : ∀ s,
  Py.replace_scan old new (String.length u) (u +:+ s) =
  Py.replace_scan old new 0 s.
Proof.
  induction u as [|c u IH]; intros s.
  - rewrite append_nil_l. simpl. by destruct s.
  - rewrite append_cons. simpl. apply IH.
Qed.

(** A leading occurrence is removed. *)
Lemma replace_leading old s :
  old ≠ "" -> Py.replace old "" (old +:+ s) = Py.replace old "" s.
Proof.
  destruct old as [|a old]; [done|]. intros _. unfold Py.replace.
  rewrite append_cons.
  change (Py.replace_scan (String a old) "" 0 (String a (old +:+ s)))
    with (if Py.startswith (String a old) (String a (old +:+ s))
          then "" +:+ Py.replace_scan (String a old) ""
                        (Nat.pred (String.length (String a old))) (old +:+ s)
          else String a (Py.replace_scan (String a old) "" 0 (old +:+ s))).
  rewrite <- append_cons, startswith_app, append_nil_l. simpl Nat.pred.
  apply replace_scan_skip.
Qed.

(** A character at which no occurrence starts is kept. *)
Lemma replace_keep old c s :
  old ≠ "" -> Py.startswith old (String c s) = false ->
  Py.replace old "" (String c s) = String c (Py.replace old "" s).
Proof.
  destruct old as [|a old]; [done|]. intros _ Hs. unfold Py.replace.
  change (Py.replace_scan (String a old) "" 0 (String c s))
    with (if Py.startswith (String a old) (String c s)
          then "" +:+ Py.replace_scan (String a old) ""
                        (Nat.pred (String.length (String a old))) s
          else String c (Py.replace_scan (String a old) "" 0 s)).
  by rewrite Hs.
Qed.

(** Replacing the empty string by the empty string changes nothing. *)
Lemma replace_empty_id s : Py.replace "" "" s = s.
Proof.
  unfold Py.replace. induction s as [|c s IH]; simpl; [done|].
  by rewrite append_nil_l, IH.
Qed.

Lemma startswith_occurs old s :
  Py.startswith old s = true -> occurs_in old s.
Proof. intros Hs. apply contains_occurs. by apply startswith_contains. Qed.

(** A string in which [old] does not occur is left as it is. *)
Lemma replace_absent old s :
  ¬ occurs_in old s -> Py.replace old "" s = s.
Proof.
  destruct (decide (old = "")) as [->|Hold]; [intros _; apply replace_empty_id|].
  induction s as [|c s IH]; intros Hno.
  - by destruct old.
  - rewrite replace_keep; [|done|].
    + rewrite IH; [done|]. intros (pre & post & ->).
      apply Hno. by exists (String c pre), post.
    + destruct (Py.startswith old (String c s)) eqn:Hs; [|done].
      destruct Hno. by apply startswith_occurs.
Qed.

End ReplaceFacts.

(** C7, as the code has it.  With a non-empty exclusion list, the
    returned entries are, in their order, the matches whose lowercase name
    is not excluded, each after the rewrite.  The graph of such an entry is
    the graph of its match with every string rewritten by
    [x.replace(fqn_to_trim, "")], where [fqn_to_trim] joins the string
    forms of [engine_specific_fields] with a dot: each string of a
    non-empty list, and each character of a non-empty string, which is
    taken apart into the list of its characters; an empty graph is removed,
    and the keys the post-processing does not handle are as in the match.
    That rewrite deletes the occurrences of [fqn_to_trim] wherever they
    are, scanning from the left: a leading occurrence goes, a character at
    which no occurrence starts stays, and a string without occurrence is
    unchanged. *)
Theorem C7_graph_rewrite `{StrLower} {F} `{Chroma.Str F}
    (C : Chroma.Connector) (env : Chroma.Environ) (text : string)
    (excluded_entities : list string) (engine_specific_fields : list F)
    (client client' : gmap string (gmap string Chroma.Entry))
    (out : list dict) :
  excluded_entities ≠ [] ->
  Chroma.get_entity_schemas C env text excluded_entities
    engine_specific_fields client = (Ok out, client') ->
  let fqn_to_trim := Py.join "." (map Chroma.str engine_specific_fields) in
  (∃ schemas,
     Chroma.get_entity_schemas C env text [] engine_specific_fields client
       = (Ok schemas, client') ∧
     Forall2
       (λ raw e,
          e !! Spec.graph_key =
            Spec.trimmed_graph fqn_to_trim (raw !! Spec.graph_key) ∧
          ∀ k, k ∉ Spec.post_processed_keys -> e !! k = raw !! k)
       (filter (λ raw, Spec.entity_name raw ∉ excluded_entities) schemas)
       out) ∧
  (∀ x, fqn_to_trim ≠ "" ->
        Py.replace fqn_to_trim "" (fqn_to_trim +:+ x) =
        Py.replace fqn_to_trim "" x) ∧
  (∀ c x, fqn_to_trim ≠ "" ->
          Py.startswith fqn_to_trim (String c x) = false ->
          Py.replace fqn_to_trim "" (String c x) =
          String c (Py.replace fqn_to_trim "" x)) ∧
  (∀ x, ¬ Spec.occurs_in fqn_to_trim x -> Py.replace fqn_to_trim "" x = x).
Proof.
  intros Hne Hget fqn_to_trim. split.
  - rewrite get_entity_schemas_nothing_excluded.
    rewrite get_entity_schemas_unfold in Hget.
    destruct (Chroma.run_ai_search_query _ _ _ _ _ _ _ _ _ client)
      as [[schemas|x] c']; [|done].
    destruct excluded_entities as [|x excl]; [done|]. simpl in Hget.
    injection Hget as Hloop <-. exists schemas. split; [done|].
    apply schemas_loop_linked in Hloop as (new & -> & Hnew). simpl.
    eapply Forall2_impl; [exact Hnew|].
    intros raw e Hstep. simpl in Hstep.
    apply schema_step_lookup in Hstep as (_ & Hg & _ & Hother & _).
    split; [|exact Hother]. rewrite Hg. unfold Spec.trimmed_graph.
    by destruct (raw !! Spec.graph_key) as [[| | | |[|? ?]|[|? ?]]|].
  - split; [|split].
    + intros x Hx. by apply replace_leading.
    + intros c x Hx Hs. by apply replace_keep.
    + apply replace_absent.
Qed.

Lemma C7_graph_rewrite_witness :
  ["product"] ≠ [] ∧
  ∃ schemas,
    @Chroma.get_entity_schemas ascii_StrLower string Demo.str_string
      Demo.connector Demo.environ "customers" [] ["db"; "sch"] ∅
      = (Ok schemas, {["text2sql-schema-store" := ∅]}) ∧
    Forall2
      (λ raw e,
         e !! Spec.graph_key =
           Spec.trimmed_graph "db.sch" (raw !! Spec.graph_key) ∧
         ∀ k, k ∉ Spec.post_processed_keys -> e !! k = raw !! k)
      (filter (λ raw, Spec.entity_name (H := ascii_StrLower) raw ∉ ["product"])
         schemas)
      [Demo.customer_trimmed].
Proof.
  split; [discriminate|].
  apply (@C7_graph_rewrite ascii_StrLower string Demo.str_string
           Demo.connector Demo.environ "customers" ["product"] ["db"; "sch"] ∅
           {["text2sql-schema-store" := ∅]} [Demo.customer_trimmed]).
  - discriminate.
  - apply demo_entity_schemas.
Defined.

(** C7, as stated, fails: the code removes the occurrence of [db.sch] in
    the middle of a relationship string too, where stripping a prefix
    leaves the rest of the string as it is. *)
Lemma C7_counterexample :
  (@Chroma.get_entity_schemas ascii_StrLower string Demo.str_string
     Demo.connector Demo.environ "customers" ["product"] ["db"; "sch"] ∅).1
    = Ok [Demo.customer_trimmed] ∧
  Demo.customer !! "CompleteEntityRelationshipsGraph" =
    Some (VList ["db.sch.Customer -> db.sch.SalesOrderHeader"]) ∧
  Demo.customer_trimmed !! "CompleteEntityRelationshipsGraph" =
    Some (VList [".Customer -> .SalesOrderHeader"]) ∧
  map (Spec.strip_prefix (Py.join "." ["db"; "sch"]))
    ["db.sch.Customer -> db.sch.SalesOrderHeader"] =
    [".Customer -> db.sch.SalesOrderHeader"] ∧
  Demo.customer_trimmed !! "CompleteEntityRelationshipsGraph" ≠
    Some (VList (map (Spec.strip_prefix (Py.join "." ["db"; "sch"]))
                   ["db.sch.Customer -> db.sch.SalesOrderHeader"])).
Proof.
  split; [by rewrite demo_entity_schemas|].
  split; [reflexivity|]. split; [reflexivity|]. split; [reflexivity|].
  vm_compute. discriminate.
Qed.

(** ** Document identity *)

Section IdentityFacts.
Import Chroma.

Lemma list_ind3 {A} (P : list A -> Prop) :
  P [] -> (∀ a, P [a]) -> (∀ a b, P [a; b]) ->
  (∀ a b c l, P l -> P (a :: b :: c :: l)) -> ∀ l, P l.
Proof.
  intros H0 H1 H2 H3 l.
  assert (∀ n l, length l ≤ n -> P l) as Hn; [|by apply (Hn (length l))].
  clear l. induction n as [|n IH]; intros l Hl.
  - destruct l; [done|simpl in Hl; lia].
  - destruct l as [|a [|b [|c l]]]; try done.
    apply H3, IH. simpl in Hl. lia.
Qed.

Ltac euclid := zify; Z.to_euclidean_division_equations; lia.

(** The alphabet is one to one on sextets, and [=] is not in it. *)
Lemma alphabet_checked :
  forallb (λ k, let n := N.of_nat k in
                match char_sextet (sextet_char n) with
                | Some m => (n =? m)%N && negb (Ascii.eqb (sextet_char n) pad)
                | None => false
                end) (seq 0 64) = true.
Proof. vm_compute. reflexivity. Qed.

Lemma alphabet_inv n :
  (n < 64)%N ->
  char_sextet (sextet_char n) = Some n ∧ Ascii.eqb (sextet_char n) pad = false.
Proof.
  intros Hn. pose proof alphabet_checked as Hall.
  rewrite forallb_forall in Hall.
  assert (In (N.to_nat n) (seq 0 64)) as Hin by (apply in_seq; lia).
  specialize (Hall _ Hin). rewrite N2Nat.id in Hall. cbv zeta in Hall.
  destruct (char_sextet (sextet_char n)) as [m|]; [|discriminate Hall].
  apply andb_true_iff in Hall as [Hm Hp].
  apply N.eqb_eq in Hm as <-. by apply negb_true_iff in Hp.
Qed.

Lemma char_sextet_char n :
  (n < 64)%N -> char_sextet (sextet_char n) = Some n.
Proof. intros Hn. by apply alphabet_inv. Qed.

Lemma sextet_char_not_pad n :
  (n < 64)%N -> Ascii.eqb (sextet_char n) pad = false.
Proof. intros Hn. by apply alphabet_inv. Qed.

Lemma ascii_of_N_eq a n : n = N_of_ascii a -> ascii_of_N n = a.
Proof. intros ->. apply ascii_N_embedding. Qed.

Lemma urlsafe_b64_roundtrip bs :
  urlsafe_b64decode (urlsafe_b64encode bs) = Some bs.
Proof.
  induction bs as [|a|a b|a b c bs IH] using list_ind3.
  - done.
  - pose proof (N_ascii_bounded a) as Ha.
    cbn [urlsafe_b64encode urlsafe_b64decode].
    rewrite !char_sextet_char by euclid. simpl.
    do 2 f_equal. apply ascii_of_N_eq. euclid.
  - pose proof (N_ascii_bounded a) as Ha. pose proof (N_ascii_bounded b) as Hb.
    cbn [urlsafe_b64encode urlsafe_b64decode].
    rewrite !char_sextet_char by euclid. simpl.
    rewrite sextet_char_not_pad by euclid. simpl.
    f_equal. f_equal; [apply ascii_of_N_eq; euclid|].
    f_equal. apply ascii_of_N_eq. euclid.
  - pose proof (N_ascii_bounded a) as Ha. pose proof (N_ascii_bounded b) as Hb.
    pose proof (N_ascii_bounded c) as Hc.
    cbn [urlsafe_b64encode urlsafe_b64decode].
    rewrite !char_sextet_char by euclid. simpl.
    rewrite !sextet_char_not_pad by euclid. simpl.
    rewrite IH. simpl.
    f_equal. f_equal; [apply ascii_of_N_eq; euclid|].
    f_equal; [apply ascii_of_N_eq; euclid|].
    f_equal. apply ascii_of_N_eq. euclid.
Qed.

Lemma utf8_roundtrip s : decode (encode s) = Some s.
Proof.
  induction s as [|c s IH]; [done|].
  pose proof (N_ascii_bounded c) as Hc. simpl.
  destruct (N.ltb_spec (N_of_ascii c) 128) as [Hlt|Hge]; simpl.
  - destruct (N.ltb_spec (N_of_ascii c) 128); [|lia]. by rewrite IH.
  - rewrite !N_ascii_embedding by euclid.
    destruct (N.ltb_spec (192 + N_of_ascii c / 64) 128); [euclid|].
    destruct (N.leb_spec 192 (192 + N_of_ascii c / 64)); [|euclid].
    destruct (N.ltb_spec (192 + N_of_ascii c / 64) 196); [|euclid].
    destruct (N.leb_spec 128 (128 + N_of_ascii c mod 64)); [|euclid].
    destruct (N.ltb_spec (128 + N_of_ascii c mod 64) 192); [|euclid].
    simpl. rewrite IH. simpl. do 2 f_equal.
    apply ascii_of_N_eq. euclid.
Qed.

(** The identifier determines the question. *)
Lemma doc_id_reversible q : doc_id_question (doc_id q) = Some q.
Proof.
  unfold doc_id_question, doc_id.
  rewrite list_ascii_of_string_of_list_ascii, urlsafe_b64_roundtrip. simpl.
  apply utf8_roundtrip.
Qed.

Lemma doc_id_inj q q' : doc_id q' = doc_id q -> q' = q.
Proof.
  intros Hid. pose proof (doc_id_reversible q') as Hq'.
  rewrite Hid, doc_id_reversible in Hq'. by injection Hq'.
Qed.

End IdentityFacts.

(** ** Adding an entry *)

Section UpsertFacts.
Import Chroma Spec.

(** The collection an entry is upserted into is the one the client had
    under the index name, empty when it had none. *)
Lemma created_collection (client : gmap string (gmap string Entry)) index_name :
  default ∅ ((_get_or_create_collection index_name client).2 !! index_name)
  = default ∅ (client !! index_name).
Proof.
  unfold _get_or_create_collection.
  destruct (client !! index_name) as [coll|] eqn:Hc; simpl.
  - by rewrite Hc.
  - by rewrite lookup_insert_eq.
Qed.

(** A call that passes validation, gets its embedding and is accepted by
    the store. *)
Lemma add_entry_stored C now document vector_fields index_name client q e es :
  document !! "Question" = Some (VStr q) ->
  fields_in_document (map fst vector_fields) document = true ->
  run_embedding_request C
    (omap (λ field, document !! field) (map fst vector_fields)) = Ok (e :: es) ->
  upsert_rejects C (default ∅ (client !! index_name)) (doc_id q)
    {| entry_embedding := e;
       entry_metadata := stored_metadata now document vector_fields;
       entry_document := q |} = None ->
  add_entry_to_index C now document vector_fields index_name client =
  (<["DateLastModified" := VStr now]> document,
   <[index_name :=
       <[doc_id q :=
           {| entry_embedding := e;
              entry_metadata := stored_metadata now document vector_fields;
              entry_document := q |}]>
         (default ∅ (client !! index_name))]> client).
Proof.
  intros Hq Hv He Hacc. unfold add_entry_to_index. rewrite Hv. simpl.
  pose proof (created_collection client index_name) as Hcoll.
  destruct (_get_or_create_collection index_name client) as [r client1] eqn:Hg.
  simpl in Hcoll.
  unfold prepare_entry, question_of.
  rewrite He. simpl. rewrite lookup_insert_ne by done. rewrite Hq. simpl.
  unfold upsert. rewrite Hcoll. fold (stored_metadata now document vector_fields).
  rewrite Hacc. f_equal.
  unfold _get_or_create_collection in Hg.
  destruct (client !! index_name) as [coll|] eqn:Hc; injection Hg as _ <-.
  - done.
  - by rewrite insert_insert_eq.
Qed.

(** A call that passes validation and gets its embedding, but is
    rejected by the store: nothing is stored. *)
Lemma add_entry_rejected C now document vector_fields index_name client q e es x :
  document !! "Question" = Some (VStr q) ->
  fields_in_document (map fst vector_fields) document = true ->
  run_embedding_request C
    (omap (λ field, document !! field) (map fst vector_fields)) = Ok (e :: es) ->
  upsert_rejects C (default ∅ (client !! index_name)) (doc_id q)
    {| entry_embedding := e;
       entry_metadata := stored_metadata now document vector_fields;
       entry_document := q |} = Some x ->
  add_entry_to_index C now document vector_fields index_name client =
  (<["DateLastModified" := VStr now]> document,
   (_get_or_create_collection index_name client).2).
Proof.
  intros Hq Hv He Hrej. unfold add_entry_to_index. rewrite Hv. simpl.
  pose proof (created_collection client index_name) as Hcoll.
  destruct (_get_or_create_collection index_name client) as [r client1] eqn:Hg.
  simpl in Hcoll.
  unfold prepare_entry, question_of.
  rewrite He. simpl. rewrite lookup_insert_ne by done. rewrite Hq. simpl.
  unfold upsert. rewrite Hcoll. fold (stored_metadata now document vector_fields).
  by rewrite Hrej.
Qed.

(** A call that fails validation changes nothing. *)
Lemma add_entry_invalid C now document vector_fields index_name client :
  fields_in_document (map fst vector_fields) document = false ->
  add_entry_to_index C now document vector_fields index_name client =
  (document, client).
Proof. intros Hv. unfold add_entry_to_index. by rewrite Hv. Qed.

End UpsertFacts.




(** * Further properties *)
(** ** Further properties of the router *)

Section RouterMore.
Import Router Spec.
Context `{StrLower}.

(** The loop over the dictionary stops at the first key that occurs. *)
Lemma pattern_items_loop_first items ql db r :
  pattern_items_loop items ql db = Some r ->
  ∃ pre k sql post,
    items = pre ++ (k, sql) :: post ∧ occurs_in k ql ∧
    (∀ kv, kv ∈ pre -> ¬ occurs_in kv.1 ql) ∧
    method r = "Pattern Match" ∧ sql_query r = Some sql ∧
    match query_execution db sql with
    | Ok rows => success r = true ∧ results r = Some rows ∧ error r = None
    | Raise e => success r = false ∧ results r = None ∧
                 error r = Some (exn_msg e)
    end.
Proof.
  induction items as [|[k sql] items IH]; simpl; [done|].
  destruct (Py.contains k ql) eqn:Hk.
  - intros Hr. exists [], k, sql, items.
    split; [done|]. split; [by apply contains_occurs|].
    split; [intros kv Hkv; by apply elem_of_nil in Hkv|].
    destruct (query_execution db sql); injection Hr as <-; done.
  - intros Hr. destruct (IH Hr) as (pre & k' & sql' & post & -> & Ho & Hpre & Hrest).
    exists ((k, sql) :: pre), k', sql', post.
    split; [done|]. split; [done|]. split; [|done].
    intros kv Hkv. apply elem_of_cons in Hkv as [->|Hkv]; [|by apply Hpre].
    simpl. by apply contains_not_occurs.
Qed.

End RouterMore.

(** X1.  The pattern strategy hands back its no-match sentinel exactly
    when no key of the dictionary occurs in the lowercased question, which
    is exactly when the classifier does not select Pattern Match. *)
Theorem X1_pattern_sentinel `{StrLower} (q : string) (db : Router.DbConnector) :
  (Router.process_pattern_match q db = None <->
   ¬ Spec.has_pattern_key (lower q)) ∧
  (Router.process_pattern_match q db = None <->
   Router.detect_processing_mode q ≠ "Pattern Match").
Proof.
  assert (Router.process_pattern_match q db = None <->
          Router.pattern_loop (map fst Router.PATTERN_QUERIES) (lower q) = false)
    as Hloop.
  { unfold Router.process_pattern_match. split.
    - intros Hn.
      destruct (Router.pattern_loop _ (lower q)) eqn:Hl; [|done].
      destruct (loops_agree _ _ db Hl) as (k & sql & r & _ & _ & Hr & _).
      congruence.
    - apply loops_agree_none. }
  split.
  - rewrite Hloop. split.
    + intros Hl Hk. apply pattern_loop_key in Hk. congruence.
    + intros Hk. destruct (Router.pattern_loop _ (lower q)) eqn:Hl; [|done].
      destruct Hk. by apply pattern_loop_key.
  - rewrite Hloop, detect_pattern_loop.
    by destruct (Router.pattern_loop _ (lower q)).
Qed.

(** X2.  First match wins: the response of the pattern strategy carries
    the template of the first key, in the order of the dictionary, that
    occurs in the lowercased question; no earlier key occurs in it. *)
Theorem X2_first_match_wins `{StrLower} (q : string) (db : Router.DbConnector)
    (r : Router.Response) :
  Router.process_pattern_match q db = Some r ->
  ∃ pre k sql post,
    Router.PATTERN_QUERIES = pre ++ (k, sql) :: post ∧
    Spec.occurs_in k (lower q) ∧
    (∀ kv, kv ∈ pre -> ¬ Spec.occurs_in kv.1 (lower q)) ∧
    Router.sql_query r = Some sql.
Proof.
  intros Hr. apply pattern_items_loop_first in Hr
    as (pre & k & sql & post & Hitems & Ho & Hpre & _ & Hsql & _).
  by exists pre, k, sql, post.
Qed.

Lemma X2_first_match_wins_witness :
  ∃ pre k sql post,
    Router.PATTERN_QUERIES = pre ++ (k, sql) :: post ∧
    Spec.occurs_in k (Py.ascii_lower Samples.sales_question) ∧
    (∀ kv, kv ∈ pre ->
           ¬ Spec.occurs_in kv.1 (Py.ascii_lower Samples.sales_question)) ∧
    Router.sql_query Samples.sales_response = Some sql.
Proof.
  apply (X2_first_match_wins (H := ascii_StrLower) Samples.sales_question
           Demo.db Samples.sales_response).
  reflexivity.
Defined.

(** X3.  The pattern strategy contains the failure of the connector: its
    response is a success carrying the rows when the template executes, and
    a failure carrying the message of the exception, and no rows, when the
    execution raises. *)
Theorem X3_sql_failure_contained `{StrLower} (q : string)
    (db : Router.DbConnector) (r : Router.Response) :
  Router.process_pattern_match q db = Some r ->
  ∃ sql, Router.sql_query r = Some sql ∧
    match Router.query_execution db sql with
    | Ok rows => Router.success r = true ∧ Router.results r = Some rows ∧
                 Router.error r = None
    | Raise e => Router.success r = false ∧ Router.results r = None ∧
                 Router.error r = Some (exn_msg e)
    end.
Proof.
  intros Hr. apply pattern_items_loop_first in Hr
    as (pre & k & sql & post & _ & _ & _ & _ & Hsql & Hres).
  by exists sql.
Qed.

Lemma X3_sql_failure_contained_witness :
  ∃ sql, Router.sql_query Samples.sales_failure = Some sql ∧
    match Router.query_execution Samples.db_down sql with
    | Ok rows => Router.success Samples.sales_failure = true ∧
                 Router.results Samples.sales_failure = Some rows ∧
                 Router.error Samples.sales_failure = None
    | Raise e => Router.success Samples.sales_failure = false ∧
                 Router.results Samples.sales_failure = None ∧
                 Router.error Samples.sales_failure = Some (exn_msg e)
    end.
Proof.
  apply (X3_sql_failure_contained (H := ascii_StrLower) Samples.sales_question
           Samples.db_down Samples.sales_failure).
  reflexivity.
Defined.

(** X4.  The dispatcher is single-shot: the response comes from the
    strategy of the selected mode alone, or is the fallback failure that
    names the mode.  A Pattern Match mode without matching key does not go
    on to the other strategies, and the other modes do not consult the
    dictionary. *)
Theorem X4_single_shot_dispatch `{StrLower} (processing_mode q : string)
    (systems : Router.Systems) (elapsed : float) :
  let mode := Router.select_mode processing_mode q in
  let r := Router.unified_query_processor processing_mode q systems elapsed in
  let fallback :=
    Router.set_error
      ("No suitable processing method available for mode: " +:+ mode)
      (Router.response "Fallback" false) in
  (mode = "Pattern Match" ->
   r = match Router.process_pattern_match q (Router.db_connector systems) with
       | Some p => Router.set_processing_time elapsed p
       | None => fallback
       end) ∧
  (mode = "AI-Powered" ->
   r = match Router.llm_client systems with
       | Some process_ai_powered =>
           Router.set_processing_time elapsed (process_ai_powered q)
       | None => fallback
       end) ∧
  (mode = "AutoGen Multi-Agent" ->
   r = match Router.autogen_system systems with
       | Some new_system =>
           Router.set_processing_time elapsed
             (Router.process_autogen (Router.autogen_waited systems)
                new_system q)
       | None => fallback
       end) ∧
  (mode ≠ "Pattern Match" -> mode ≠ "AI-Powered" ->
   mode ≠ "AutoGen Multi-Agent" -> mode ≠ "Smart Auto" -> r = fallback).
Proof.
  intros mode r fallback. subst r fallback.
  unfold Router.unified_query_processor. fold mode.
  split; [|split; [|split]].
  - intros ->. simpl. by destruct (Router.process_pattern_match _ _).
  - intros ->. simpl. by destruct (Router.llm_client systems).
  - intros ->. simpl. by destruct (Router.autogen_system systems).
  - intros H1 H2 H3 H4. unfold Router.mode_in. simpl.
    destruct (String.eqb_spec mode "Smart Auto"); [done|].
    destruct (String.eqb_spec mode "Pattern Match"); [done|].
    destruct (String.eqb_spec mode "AI-Powered"); [done|].
    destruct (String.eqb_spec mode "AutoGen Multi-Agent"); [done|].
    done.
Qed.

Lemma X4_single_shot_dispatch_witness :
  Router.unified_query_processor (H := ascii_StrLower) "Pattern Match"
    "Which products sell best in Europe?" Samples.systems_with_llm Ledger.zero
  = Router.set_error
      "No suitable processing method available for mode: Pattern Match"
      (Router.response "Fallback" false).
Proof.
  exact (proj1 (X4_single_shot_dispatch (H := ascii_StrLower) "Pattern Match"
                  "Which products sell best in Europe?"
                  Samples.systems_with_llm Ledger.zero) eq_refl).
Defined.

(** X5.  Failures of the multi-agent pipeline are contained: when the
    fresh system cannot be built, or the stream raises before any terminal
    payload, the result is a failure response whose error is the message
    of the exception after a fixed prefix. *)
Theorem X5_pipeline_failure_contained (q : string) (e : exn) :
  let failure :=
    Router.set_error ("AutoGen processing failed: " +:+ exn_msg e)
      (Router.response "AutoGen Multi-Agent" false) in
  Router.process_autogen_sync (Raise e) q = failure ∧
  ∀ sys pre,
    Forall Spec.non_terminal pre ->
    Router.process_user_message sys "thread_1" q =
      {| Router.events := pre; Router.ending := Some e |} ->
    Router.process_autogen_sync (Ok sys) q = failure.
Proof.
  intros failure. split; [done|].
  intros sys pre Hpre Hs.
  unfold Router.process_autogen_sync, Router.run_autogen_try. simpl.
  rewrite Hs. simpl.
  rewrite <- (app_nil_r pre), stream_loop_skip by done. done.
Qed.

Lemma X5_pipeline_failure_contained_witness :
  Router.process_autogen_sync
    (Ok (Samples.broken_pipeline [Demo.update; Demo.update]
           (Exn "RuntimeError" "agent crashed")))
    "comprehensive analysis" =
  Router.set_error "AutoGen processing failed: agent crashed"
    (Router.response "AutoGen Multi-Agent" false).
Proof.
  apply (proj2 (X5_pipeline_failure_contained "comprehensive analysis"
                  (Exn "RuntimeError" "agent crashed"))
           (Samples.broken_pipeline [Demo.update; Demo.update]
              (Exn "RuntimeError" "agent crashed"))
           [Demo.update; Demo.update]).
  - repeat constructor; right; reflexivity.
  - reflexivity.
Defined.


(** X6.  A disambiguation response lists the non-empty clarifying
    questions of the requests in their order, one at most per request, and
    all their choices in their order; it carries no query and no rows. *)
Theorem X6_disambiguation_content (sys : Router.AutoGenText2Sql) (q : string)
    (pre post : list Router.Payload) (e : Router.Payload)
    (ending : option exn) (b : Router.Body) :
  Forall Spec.non_terminal pre ->
  Router.process_user_message sys "thread_1" q =
    {| Router.events := pre ++ e :: post; Router.ending := ending |} ->
  Router.payload_type e = Some "disambiguation_requests" ->
  Router.body e = Some b ->
  let reqs := default [] (Router.disambiguation_requests b) in
  let r := Router.process_autogen_sync (Ok sys) q in
  let questions :=
    omap (λ x, if Router.truthy_str (Router.assistant_question x)
               then Router.assistant_question x else None) reqs in
  Router.clarification_questions r = Some questions ∧
  length questions ≤ length reqs ∧
  Router.user_choices r =
    Some (concat (map (λ x, default [] (Router.dr_user_choices x)) reqs)) ∧
  Router.sql_query r = None ∧ Router.results r = None.
Proof.
  intros Hpre Hs Ht Hb reqs r questions. subst r.
  unfold Router.process_autogen_sync, Router.run_autogen_try. simpl.
  rewrite Hs. simpl.
  rewrite (stream_loop_first pre e post ending "disambiguation_requests")
    by done.
  simpl. rewrite Ht. simpl. unfold Router.get_body. rewrite Hb. simpl.
  subst questions reqs. unfold default.
  destruct (Router.disambiguation_requests b) as [l|]; simpl; [|done].
  rewrite requests_loop_spec. simpl.
  repeat split; try done. apply omap_length_le.
Qed.

Lemma X6_disambiguation_content_witness :
  let r := Router.process_autogen_sync
             (Ok (Demo.pipeline [Demo.update; Demo.disambiguation_payload;
                                 Demo.answer_payload]))
             "comprehensive analysis" in
  Router.clarification_questions r = Some ["Which region?"; "Which year?"] ∧
  Router.user_choices r = Some ["North"; "South"; "2024"] ∧
  Router.sql_query r = None ∧ Router.results r = None.
Proof.
  destruct (X6_disambiguation_content
              (Demo.pipeline [Demo.update; Demo.disambiguation_payload;
                              Demo.answer_payload])
              "comprehensive analysis" [Demo.update]
              [Demo.answer_payload] Demo.disambiguation_payload None
              Demo.disambiguation_body)
    as (Hq & _ & Hc & Hs & Hr).
  - repeat constructor; right; reflexivity.
  - reflexivity.
  - reflexivity.
  - reflexivity.
  - exact (conj Hq (conj Hc (conj Hs Hr))).
Defined.

(** X7.  An answer response carries the query and the rows of the last
    source, none when there is no source, and lists every source. *)
Theorem X7_answer_last_source (sys : Router.AutoGenText2Sql) (q : string)
    (pre post : list Router.Payload) (e : Router.Payload)
    (ending : option exn) (b : Router.Body) :
  Forall Spec.non_terminal pre ->
  Router.process_user_message sys "thread_1" q =
    {| Router.events := pre ++ e :: post; Router.ending := ending |} ->
  Router.payload_type e = Some "answer_with_sources" ->
  Router.body e = Some b ->
  let srcs := default [] (Router.body_sources b) in
  let r := Router.process_autogen_sync (Ok sys) q in
  Router.sql_query r = Router.src_sql_query <$> last srcs ∧
  Router.results r = Some (default [] (Router.src_sql_rows <$> last srcs)) ∧
  Router.sources r = Some srcs.
Proof.
  intros Hpre Hs Ht Hb srcs r. subst r.
  unfold Router.process_autogen_sync, Router.run_autogen_try. simpl.
  rewrite Hs. simpl.
  rewrite (stream_loop_first pre e post ending "answer_with_sources") by done.
  simpl. rewrite Ht. simpl. unfold Router.get_body. rewrite Hb. simpl.
  subst srcs. unfold default.
  destruct (Router.body_sources b) as [l|]; simpl; [|done].
  rewrite sources_loop_spec. by destruct (last l).
Qed.

Lemma X7_answer_last_source_witness :
  let r := Router.process_autogen_sync
             (Ok (Demo.pipeline [Demo.update; Demo.answer_payload]))
             "comprehensive analysis" in
  Router.sql_query r = Some "SELECT COUNT(*) FROM Customer" ∧
  Router.results r = Some [{["COUNT(*)" := VInt 847]}] ∧
  Router.sources r = Some (default [] (Router.body_sources Demo.answer_body)).
Proof.
  apply (X7_answer_last_source
           (Demo.pipeline [Demo.update; Demo.answer_payload])
           "comprehensive analysis" [Demo.update] [] Demo.answer_payload None
           Demo.answer_body).
  - repeat constructor; right; reflexivity.
  - reflexivity.
  - reflexivity.
  - reflexivity.
Defined.

(** X8.  What the consumer makes of the first payload that is not a
    processing update depends on its body more than on its type: with a
    body, every type but the disambiguation request is read as an answer;
    without a body, an answer or a disambiguation request ends as a
    failure of the pipeline, and any other type gives the successful response of
    unknown type carrying the text of the payload. *)
Theorem X8_terminal_by_body (sys : Router.AutoGenText2Sql) (q : string)
    (pre post : list Router.Payload) (e : Router.Payload)
    (ending : option exn) (t : string) :
  Forall Spec.non_terminal pre ->
  Router.process_user_message sys "thread_1" q =
    {| Router.events := pre ++ e :: post; Router.ending := ending |} ->
  Router.payload_type e = Some t ->
  t ≠ "processing_update" ->
  let r := Router.process_autogen_sync (Ok sys) q in
  (∀ b, Router.body e = Some b -> t ≠ "disambiguation_requests" ->
        Router.success r = true ∧ Router.response_type r = Some "answer") ∧
  (Router.body e = None ->
   t = "answer_with_sources" ∨ t = "disambiguation_requests" ->
   Router.success r = false ∧ Router.results r = None ∧
   ∃ msg, Router.error r = Some ("AutoGen processing failed: " +:+ msg)) ∧
  (Router.body e = None ->
   t ≠ "answer_with_sources" -> t ≠ "disambiguation_requests" ->
   r = Router.unknown_response t e).
Proof.
  intros Hpre Hs Ht Hnot r. subst r.
  unfold Router.process_autogen_sync, Router.run_autogen_try. simpl.
  rewrite Hs. simpl.
  rewrite (stream_loop_first pre e post ending t) by done.
  simpl. rewrite Ht. unfold Router.get_body.
  split; [|split].
  - intros b Hb Hd. rewrite Hb.
    destruct (String.eqb_spec t "disambiguation_requests"); [done|].
    destruct (String.eqb t "answer_with_sources"); simpl;
      by destruct (Router.sources_loop _ None []).
  - intros Hb [-> | ->]; rewrite Hb; simpl; by eauto.
  - intros Hb Ha Hd. rewrite Hb.
    destruct (String.eqb_spec t "disambiguation_requests"); [done|].
    by destruct (String.eqb_spec t "answer_with_sources").
Qed.

Lemma X8_terminal_by_body_witness :
  Router.process_autogen_sync
    (Ok (Demo.pipeline [Demo.update; Samples.notice; Demo.answer_payload]))
    "comprehensive analysis" =
  Router.unknown_response "notice" Samples.notice.
Proof.
  apply (proj2 (proj2 (X8_terminal_by_body
           (Demo.pipeline [Demo.update; Samples.notice; Demo.answer_payload])
           "comprehensive analysis" [Demo.update] [Demo.answer_payload]
           Samples.notice None "notice"
           ltac:(repeat constructor; right; reflexivity)
           eq_refl eq_refl ltac:(discriminate)))).
  - reflexivity.
  - discriminate.
  - discriminate.
Defined.

(** ** Direct generation *)

Section GenerationFacts.
Import Generation Spec.

Lemma append_assoc_str a b c : (a +:+ b) +:+ c = a +:+ (b +:+ c).
Proof.
  induction a as [|x a IH]; [done|]. rewrite !append_cons. by rewrite IH.
Qed.

Lemma append_nil_r_str a : a +:+ "" = a.
Proof. induction a as [|x a IH]; [done|]. rewrite append_cons. by rewrite IH. Qed.

Lemma length_append_str a b :
  String.length (a +:+ b) = String.length a + String.length b.
Proof.
  induction a as [|x a IH]; [done|]. rewrite append_cons. simpl. by rewrite IH.
Qed.

Lemma drop_chars_length n : ∀ s,
  String.length (drop_chars n s) = String.length s - n.
Proof.
  induction n as [|n IH]; intros s; simpl; [lia|].
  destruct s; simpl; [done|]. apply IH.
Qed.

(** [lstrip] cuts a prefix and [rstrip] a suffix. *)
Lemma lstrip_suffix s : ∃ w, s = w +:+ lstrip s.
Proof.
  induction s as [|c s [w IH]]; [by exists ""|]. simpl.
  destruct (is_space c).
  - exists (String c w). rewrite append_cons. by rewrite <- IH.
  - by exists "".
Qed.

Lemma rstrip_prefix s : ∃ w, s = rstrip s +:+ w.
Proof.
  induction s as [|c s [w IH]]; [by exists ""|]. simpl.
  destruct (rstrip s) as [|x r] eqn:Hr.
  - destruct (is_space c).
    + by exists (String c s).
    + exists s. by rewrite append_cons, append_nil_l.
  - exists w. rewrite append_cons. by rewrite <- IH.
Qed.

Lemma occurs_in_suffix p w s : occurs_in p s -> occurs_in p (w +:+ s).
Proof.
  intros (pre & post & ->). exists (w +:+ pre), post.
  by rewrite append_assoc_str.
Qed.

Lemma occurs_in_prefix p s w : occurs_in p s -> occurs_in p (s +:+ w).
Proof.
  intros (pre & post & ->). exists pre, (post +:+ w).
  by rewrite !append_assoc_str.
Qed.

Lemma strip_occurs p s : occurs_in p (strip s) -> occurs_in p s.
Proof.
  unfold strip. intros Ho.
  destruct (lstrip_suffix s) as [w Hw]. rewrite Hw.
  apply occurs_in_suffix.
  destruct (rstrip_prefix (lstrip s)) as [v Hv]. rewrite Hv.
  by apply occurs_in_prefix.
Qed.

Lemma lstrip_fixed_cons c s :
  is_space c = false -> lstrip (String c s) = String c s.
Proof. intros Hc. simpl. by rewrite Hc. Qed.

Lemma lstrip_head s :
  lstrip s = "" ∨ ∃ c t, lstrip s = String c t ∧ is_space c = false.
Proof.
  induction s as [|c s IH]; [by left|]. simpl.
  destruct (is_space c) eqn:Hc; [done|]. right. by exists c, s.
Qed.

Lemma rstrip_idem s : rstrip (rstrip s) = rstrip s.
Proof.
  induction s as [|c s IH]; [done|]. simpl.
  destruct (rstrip s) as [|x r] eqn:Hr.
  - destruct (is_space c) eqn:Hc; [done|]. simpl. by rewrite Hc.
  - simpl. simpl in IH. by rewrite IH.
Qed.

Lemma rstrip_keeps_head c s :
  is_space c = false -> ∃ t, rstrip (String c s) = String c t.
Proof.
  intros Hc. simpl. destruct (rstrip s); rewrite ?Hc; by eexists.
Qed.

Lemma strip_lstrip_fixed s : lstrip (strip s) = strip s.
Proof.
  unfold strip. destruct (lstrip_head s) as [->|(c & t & -> & Hc)]; [done|].
  destruct (rstrip_keeps_head c t Hc) as [u ->]. by apply lstrip_fixed_cons.
Qed.

Lemma strip_idem s : strip (strip s) = strip s.
Proof.
  unfold strip at 1. rewrite strip_lstrip_fixed. unfold strip.
  apply rstrip_idem.
Qed.

(** Without a fence in the text there is nothing for the three
    substitutions to remove. *)
Lemma sub_leading_absent f s :
  ¬ occurs_in f s -> sub_leading f s = s.
Proof.
  intros Hno. unfold sub_leading.
  destruct (Py.startswith f s) eqn:Hs; [|done].
  destruct Hno. by apply startswith_occurs.
Qed.

Lemma trailing_fence_occurs s :
  trailing_fence_here s = true -> occurs_in fence s.
Proof.
  unfold trailing_fence_here. intros Ht.
  apply andb_true_iff in Ht as [Hs _].
  destruct (lstrip_suffix s) as [w Hw]. rewrite Hw.
  apply occurs_in_suffix. by apply startswith_occurs.
Qed.

Lemma sub_trailing_absent s :
  ¬ occurs_in fence s -> sub_trailing s = s.
Proof.
  induction s as [|c s IH]; [done|]. intros Hno.
  cbn [sub_trailing].
  destruct (trailing_fence_here (String c s)) eqn:Ht.
  - destruct Hno. by apply trailing_fence_occurs.
  - rewrite IH; [done|]. intros Ho. apply Hno.
    by apply (occurs_in_suffix fence (String c "") s).
Qed.

End GenerationFacts.

(** X9.  A completion without code fence is executed as it is, up to
    the white space around it. *)
Theorem X9_plain_sql_kept (text : string) :
  ¬ Spec.occurs_in Generation.fence text ->
  Generation.clean_sql text = Generation.strip text.
Proof.
  intros Hno. unfold Generation.clean_sql.
  assert (¬ Spec.occurs_in Generation.fence (Generation.strip text)) as Hs.
  { intros Ho. by apply Hno, strip_occurs. }
  rewrite (sub_leading_absent "```sql").
  - rewrite sub_leading_absent, sub_trailing_absent by done. apply strip_idem.
  - intros (pre & post & Hp). apply Hs.
    exists pre, ("sql" +:+ post). by rewrite Hp.
Qed.

Lemma X9_plain_sql_kept_witness :
  Generation.clean_sql (" " +:+ Samples.count_query +:+ Generation.nl) =
  Samples.count_query.
Proof.
  apply (X9_plain_sql_kept (" " +:+ Samples.count_query +:+ Generation.nl)).
  apply contains_not_occurs. reflexivity.
Defined.

Section FenceFacts.
Import Generation Spec.

Lemma rstrip_fixed_tail c s :
  rstrip (String c s) = String c s -> rstrip s = s.
Proof.
  simpl. destruct (rstrip s) as [|x r] eqn:Hr.
  - destruct (is_space c); [done|]. by intros [= <-].
  - by intros [= <-].
Qed.

Lemma lstrip_empty_rstrip s : lstrip s = "" -> rstrip s = "".
Proof.
  induction s as [|c s IH]; [done|]. simpl.
  destruct (is_space c) eqn:Hc; [|done].
  intros Hl. by rewrite IH.
Qed.

Lemma lstrip_app_space t x : lstrip t = "" -> lstrip (t +:+ x) = lstrip x.
Proof.
  induction t as [|c t IH]; [done|]. rewrite append_cons. simpl.
  destruct (is_space c) eqn:Hc; [|done].
  intros Hl. by apply IH.
Qed.

Lemma lstrip_app_nonspace t x :
  lstrip t ≠ "" -> lstrip (t +:+ x) = lstrip t +:+ x.
Proof.
  induction t as [|c t IH]; [done|]. rewrite append_cons. simpl.
  destruct (is_space c) eqn:Hc; [apply IH|done].
Qed.

Lemma rstrip_app_keep x y :
  rstrip y ≠ "" -> rstrip (x +:+ y) = x +:+ rstrip y.
Proof.
  intros Hy. induction x as [|c x IH]; [done|].
  rewrite !append_cons. simpl. rewrite IH.
  destruct (x +:+ rstrip y) eqn:E; [|done].
  destruct x; [|done]. rewrite append_nil_l in E. done.
Qed.

(** Inside a text that ends in a newline and a fence, the pattern of the
    closing fence matches only where nothing but white space is left
    before them. *)
Lemma trailing_fence_inside t :
  trailing_fence_here (t +:+ nl +:+ fence) = true -> lstrip t = "".
Proof.
  unfold trailing_fence_here. intros Ht.
  destruct (lstrip t) as [|c u] eqn:Hl; [done|].
  rewrite lstrip_app_nonspace in Ht by (by rewrite Hl).
  rewrite Hl in Ht. apply andb_true_iff in Ht as [_ Hend].
  assert (2 ≤ String.length (drop_chars 3 (String c u +:+ nl +:+ fence))) as Hlen.
  { rewrite drop_chars_length, !length_append_str. simpl. lia. }
  apply orb_true_iff in Hend as [Hend|Hend];
    apply String.eqb_eq in Hend; rewrite Hend in Hlen; simpl in Hlen; lia.
Qed.

Lemma sub_trailing_closing body :
  rstrip body = body ->
  sub_trailing (body +:+ nl +:+ fence) = body.
Proof.
  induction body as [|c body IH]; [done|]. intros Hr.
  rewrite append_cons. cbn [sub_trailing]. rewrite <- append_cons.
  destruct (trailing_fence_here (String c body +:+ nl +:+ fence)) eqn:Ht.
  - apply trailing_fence_inside, lstrip_empty_rstrip in Ht. congruence.
  - rewrite IH; [done|]. by apply rstrip_fixed_tail in Hr.
Qed.

Lemma startswith_cons p ps a s :
  Py.startswith (String p ps) (String a s) =
  Ascii.eqb p a && Py.startswith ps s.
Proof. reflexivity. Qed.

Lemma startswith_fence_app body x :
  Py.startswith fence body = false -> body ≠ "" ->
  Py.startswith "`" x = false ->
  Py.startswith fence (body +:+ x) = false.
Proof.
  intros Hs Hne Hx. unfold fence in *.
  assert (∀ n, Py.startswith (String "`" n) x = false) as Hx'.
  { intros n. destruct x as [|y x]; [done|].
    rewrite startswith_cons in *. rewrite andb_true_r in Hx. by rewrite Hx. }
  destruct body as [|a [|b [|c body]]]; [done| | |].
  - rewrite append_cons, append_nil_l, startswith_cons, Hx'.
    apply andb_false_r.
  - rewrite !append_cons, append_nil_l, !startswith_cons, Hx'.
    by rewrite !andb_false_r.
  - rewrite !append_cons, !startswith_cons.
    by rewrite !startswith_cons in Hs.
Qed.

End FenceFacts.

(** X10.  A query wrapped in the usual code fence is unwrapped: when
    the completion is the opening fence with its language tag, a newline,
    the query, a newline and the closing fence, and the query neither
    starts or ends with white space nor starts with a fence, the query that
    is executed is the query between the fences. *)
Theorem X10_fenced_sql_unwrapped (body : string) :
  body ≠ "" ->
  Generation.lstrip body = body ->
  Generation.rstrip body = body ->
  Py.startswith Generation.fence body = false ->
  Generation.clean_sql
    ("```sql" +:+ Generation.nl +:+ body +:+ Generation.nl
     +:+ Generation.fence) = body.
Proof.
  intros Hne Hl Hr Hf. unfold Generation.clean_sql.
  assert (Generation.lstrip body ≠ "") as Hl' by (by rewrite Hl).
  assert (Generation.strip
            ("```sql" +:+ Generation.nl +:+ body +:+ Generation.nl
             +:+ Generation.fence) =
          "```sql" +:+ Generation.nl +:+ body +:+ Generation.nl
          +:+ Generation.fence) as ->.
  { unfold Generation.strip.
    change (Generation.lstrip ("```sql" +:+ ?x)) with ("```sql" +:+ x).
    rewrite <- !append_assoc_str.
    rewrite rstrip_app_keep by done. done. }
  unfold Generation.sub_leading at 2.
  rewrite startswith_app.
  change (Generation.drop_chars (String.length "```sql") ("```sql" +:+ ?x))
    with x.
  rewrite (lstrip_app_space Generation.nl) by done.
  rewrite lstrip_app_nonspace, Hl by done.
  unfold Generation.sub_leading.
  rewrite startswith_fence_app by done.
  rewrite sub_trailing_closing by done.
  unfold Generation.strip. by rewrite Hl, Hr.
Qed.

Lemma X10_fenced_sql_unwrapped_witness :
  Generation.clean_sql
    ("```sql" +:+ Generation.nl +:+ Samples.count_query +:+ Generation.nl
     +:+ Generation.fence) = Samples.count_query.
Proof.
  apply (X10_fenced_sql_unwrapped Samples.count_query).
  - discriminate.
  - reflexivity.
  - reflexivity.
  - reflexivity.
Defined.

(** X11.  Direct generation always hands back a response.  When the
    completion call or the execution of the query raises, it is the failure
    of method AI-Powered with the message of the exception, and it carries
    neither rows nor the query, even when a query had been generated.  When
    both go through, it is a success that carries the cleaned query and the
    rows, under a method that names the provider and is never the plain
    AI-Powered. *)
Theorem X11_generation_outcomes `{StrUpper} (claude_model : option string)
    (question : string) (db : Router.DbConnector)
    (llm_client : Generation.LlmClient) (llm_provider : string)
    (schema_info : option (list (string * list (string * string)))) :
  let system_prompt :=
    Generation.system_prompt_head
    +:+ Generation.create_schema_context schema_info
    +:+ Generation.system_prompt_tail in
  let completion :=
    if String.eqb llm_provider "claude"
    then Generation.messages_create llm_client
           (default "claude-3-haiku-20240307" claude_model) system_prompt
           ("Question: " +:+ question)
    else Generation.chat_completions_create llm_client system_prompt
           ("Question: " +:+ question) in
  let r := Generation.process_ai_powered claude_model question db llm_client
             llm_provider schema_info in
  let failure e :=
    Router.method r = "AI-Powered" ∧ Router.success r = false ∧
    Router.error r = Some (exn_msg e) ∧ Router.sql_query r = None ∧
    Router.results r = None in
  match completion with
  | Raise e => failure e
  | Ok text =>
      match Router.query_execution db (Generation.clean_sql text) with
      | Raise e => failure e
      | Ok rows =>
          Router.success r = true ∧
          Router.sql_query r = Some (Generation.clean_sql text) ∧
          Router.results r = Some rows ∧
          Router.method r = "AI-Powered (" +:+ upper llm_provider +:+ ")" ∧
          Router.method r ≠ "AI-Powered"
      end
  end.
Proof.
  intros system_prompt completion r failure. subst r failure.
  unfold Generation.process_ai_powered, Generation.process_ai_powered_try.
  fold system_prompt. fold completion.
  destruct completion as [text|e]; simpl; [|done].
  destruct (Router.query_execution db (Generation.clean_sql text))
    as [rows|e]; simpl; [|done].
  repeat split; done.
Qed.

Section SchemaContextFacts.
Import Generation Spec.

Lemma tables_loop_app tables : ∀ context,
  tables_loop tables context = context +:+ tables_loop tables "".
Proof.
  induction tables as [|[name cols] tables IH]; intros context; simpl.
  - by rewrite append_nil_r_str.
  - match goal with
    | |- tables_loop _ ?a = _ +:+ tables_loop _ ?b => rewrite (IH a), (IH b)
    end.
    rewrite !append_nil_l. by rewrite !append_assoc_str.
Qed.

Lemma tables_loop_mentions tables name cols :
  (name, cols) ∈ tables ->
  occurs_in ("TABLE: " +:+ name +:+ nl +:+ "Description: "
             +:+ get_description table_descriptions name "Data table" +:+ nl
             +:+ "Columns: " +:+ Py.join ", " (map fst cols) +:+ nl +:+ nl)
    (tables_loop tables "").
Proof.
  induction tables as [|[name' cols'] tables IH]; intros Hin.
  - by apply elem_of_nil in Hin.
  - simpl. rewrite tables_loop_app, !append_nil_l.
    apply elem_of_cons in Hin as [[= <- <-]|Hin].
    + exists "", (tables_loop tables "").
      rewrite append_nil_l. by rewrite !append_assoc_str.
    + by apply occurs_in_suffix, IH.
Qed.

End SchemaContextFacts.

(** X12.  The schema context of a missing or empty schema is the fixed
    sentence that none is available.  Otherwise it opens with the heading,
    closes with the key relationships, and holds for every table of the
    schema its block of three lines: name, description (the generic one for
    a table without entry in the description table) and the names of its
    columns separated by a comma and a blank. *)
Theorem X12_schema_context (schema_info : option (list (string * list (string * string)))) :
  (schema_info = None ∨ schema_info = Some [] ->
   Generation.create_schema_context schema_info =
     "No schema information available.") ∧
  ∀ tables, schema_info = Some tables -> tables ≠ [] ->
    (∃ middle,
       Generation.create_schema_context schema_info =
       "ADVENTUREWORKS DATABASE SCHEMA:" +:+ Generation.nl +:+ Generation.nl
       +:+ middle +:+ Generation.key_relationships) ∧
    ∀ name cols, (name, cols) ∈ tables ->
      Spec.occurs_in
        ("TABLE: " +:+ name +:+ Generation.nl +:+ "Description: "
         +:+ Generation.get_description Generation.table_descriptions name
               "Data table"
         +:+ Generation.nl +:+ "Columns: "
         +:+ Py.join ", " (map fst cols) +:+ Generation.nl +:+ Generation.nl)
        (Generation.create_schema_context schema_info).
Proof.
  split.
  - by intros [-> | ->].
  - intros tables -> Hne. destruct tables as [|t tables]; [done|].
    unfold Generation.create_schema_context.
    rewrite tables_loop_app. split.
    + exists (Generation.tables_loop (t :: tables) "").
      by rewrite !append_assoc_str.
    + intros name cols Hin. apply occurs_in_prefix, occurs_in_suffix.
      by apply tables_loop_mentions.
Qed.

Lemma X12_schema_context_witness :
  Spec.occurs_in
    ("TABLE: Audit" +:+ Generation.nl +:+ "Description: Data table"
     +:+ Generation.nl +:+ "Columns: id" +:+ Generation.nl +:+ Generation.nl)
    (Generation.create_schema_context Samples.schema_info).
Proof.
  apply (proj2 (proj2 (X12_schema_context Samples.schema_info)
                  [ ("Customer", [("CustomerID", "INTEGER");
                                  ("FirstName", "TEXT")]);
                    ("Audit", [("id", "INTEGER")]) ]
                  eq_refl ltac:(discriminate))
           "Audit" [("id", "INTEGER")]).
  right. left.
Defined.

(** ** Further properties of the ledger *)

Section LedgerMore.
Import Router Ledger Spec Props.
Variable B : Backend.

Lemma tracks_skip : tracks B skip.
Proof. intros s. simpl. split; [done|]. split; [intros _ k Hk; lia|done]. Qed.

Lemma tracks_api eff : tracks B (api_call B eff).
Proof.
  intros s. unfold api_call.
  destruct (raises B (calls s)) eqn:Hr; simpl.
  - split; [lia|]. split; [done|]. intros Hq. rewrite Hq in Hr by lia. done.
  - split; [lia|]. split; [|done]. intros _ k Hk.
    by replace k with (calls s) by lia.
Qed.

Lemma tracks_bind (m1 m2 : M unit) :
  tracks B m1 -> tracks B m2 -> tracks B (m1 ;; m2).
Proof.
  intros H1 H2 s. destruct (H1 s) as [Hc1 Hi1].
  unfold mbind, StateRes_bind.
  destruct (m1 s) as [[[]|e] s1] eqn:Hm1; simpl in *.
  - destruct (H2 s1) as [Hc2 Hi2]. split; [lia|]. rewrite Hi2. split.
    + intros Hq k Hk. destruct (decide (k < calls s1)).
      * apply Hi1; [done|lia].
      * apply Hq. lia.
    + intros Hq k Hk. apply Hq. lia.
  - split; [done|]. split; [done|]. intros Hq.
    destruct Hi1 as [_ Hi1]. by apply Hi1.
Qed.

Lemma tracks_if (c : bool) (m1 m2 : M unit) :
  tracks B m1 -> tracks B m2 -> tracks B (if c then m1 else m2).
Proof. by destruct c. Qed.

Lemma log_query_body_tracks amb id question approach result t sid :
  tracks B (log_query_body B amb id question approach result t sid).
Proof.
  unfold log_query_body, log_param, log_metric, log_artifact, write_file,
    remove_file.
  repeat first
    [ apply tracks_bind | apply tracks_if | apply tracks_api
    | apply tracks_skip
    | destruct (results result) as [[|? ?]|] ].
Qed.

Lemma computes_skip : computes B 0 (λ r, r) skip.
Proof.
  intros s base r0 Hs _. exists 0. split; [done|]. simpl.
  rewrite Nat.add_0_r, <- Hs. by destruct s.
Qed.

Lemma computes_api f : computes B 1 f (api_call B (on_active f)).
Proof.
  intros s base r0 Hs Hq. exists 1. split; [done|]. unfold api_call.
  rewrite Hq by lia. simpl. by rewrite Hs, on_active_snoc, Nat.add_1_r.
Qed.

Lemma computes_call : computes B 1 (λ r, r) (api_call B (λ rs, rs)).
Proof.
  intros s base r0 Hs Hq. exists 1. split; [done|]. unfold api_call.
  rewrite Hq by lia. simpl. by rewrite Hs, Nat.add_1_r.
Qed.

Lemma computes_bind n1 n2 g1 g2 (m1 m2 : M unit) :
  computes B n1 g1 m1 -> computes B n2 g2 m2 ->
  computes B (n1 + n2) (λ r, g2 (g1 r)) (m1 ;; m2).
Proof.
  intros H1 H2 s base r0 Hs Hq.
  destruct (H1 s base r0 Hs) as (k1 & Hk1 & Hm1).
  { intros k Hk. apply Hq. lia. }
  unfold mbind, StateRes_bind. rewrite Hm1.
  destruct (H2 {| runs := base ++ [g1 r0]; calls := calls s + k1 |}
              base (g1 r0) eq_refl) as (k2 & Hk2 & Hm2).
  { intros k Hk. simpl in Hk. apply Hq. lia. }
  exists (k1 + k2). split; [lia|]. rewrite Hm2. simpl.
  by rewrite Nat.add_assoc.
Qed.

Lemma computes_weaken n n' g m : n ≤ n' -> computes B n g m -> computes B n' g m.
Proof.
  intros Hn Hm s base r0 Hs Hq.
  destruct (Hm s base r0 Hs) as (k & Hk & Hms).
  { intros j Hj. apply Hq. lia. }
  exists k. split; [lia|done].
Qed.

Lemma computes_if (c : bool) n g1 g2 (m1 m2 : M unit) :
  computes B n g1 m1 -> computes B n g2 m2 ->
  computes B n (λ r, if c then g1 r else g2 r) (if c then m1 else m2).
Proof. by destruct c. Qed.

Lemma computes_ext n g g' m :
  (∀ r, g r = g' r) -> computes B n g m -> computes B n g' m.
Proof.
  intros Hg Hm s base r0 Hs Hq.
  destruct (Hm s base r0 Hs Hq) as (k & Hk & Hms).
  exists k. split; [done|]. by rewrite <- Hg.
Qed.

Lemma log_query_body_computes amb id question approach result t sid :
  computes B 13 (record_query amb id question approach result t sid)
    (log_query_body B amb id question approach result t sid).
Proof.
  unfold log_query_body, log_param, log_metric, log_artifact, write_file,
    remove_file.
  eapply computes_ext;
    [|eapply (computes_bind 1 12); [apply computes_api|];
      eapply (computes_bind 1 11); [apply computes_api|];
      eapply (computes_bind 1 10); [apply computes_api|];
      eapply (computes_bind 1 9); [apply computes_api|];
      eapply (computes_bind 1 8); [apply computes_api|];
      eapply (computes_bind 1 7); [apply computes_api|];
      eapply (computes_bind 1 6);
        [apply computes_if;
           [apply computes_api
           |apply (computes_weaken 0); [lia|apply computes_skip]]|];
      eapply (computes_bind 1 5);
        [instantiate
           (1 := add_metric "result_count"
                   (VInt (Z.of_nat (length (default [] (results result))))));
         destruct (results result) as [[|? ?]|]; apply computes_api|];
      eapply (computes_bind 1 4);
        [apply computes_if; [apply computes_api|];
         apply computes_if; [apply computes_api|];
         apply computes_if; [apply computes_api|];
         apply (computes_weaken 0); [lia|apply computes_skip]|];
      eapply (computes_bind 1 3);
        [apply computes_if;
           [apply computes_api
           |apply (computes_weaken 0); [lia|apply computes_skip]]|];
      eapply (computes_bind 1 2); [apply computes_call|];
      eapply (computes_bind 1 1); [apply computes_api|apply computes_call]].
  intros r. unfold record_query. cbv zeta.
  destruct (truthy_str (sql_query result)),
    (String.eqb approach "Pattern Match"), (String.eqb approach "AI-Powered"),
    (String.eqb approach "AutoGen Multi-Agent"),
    (negb (success result) && truthy_str (error result)); done.
Qed.

(** One call of [log_query_experiment] on a backend that is quiet. *)
Lemma log_query_experiment_quiet amb question approach result t sid s :
  quiet B (calls s) 14 ->
  let id := fresh_run_id B (length (runs s)) in
  let out := log_query_experiment B amb question approach result t sid s in
  out.1 = Some id ∧
  runs out.2 =
    runs s ++ [set_status "FINISHED"
                 (record_query amb id question approach result t sid
                    (new_run id))] ∧
  calls s ≤ calls out.2 ≤ calls s + 14.
Proof.
  intros Hq id out. subst out.
  assert (raises B (calls s) = None) as Hr by (apply Hq; lia).
  unfold log_query_experiment, start_run, api_call.
  rewrite Hr. simpl. fold id.
  destruct (log_query_body_computes amb id question approach result t sid
              (tick {| runs := runs s ++ [new_run id]; calls := calls s |})
              (runs s) (new_run id) eq_refl) as (k & Hk & Hm).
  { intros j Hj. simpl in Hj. apply Hq. lia. }
  rewrite Hm. simpl. rewrite on_active_snoc. split; [done|]. split; [done|lia].
Qed.

End LedgerMore.

Section LedgerKeeps.
Import Router Ledger Spec Props.
Variable B : Backend.
Variable I : Run -> Prop.

Lemma keeps_skip : keeps I skip.
Proof. intros s base r0 Hs Hi. by exists r0. Qed.

Lemma keeps_api f : (∀ r, I r -> I (f r)) -> keeps I (api_call B (on_active f)).
Proof.
  intros Hf s base r0 Hs Hi. unfold api_call.
  destruct (raises B (calls s)); simpl.
  - by exists r0.
  - exists (f r0). rewrite Hs, on_active_snoc. split; [done|by apply Hf].
Qed.

Lemma keeps_call : keeps I (api_call B (λ rs, rs)).
Proof.
  intros s base r0 Hs Hi. unfold api_call.
  destruct (raises B (calls s)); simpl; by exists r0.
Qed.

Lemma keeps_bind (m1 m2 : M unit) : keeps I m1 -> keeps I m2 -> keeps I (m1 ;; m2).
Proof.
  intros H1 H2 s base r0 Hs Hi.
  destruct (H1 s base r0 Hs Hi) as (r1 & Hr1 & Hi1).
  unfold mbind, StateRes_bind.
  destruct (m1 s) as [[[]|e] s1]; simpl in *.
  - by apply (H2 s1 base r1).
  - by exists r1.
Qed.

Lemma keeps_if (c : bool) (m1 m2 : M unit) :
  keeps I m1 -> keeps I m2 -> keeps I (if c then m1 else m2).
Proof. by destruct c. Qed.

End LedgerKeeps.

Section LedgerUsage.
Import Router Ledger Spec Props.
Variable B : Backend.

(** A metric that the approach does not select is never written. *)
Lemma log_query_body_no_metric k amb id question approach result t sid :
  k ∉ ["execution_time_seconds"; "success"; "result_count"] ->
  (k = "pattern_match_used" -> approach ≠ "Pattern Match") ->
  (k = "ai_powered_used" -> approach ≠ "AI-Powered") ->
  (k = "autogen_used" -> approach ≠ "AutoGen Multi-Agent") ->
  keeps (λ r, metric k r = None)
    (log_query_body B amb id question approach result t sid).
Proof.
  intros Hk H1 H2 H3.
  assert (∀ k' v, k ≠ k' ->
            keeps (λ r, metric k r = None) (log_metric B k' v)) as Hmetric.
  { intros k' v Hne. apply keeps_api. intros r Hr. unfold metric in *. simpl.
    rewrite lookup_last_snoc, Hr.
    destruct (String.eqb_spec k k'); [done|done]. }
  assert (∀ k' v, keeps (λ r, metric k r = None) (log_param B k' v)) as Hparam.
  { intros k' v. apply keeps_api. by intros r Hr. }
  unfold log_query_body.
  repeat first
    [ apply keeps_bind | apply Hparam | apply keeps_skip
    | apply keeps_call
    | apply keeps_api; by intros r Hr ].
  - apply Hmetric. intros ->. apply Hk; repeat constructor.
  - apply Hmetric. intros ->. apply Hk; repeat constructor.
  - apply keeps_if; [apply Hparam|apply keeps_skip].
  - destruct (results result) as [[|? ?]|]; apply Hmetric; intros ->;
      apply Hk; repeat constructor.
  - destruct (String.eqb_spec approach "Pattern Match") as [->|?].
    { apply Hmetric. intros ->. by apply H1. }
    destruct (String.eqb_spec approach "AI-Powered") as [->|?].
    { apply Hmetric. intros ->. by apply H2. }
    destruct (String.eqb_spec approach "AutoGen Multi-Agent") as [->|?].
    { apply Hmetric. intros ->. by apply H3. }
    apply keeps_skip.
  - apply keeps_if; [apply Hparam|apply keeps_skip].
Qed.

(** The same for one call of [log_query_experiment], whatever the
    backend does. *)
Lemma log_query_experiment_no_metric k amb question approach result t sid s :
  k ∉ ["execution_time_seconds"; "success"; "result_count"] ->
  (k = "pattern_match_used" -> approach ≠ "Pattern Match") ->
  (k = "ai_powered_used" -> approach ≠ "AI-Powered") ->
  (k = "autogen_used" -> approach ≠ "AutoGen Multi-Agent") ->
  let out := log_query_experiment B amb question approach result t sid s in
  ∃ new, runs out.2 = runs s ++ new ∧ length new ≤ 1 ∧
         ∀ run, run ∈ new -> metric k run = None.
Proof.
  intros Hk H1 H2 H3. unfold log_query_experiment, start_run, api_call.
  destruct (raises B (calls s)); simpl.
  { exists []. rewrite app_nil_r. split; [done|]. split; [simpl; lia|].
    intros run Hrun. by apply elem_of_nil in Hrun. }
  set (id := fresh_run_id B (length (runs s))). set (s1 := tick _).
  destruct (log_query_body_no_metric k amb id question approach result t sid
              Hk H1 H2 H3 s1 (runs s) (new_run id) eq_refl eq_refl)
    as (r1 & Hr1 & Hm).
  destruct (log_query_body B amb id question approach result t sid s1)
    as [[[]|e] s2]; simpl in *; rewrite Hr1, on_active_snoc.
  - exists [set_status "FINISHED" r1]. split; [done|]. split; [simpl; lia|].
    intros run Hrun. apply list_elem_of_singleton in Hrun as ->. done.
  - exists [set_status "FAILED" r1]. split; [done|]. split; [simpl; lia|].
    intros run Hrun. apply list_elem_of_singleton in Hrun as ->. done.
Qed.

Lemma record_query_id amb id question approach result t sid r :
  run_id (record_query amb id question approach result t sid r) = run_id r.
Proof.
  unfold record_query. cbv zeta.
  by destruct (truthy_str (sql_query result)),
    (String.eqb approach "Pattern Match"), (String.eqb approach "AI-Powered"),
    (String.eqb approach "AutoGen Multi-Agent"),
    (negb (success result) && truthy_str (error result)).
Qed.

Lemma record_query_metrics amb id question approach result t sid r :
  run_metrics (record_query amb id question approach result t sid r) =
  run_metrics r ++
  [("execution_time_seconds", VFloat t);
   ("success", VInt (if success result then 1 else 0));
   ("result_count", VInt (Z.of_nat (length (default [] (results result)))))]
  ++ (if String.eqb approach "Pattern Match"
      then [("pattern_match_used", VInt 1)]
      else if String.eqb approach "AI-Powered"
      then [("ai_powered_used", VInt 1)]
      else if String.eqb approach "AutoGen Multi-Agent"
      then [("autogen_used", VInt 1)]
      else []).
Proof.
  unfold record_query. cbv zeta.
  destruct (truthy_str (sql_query result)),
    (String.eqb approach "Pattern Match"), (String.eqb approach "AI-Powered"),
    (String.eqb approach "AutoGen Multi-Agent"),
    (negb (success result) && truthy_str (error result));
    cbn [run_metrics add_param add_metric add_artifact];
    by rewrite <- ?app_assoc, ?app_nil_r.
Qed.

Lemma record_query_params amb id question approach result t sid r :
  run_params (record_query amb id question approach result t sid r) =
  run_params r ++
  [("question", question); ("approach", approach);
   ("session_id",
    if truthy_str sid then default "" sid else uuid4 amb);
   ("timestamp", now_param amb)]
  ++ (if truthy_str (sql_query result)
      then [("sql_query", default "" (sql_query result))] else [])
  ++ (if negb (success result) && truthy_str (error result)
      then [("error_message", default "" (error result))] else []).
Proof.
  unfold record_query. cbv zeta.
  destruct (truthy_str (sql_query result)),
    (String.eqb approach "Pattern Match"), (String.eqb approach "AI-Powered"),
    (String.eqb approach "AutoGen Multi-Agent"),
    (negb (success result) && truthy_str (error result));
    cbn [run_params add_param add_metric add_artifact];
    by rewrite <- ?app_assoc, ?app_nil_r.
Qed.

Lemma record_query_artifacts amb id question approach result t sid r :
  run_artifacts (record_query amb id question approach result t sid r) =
  run_artifacts r ++
  [("query_result_" +:+ id +:+ ".json",
    {| rd_question := question; rd_approach := approach;
       rd_execution_time := t; rd_timestamp := now_artifact amb;
       rd_result := result |})].
Proof.
  unfold record_query. cbv zeta.
  by destruct (truthy_str (sql_query result)),
    (String.eqb approach "Pattern Match"), (String.eqb approach "AI-Powered"),
    (String.eqb approach "AutoGen Multi-Agent"),
    (negb (success result) && truthy_str (error result)).
Qed.

Lemma lookup_param_snoc k l k' v :
  lookup_param k (l ++ [(k', v)]) =
  if String.eqb k k' then Some v else lookup_param k l.
Proof.
  induction l as [|[k0 v0] l IH]; simpl; [done|].
  rewrite IH. by destruct (String.eqb k k').
Qed.

(** The record of a query on a backend that is quiet. *)
Lemma log_query_experiment_record amb question approach result t sid s :
  quiet B (calls s) 14 ->
  let out := log_query_experiment B amb question approach result t sid s in
  ∃ run,
    out.1 = Some (run_id run) ∧ runs out.2 = runs s ++ [run] ∧
    run_status run = "FINISHED" ∧
    run_metrics run =
      [("execution_time_seconds", VFloat t);
       ("success", VInt (if success result then 1 else 0));
       ("result_count", VInt (Z.of_nat (length (default [] (results result)))))]
      ++ (if String.eqb approach "Pattern Match"
          then [("pattern_match_used", VInt 1)]
          else if String.eqb approach "AI-Powered"
          then [("ai_powered_used", VInt 1)]
          else if String.eqb approach "AutoGen Multi-Agent"
          then [("autogen_used", VInt 1)]
          else []) ∧
    run_params run =
      [("question", question); ("approach", approach);
       ("session_id", if truthy_str sid then default "" sid else uuid4 amb);
       ("timestamp", now_param amb)]
      ++ (if truthy_str (sql_query result)
          then [("sql_query", default "" (sql_query result))] else [])
      ++ (if negb (success result) && truthy_str (error result)
          then [("error_message", default "" (error result))] else []) ∧
    run_artifacts run =
      [("query_result_" +:+ run_id run +:+ ".json",
        {| rd_question := question; rd_approach := approach;
           rd_execution_time := t; rd_timestamp := now_artifact amb;
           rd_result := result |})].
Proof.
  intros Hq out.
  destruct (log_query_experiment_quiet B amb question approach result t sid s Hq)
    as (Hid & Hruns & _). fold out in Hid, Hruns.
  eexists. split; [|split; [exact Hruns|]].
  { rewrite Hid. unfold set_status. cbn [run_id].
    by rewrite record_query_id. }
  unfold set_status.
  cbn [run_id run_params run_metrics run_artifacts run_status].
  rewrite record_query_id, record_query_params, record_query_metrics,
    record_query_artifacts.
  by cbn [run_id run_params run_metrics run_artifacts new_run].
Qed.

End LedgerUsage.

(** X13.  When the run can be started, the logging call hands back its
    fresh identifier and adds exactly that run, whatever happens later;
    the run ends as FINISHED exactly when none of the calls made for it
    raised, and as FAILED otherwise.  The caller gets the identifier in
    both cases. *)
Theorem X13_run_status (B : Ledger.Backend) (amb : Ledger.Ambient)
    (question approach : string) (result : Router.Response) (t : float)
    (sid : option string) (s : Ledger.Store) :
  Ledger.raises B (Ledger.calls s) = None ->
  let out := Ledger.log_query_experiment B amb question approach result t sid s in
  ∃ run,
    out.1 = Some (Ledger.run_id run) ∧
    Ledger.run_id run = Ledger.fresh_run_id B (length (Ledger.runs s)) ∧
    Ledger.runs out.2 = Ledger.runs s ++ [run] ∧
    (Ledger.run_status run = "FINISHED" ∨ Ledger.run_status run = "FAILED") ∧
    (Ledger.run_status run = "FINISHED" <->
     ∀ k, Ledger.calls s ≤ k < Ledger.calls out.2 -> Ledger.raises B k = None).
Proof.
  intros Hstart. unfold Ledger.log_query_experiment, Ledger.start_run,
    Ledger.api_call. rewrite Hstart. simpl.
  set (id := Ledger.fresh_run_id B (length (Ledger.runs s))).
  set (s1 := Ledger.tick _).
  destruct (log_query_body_logs B amb id question approach result t sid
              s1 (Ledger.runs s) (Ledger.new_run id) eq_refl)
    as (r1 & Hr1 & Hi & _).
  destruct (log_query_body_tracks B amb id question approach result t sid s1)
    as [Hc Hiff].
  simpl in Hi, Hc.
  destruct (Ledger.log_query_body B amb id question approach result t sid s1)
    as [[[]|e] s2]; simpl in *; rewrite Hr1, on_active_snoc.
  - exists (Ledger.set_status "FINISHED" r1).
    split; [by rewrite <- Hi|]. split; [done|]. split; [done|].
    split; [by left|]. split; [|done].
    intros _ k Hk. destruct (decide (k = Ledger.calls s)) as [->|Hne]; [done|].
    apply Hiff; [done|lia].
  - exists (Ledger.set_status "FAILED" r1).
    split; [by rewrite <- Hi|]. split; [done|]. split; [done|].
    split; [by right|]. split; [done|].
    intros Hq. assert (Raise e = Ok tt) as Hbad; [|done].
    apply Hiff. intros k Hk. apply Hq. lia.
Qed.

Lemma X13_run_status_witness :
  let out := Ledger.log_query_experiment Samples.backend_flaky Demo.ambient
               "How many customers do we have?" "Pattern Match"
               Demo.pattern_response Ledger.zero (Some "session")
               Demo.empty_store in
  ∃ run,
    out.1 = Some (Ledger.run_id run) ∧
    Ledger.run_id run = "run-0" ∧
    Ledger.runs out.2 = [run] ∧
    (Ledger.run_status run = "FINISHED" ∨ Ledger.run_status run = "FAILED") ∧
    (Ledger.run_status run = "FINISHED" <->
     ∀ k, 0 ≤ k < Ledger.calls out.2 ->
          Ledger.raises Samples.backend_flaky k = None).
Proof.
  apply (X13_run_status Samples.backend_flaky Demo.ambient
           "How many customers do we have?" "Pattern Match"
           Demo.pattern_response Ledger.zero (Some "session")
           Demo.empty_store).
  reflexivity.
Defined.

(** X14.  On a backend that raises in none of the fourteen calls, the
    record of a query carries the execution time, the number of rows of the
    response (zero when it has none) and a usage metric for the approach
    exactly when the approach is one of the three plain mode names; no
    usage metric is written for any other approach. *)
Theorem X14_logged_metrics (B : Ledger.Backend) (amb : Ledger.Ambient)
    (question approach : string) (result : Router.Response) (t : float)
    (sid : option string) (s : Ledger.Store) :
  Spec.quiet B (Ledger.calls s) 14 ->
  let out := Ledger.log_query_experiment B amb question approach result t sid s in
  ∃ run,
    out.1 = Some (Ledger.run_id run) ∧
    Ledger.runs out.2 = Ledger.runs s ++ [run] ∧
    Spec.metric "execution_time_seconds" run = Some (VFloat t) ∧
    Spec.metric "result_count" run =
      Some (VInt (Z.of_nat (length (default [] (Router.results result))))) ∧
    (Spec.metric "pattern_match_used" run =
       if String.eqb approach "Pattern Match" then Some (VInt 1) else None) ∧
    (Spec.metric "ai_powered_used" run =
       if String.eqb approach "AI-Powered" then Some (VInt 1) else None) ∧
    (Spec.metric "autogen_used" run =
       if String.eqb approach "AutoGen Multi-Agent" then Some (VInt 1)
       else None).
Proof.
  intros Hq out.
  destruct (log_query_experiment_record B amb question approach result t sid
              s Hq) as (run & Hid & Hruns & _ & Hm & _).
  exists run. split; [done|]. split; [done|].
  unfold Spec.metric. rewrite Hm.
  destruct (String.eqb_spec approach "Pattern Match") as [->|H1];
    [by repeat split|].
  destruct (String.eqb_spec approach "AI-Powered") as [->|H2];
    [by repeat split|].
  destruct (String.eqb_spec approach "AutoGen Multi-Agent") as [->|H3];
    by repeat split.
Qed.

Lemma X14_logged_metrics_witness :
  let out := Ledger.log_query_experiment Demo.backend_ok Demo.ambient
               "How many customers do we have?" "Pattern Match"
               Demo.pattern_response Ledger.zero (Some "session")
               Demo.empty_store in
  ∃ run,
    out.1 = Some (Ledger.run_id run) ∧
    Ledger.runs out.2 = [run] ∧
    Spec.metric "execution_time_seconds" run = Some (VFloat Ledger.zero) ∧
    Spec.metric "result_count" run = Some (VInt 1) ∧
    Spec.metric "pattern_match_used" run = Some (VInt 1) ∧
    Spec.metric "ai_powered_used" run = None ∧
    Spec.metric "autogen_used" run = None.
Proof.
  apply (X14_logged_metrics Demo.backend_ok Demo.ambient
           "How many customers do we have?" "Pattern Match"
           Demo.pattern_response Ledger.zero (Some "session")
           Demo.empty_store).
  intros k _. reflexivity.
Defined.

(** X15.  On such a backend the record of a query carries the question,
    the approach, the session (the given one, or a fresh UUID when it is
    missing or empty), the query of the response when it has one, and the
    error message only for a failed response with a non-empty error; it has
    one artifact, named after the run, holding the response; and it is
    FINISHED. *)
Theorem X15_logged_params (B : Ledger.Backend) (amb : Ledger.Ambient)
    (question approach : string) (result : Router.Response) (t : float)
    (sid : option string) (s : Ledger.Store) :
  Spec.quiet B (Ledger.calls s) 14 ->
  let out := Ledger.log_query_experiment B amb question approach result t sid s in
  ∃ run,
    out.1 = Some (Ledger.run_id run) ∧
    Ledger.runs out.2 = Ledger.runs s ++ [run] ∧
    Props.param "question" run = Some question ∧
    Props.param "approach" run = Some approach ∧
    Props.param "session_id" run =
      Some (match sid with
            | Some (String c rest) => String c rest
            | _ => Ledger.uuid4 amb
            end) ∧
    Props.param "sql_query" run =
      (if Router.truthy_str (Router.sql_query result)
       then Router.sql_query result else None) ∧
    Props.param "error_message" run =
      (if Router.success result then None
       else if Router.truthy_str (Router.error result)
       then Router.error result else None) ∧
    Ledger.run_artifacts run =
      [("query_result_" +:+ Ledger.run_id run +:+ ".json",
        {| Ledger.rd_question := question; Ledger.rd_approach := approach;
           Ledger.rd_execution_time := t;
           Ledger.rd_timestamp := Ledger.now_artifact amb;
           Ledger.rd_result := result |})] ∧
    Ledger.run_status run = "FINISHED".
Proof.
  intros Hq out.
  destruct (log_query_experiment_record B amb question approach result t sid
              s Hq) as (run & Hid & Hruns & Hst & _ & Hp & Ha).
  exists run. split; [done|]. split; [done|].
  unfold Props.param. rewrite Hp.
  destruct (Router.success result);
    destruct (Router.sql_query result) as [[|? ?]|],
      (Router.error result) as [[|? ?]|], sid as [[|? ?]|];
    by repeat split.
Qed.

Lemma X15_logged_params_witness :
  let out := Ledger.log_query_experiment Demo.backend_ok Demo.ambient
               "How many customers do we have?" "Pattern Match"
               Demo.pattern_response Ledger.zero None Demo.empty_store in
  ∃ run,
    Ledger.runs out.2 = [run] ∧
    Props.param "session_id" run = Some "6f1c" ∧
    Props.param "sql_query" run =
      Some "SELECT COUNT(*) as customer_count FROM Customer" ∧
    Props.param "error_message" run = None ∧
    Ledger.run_status run = "FINISHED".
Proof.
  destruct (X15_logged_params Demo.backend_ok Demo.ambient
              "How many customers do we have?" "Pattern Match"
              Demo.pattern_response Ledger.zero None Demo.empty_store)
    as (run & _ & Hruns & _ & _ & Hs & Hq & He & _ & Hst).
  - intros k _. reflexivity.
  - exists run. exact (conj Hruns (conj Hs (conj Hq (conj He Hst)))).
Defined.

(** ** Direct generation in the ledger and on the page *)

Section GenerationLedger.
Import Router Ledger Spec Props Generation.
Context `{StrUpper}.

(** The method of a successful generation is none of the plain names. *)
Lemma provider_method_plain (p : string) :
  let method := "AI-Powered (" +:+ p +:+ ")" in
  method ≠ "Pattern Match" ∧ method ≠ "AI-Powered" ∧
  method ≠ "AutoGen Multi-Agent".
Proof. by repeat split. Qed.

Lemma process_ai_powered_method claude_model question db llm_client
    llm_provider schema_info :
  let r := process_ai_powered claude_model question db llm_client llm_provider
             schema_info in
  if success r then method r = "AI-Powered (" +:+ upper llm_provider +:+ ")"
  else method r = "AI-Powered".
Proof.
  unfold process_ai_powered, process_ai_powered_try.
  destruct (if String.eqb llm_provider "claude" then _ else _) as [text|e];
    simpl; [|done].
  by destruct (query_execution db (clean_sql text)).
Qed.

End GenerationLedger.

Ltac not_listed H :=
  simpl in H;
  repeat (apply elem_of_cons in H as [H|H]; [discriminate H|]);
  by apply elem_of_nil in H.

(** X16.  A successful direct generation is neither counted nor
    announced as AI-Powered.  Its method names the provider, so whatever
    the backend does the record added for it carries none of the three
    usage metrics, and the page shows no success banner for it.  A failed
    generation has the plain method, and on a backend that raises in none
    of the calls its record does carry the [ai_powered_used] metric. *)
Theorem X16_generation_not_counted `{StrUpper} (B : Ledger.Backend)
    (amb : Ledger.Ambient) (session_id : string)
    (claude_model : option string) (question : string)
    (db : Router.DbConnector) (llm_client : Generation.LlmClient)
    (llm_provider : string)
    (schema_info : option (list (string * list (string * string))))
    (s : Ledger.Store) :
  let r := Generation.process_ai_powered claude_model question db llm_client
             llm_provider schema_info in
  let out := Ledger.display_unified_results B amb session_id r s in
  (Router.success r = true ->
   (∃ new, Ledger.runs out.2 = Ledger.runs s ++ new ∧
           ∀ run, run ∈ new ->
             Spec.metric "pattern_match_used" run = None ∧
             Spec.metric "ai_powered_used" run = None ∧
             Spec.metric "autogen_used" run = None) ∧
   ∀ m, Ledger.Shown (Ledger.UiSuccess m) ∉ out.1.1) ∧
  (Router.success r = false -> Spec.quiet B (Ledger.calls s) 14 ->
   ∃ run, Ledger.runs out.2 = Ledger.runs s ++ [run] ∧
          Spec.metric "ai_powered_used" run = Some (VInt 1)).
Proof.
  intros r out.
  pose proof (process_ai_powered_method claude_model question db llm_client
                llm_provider schema_info) as Hm.
  fold r in Hm. cbv zeta in Hm.
  subst out. unfold Ledger.display_unified_results.
  set (q := default "" (Router.question r)).
  set (time := default Ledger.zero (Router.processing_time r)).
  split.
  - intros Hs. rewrite Hs in Hm.
    destruct (provider_method_plain (upper llm_provider)) as (N1 & N2 & N3).
    rewrite <- Hm in N1, N2, N3.
    split.
    + destruct (log_query_experiment_no_metric B "pattern_match_used" amb q
                  (Router.method r) r time (Some session_id) s)
        as (new & Hnew & Hlen & H1); [intros Hin; not_listed Hin|done|done|done|].
      destruct (log_query_experiment_no_metric B "ai_powered_used" amb q
                  (Router.method r) r time (Some session_id) s)
        as (new2 & Hnew2 & _ & H2); [intros Hin; not_listed Hin|done|done|done|].
      destruct (log_query_experiment_no_metric B "autogen_used" amb q
                  (Router.method r) r time (Some session_id) s)
        as (new3 & Hnew3 & _ & H3); [intros Hin; not_listed Hin|done|done|done|].
      cbv zeta in *.
      destruct (Ledger.log_query_experiment B amb q (Router.method r) r time
                  (Some session_id) s) as [rid s'].
      simpl in *. rewrite Hnew in Hnew2, Hnew3.
      apply app_inv_head in Hnew2, Hnew3. subst new2 new3.
      exists new. split; [done|]. intros run Hrun. by auto.
    + intros m Hin.
      destruct (Ledger.log_query_experiment B amb q (Router.method r) r time
                  (Some session_id) s) as [rid s'].
      simpl in Hin. apply elem_of_cons in Hin as [Hin|Hin]; [done|].
      apply list_elem_of_fmap in Hin as (u & Hu & Hin). injection Hu as <-.
      unfold Ledger.display_body in Hin. rewrite Hs in Hin. simpl in Hin.
      unfold Router.mode_in in Hin. simpl in Hin.
      destruct (String.eqb_spec (Router.method r) "Pattern Match"); [done|].
      destruct (String.eqb_spec (Router.method r) "AI-Powered"); [done|].
      destruct (String.eqb_spec (Router.method r) "AutoGen Multi-Agent");
        [done|].
      simpl in Hin.
      case_bool_decide.
      * destruct (Router.clarification_questions r) as [[|? ?]|],
          (Router.user_choices r) as [[|? ?]|]; not_listed Hin.
      * destruct (Router.truthy_str (Router.answer r)),
          (Router.truthy_str (Router.sql_query r)),
          (Router.results r) as [[|? ?]|], (Router.sources r) as [[|? ?]|];
          not_listed Hin.
  - intros Hs Hq. rewrite Hs in Hm.
    destruct (log_query_experiment_record B amb q (Router.method r) r time
                (Some session_id) s Hq) as (run & _ & Hruns & _ & Hmet & _).
    cbv zeta in Hruns.
    destruct (Ledger.log_query_experiment B amb q (Router.method r) r time
                (Some session_id) s) as [rid s'].
    simpl in *. exists run. split; [done|].
    unfold Spec.metric. by rewrite Hmet, Hm.
Qed.

Lemma X16_generation_not_counted_witness :
  let r := Generation.process_ai_powered (H := Samples.ascii_StrUpper) None
             "How many customers are there?" Demo.db Samples.fenced_client
             "claude" None in
  let out := Ledger.display_unified_results Demo.backend_ok Demo.ambient
               "session" r Demo.empty_store in
  Router.method r = "AI-Powered (CLAUDE)" ∧
  (∃ new, Ledger.runs out.2 = new ∧
          ∀ run, run ∈ new ->
            Spec.metric "pattern_match_used" run = None ∧
            Spec.metric "ai_powered_used" run = None ∧
            Spec.metric "autogen_used" run = None) ∧
  ∀ m, Ledger.Shown (Ledger.UiSuccess m) ∉ out.1.1.
Proof.
  split; [reflexivity|].
  exact (proj1 (X16_generation_not_counted (H := Samples.ascii_StrUpper)
                  Demo.backend_ok Demo.ambient "session" None
                  "How many customers are there?" Demo.db
                  Samples.fenced_client "claude" None Demo.empty_store)
           eq_refl).
Defined.

(** ** Feedback *)

Section FeedbackFacts.
Import Router Ledger Spec Props Feedback.
Variable B : Backend.

Lemma on_run_compose id f g rs :
  (∀ r, run_id (g r) = run_id r) ->
  on_run id f (on_run id g rs) = on_run id (λ r, f (g r)) rs.
Proof.
  intros Hg. unfold on_run. rewrite map_map. apply map_ext. intros r.
  destruct (String.eqb (run_id r) id) eqn:Hr; [|by rewrite Hr].
  by rewrite Hg, Hr.
Qed.

Lemma on_run_absent id f rs : has_run id rs = false -> on_run id f rs = rs.
Proof.
  unfold has_run, on_run. induction rs as [|r rs IH]; simpl; [done|].
  intros Hrs. apply orb_false_iff in Hrs as [Hr Hrs].
  by rewrite Hr, IH.
Qed.

Lemma on_run_snoc id f base r :
  has_run id base = false -> run_id r = id ->
  on_run id f (base ++ [r]) = base ++ [f r].
Proof.
  intros Hbase Hr. unfold on_run. rewrite map_app. simpl.
  fold (on_run id f base). rewrite on_run_absent by done.
  by rewrite Hr, String.eqb_refl.
Qed.

Lemma has_run_snoc id base r :
  run_id r = id -> has_run id (base ++ [r]) = true.
Proof.
  intros Hr. unfold has_run. rewrite existsb_app. simpl.
  rewrite Hr, String.eqb_refl. by rewrite orb_true_r.
Qed.

Lemma bind_ok {S A A'} (m1 : StateRes S A) (k : A -> StateRes S A') s a s1 :
  m1 s = (Ok a, s1) -> (x ← m1; k x) s = k a s1.
Proof. intros Hm. unfold mbind, StateRes_bind. by rewrite Hm. Qed.

Lemma on_store_api_quiet f t :
  raises B (calls (store t)) = None ->
  on_store (api_call B f) t =
  (Ok tt, {| store := {| runs := f (runs (store t));
                         calls := S (calls (store t)) |};
             feedback_artifacts := feedback_artifacts t |}).
Proof. intros Hr. unfold on_store, api_call. by rewrite Hr. Qed.

Lemma resume_run_quiet id t :
  raises B (calls (store t)) = None ->
  has_run id (runs (store t)) = true ->
  on_store (resume_run B id) t =
  (Ok tt, {| store := {| runs := on_run id (set_status "RUNNING") (runs (store t));
                         calls := S (calls (store t)) |};
             feedback_artifacts := feedback_artifacts t |}).
Proof. intros Hr Hh. unfold on_store, resume_run. by rewrite Hr, Hh. Qed.

Lemma log_feedback_artifact_quiet id file d t :
  raises B (calls (store t)) = None ->
  log_feedback_artifact B id file d t =
  (Ok tt, {| store := {| runs := runs (store t);
                         calls := S (calls (store t)) |};
             feedback_artifacts := feedback_artifacts t ++ [(id, file, d)] |}).
Proof. intros Hr. unfold log_feedback_artifact. by rewrite Hr. Qed.

(** What the feedback call does to a run when no call raises. *)
Lemma log_user_feedback_quiet amb id rating comment uid t :
  quiet B (calls (store t)) 8 ->
  has_run id (runs (store t)) = true ->
  log_user_feedback B amb id rating comment uid t =
  {| store :=
       {| runs :=
            on_run id
              (λ r, set_status "FINISHED"
                 (add_param "feedback_timestamp" (now_feedback_param amb)
                    (add_param "user_id"
                       (if truthy_str uid then default "" uid else "anonymous")
                       (add_param "user_comment" comment
                          (add_metric "user_rating" (VInt rating)
                             (set_status "RUNNING" r))))))
              (runs (store t));
          calls := calls (store t) + 8 |};
     feedback_artifacts :=
       feedback_artifacts t ++
       [(id, "feedback_" +:+ id +:+ ".json",
         {| fd_run_id := id; fd_user_rating := rating;
            fd_user_comment := comment; fd_user_id := uid;
            fd_feedback_timestamp := now_feedback_artifact amb |})] |}.
Proof.
  intros Hq Hrun. unfold log_user_feedback.
  rewrite resume_run_quiet by (try apply Hq; first [lia|done]).
  unfold feedback_body, write_file, remove_file.
  do 4 (erewrite bind_ok;
        [|apply on_store_api_quiet; cbn [store calls]; apply Hq; lia]).
  erewrite bind_ok;
    [|apply on_store_api_quiet; cbn [store calls]; apply Hq; lia].
  erewrite bind_ok;
    [|apply log_feedback_artifact_quiet; cbn [store calls]; apply Hq; lia].
  rewrite on_store_api_quiet by (cbn [store calls]; apply Hq; lia).
  unfold end_resumed. cbn [store calls runs feedback_artifacts].
  rewrite !on_run_compose by done.
  do 2 f_equal. lia.
Qed.

End FeedbackFacts.

Section FeedbackShape.
Import Router Ledger Spec Props Feedback.
Variable B : Backend.

Lemma extends_refl r : extends r r.
Proof. by repeat split. Qed.

Lemma extends_trans r1 r2 r3 : extends r1 r2 -> extends r2 r3 -> extends r1 r3.
Proof.
  intros (Hi1 & Hp1 & Hm1 & Ha1) (Hi2 & Hp2 & Hm2 & Ha2).
  split; [congruence|]. split; [by etrans|]. split; [by etrans|congruence].
Qed.

Lemma extends_add_param k v r : extends r (add_param k v r).
Proof. repeat split; [by apply prefix_app_r|done]. Qed.

Lemma extends_add_metric k v r : extends r (add_metric k v r).
Proof. repeat split; [done|by apply prefix_app_r]. Qed.

Lemma extends_set_status st r : extends r (set_status st r).
Proof. by repeat split. Qed.

Lemma rated_on_run id rs0 f t :
  (∀ r, extends r (f r)) -> rated id rs0 t ->
  rated id rs0
    {| store := {| runs := on_run id f (runs (store t));
                   calls := calls (store t) |};
       feedback_artifacts := feedback_artifacts t |}.
Proof.
  intros Hf (g & Hg & Hruns). exists (λ r, f (g r)). split.
  - intros r. apply (extends_trans r (g r)); [apply Hg|apply Hf].
  - simpl. rewrite Hruns. apply on_run_compose. intros r. apply Hg.
Qed.

Lemma leads_bind P Q R (m1 m2 : StateRes Tracking unit) :
  leads P m1 Q -> leads Q m2 R -> (∀ t, Q t -> R t) -> leads P (m1 ;; m2) R.
Proof.
  intros H1 H2 HQR t HP. specialize (H1 t HP).
  unfold mbind, StateRes_bind.
  destruct (m1 t) as [[[]|e] t1]; simpl in *; [by apply H2|by apply HQR].
Qed.

Lemma leads_api id rs0 fa more f :
  (∀ r, extends r (f r)) ->
  leads (kept id rs0 fa more) (on_store (api_call B (on_run id f)))
    (kept id rs0 fa more).
Proof.
  intros Hf t [Hr Ha]. unfold on_store, api_call.
  destruct (raises B (calls (store t))); simpl; (split; [|done]).
  - destruct Hr as (g & Hg & Hruns). by exists g.
  - destruct (rated_on_run id rs0 f t Hf Hr) as (g & Hg & Hruns). by exists g.
Qed.

Lemma leads_file id rs0 fa more :
  leads (kept id rs0 fa more) (on_store (api_call B (λ rs, rs)))
    (kept id rs0 fa more).
Proof.
  intros t [Hr Ha]. unfold on_store, api_call.
  destruct (raises B (calls (store t))); simpl; (split; [|done]);
    destruct Hr as (g & Hg & Hruns); by exists g.
Qed.

Lemma leads_artifact id rs0 fa file d :
  leads (kept id rs0 fa false) (log_feedback_artifact B id file d)
    (kept id rs0 fa true).
Proof.
  intros t [Hr [Ha|[? _]]]; [|done]. unfold log_feedback_artifact.
  destruct (raises B (calls (store t))); simpl.
  - split; [|by left]. destruct Hr as (g & Hg & Hruns). by exists g.
  - split; [|right; split; [done|]; exists (id, file, d); by rewrite Ha].
    destruct Hr as (g & Hg & Hruns). by exists g.
Qed.

Lemma kept_more id rs0 fa t : kept id rs0 fa false t -> kept id rs0 fa true t.
Proof. intros [Hr [Ha|[? _]]]; [|done]. split; [done|by left]. Qed.

Lemma feedback_body_leads amb id rating comment uid rs0 fa :
  leads (kept id rs0 fa false) (feedback_body B amb id rating comment uid)
    (kept id rs0 fa true).
Proof.
  unfold feedback_body, write_file, remove_file.
  apply (leads_bind _ (kept id rs0 fa false));
    [apply leads_api, extends_add_metric| |apply kept_more].
  apply (leads_bind _ (kept id rs0 fa false));
    [apply leads_api, extends_add_param| |apply kept_more].
  apply (leads_bind _ (kept id rs0 fa false));
    [apply leads_api, extends_add_param| |apply kept_more].
  apply (leads_bind _ (kept id rs0 fa false));
    [apply leads_api, extends_add_param| |apply kept_more].
  apply (leads_bind _ (kept id rs0 fa false));
    [apply leads_file| |apply kept_more].
  apply (leads_bind _ (kept id rs0 fa true));
    [apply leads_artifact| |done].
  apply leads_file.
Qed.

Lemma on_run_lookup id g rs i r :
  rs !! i = Some r ->
  on_run id g rs !! i = Some (if String.eqb (run_id r) id then g r else r).
Proof. intros Hr. unfold on_run. by rewrite list_lookup_fmap, Hr. Qed.

End FeedbackShape.

(** X17.  Feedback for a run the store does not know is dropped: the
    runs and the feedback artifacts are as before, and one call was made. *)
Theorem X17_feedback_unknown_run (B : Ledger.Backend)
    (amb : Feedback.FeedbackAmbient) (id : string) (rating : Z)
    (comment : string) (uid : option string) (t : Feedback.Tracking) :
  Feedback.has_run id (Ledger.runs (Feedback.store t)) = false ->
  let t' := Feedback.log_user_feedback B amb id rating comment uid t in
  Ledger.runs (Feedback.store t') = Ledger.runs (Feedback.store t) ∧
  Feedback.feedback_artifacts t' = Feedback.feedback_artifacts t ∧
  Ledger.calls (Feedback.store t') = S (Ledger.calls (Feedback.store t)).
Proof.
  intros Hrun. unfold Feedback.log_user_feedback, Feedback.on_store,
    Feedback.resume_run.
  destruct (Ledger.raises B (Ledger.calls (Feedback.store t))); [done|].
  by rewrite Hrun.
Qed.

Lemma X17_feedback_unknown_run_witness :
  let t' := Feedback.log_user_feedback Demo.backend_ok
              Samples.feedback_ambient "run-7" 1 "thanks" None
              Samples.logged in
  Ledger.runs (Feedback.store t') = Ledger.runs (Feedback.store Samples.logged) ∧
  Feedback.feedback_artifacts t' = [] ∧
  Ledger.calls (Feedback.store t') =
    S (Ledger.calls (Feedback.store Samples.logged)).
Proof.
  apply (X17_feedback_unknown_run Demo.backend_ok Samples.feedback_ambient
           "run-7" 1 "thanks" None Samples.logged).
  reflexivity.
Defined.

(** X18.  Whatever the backend does, a feedback call keeps the ledger in
    shape: the runs keep their number, order and identifiers, a run under
    another identifier is left as it is, nothing that was logged for a run
    is removed or changed, and at most one feedback artifact is added. *)
Theorem X18_feedback_keeps_ledger (B : Ledger.Backend)
    (amb : Feedback.FeedbackAmbient) (id : string) (rating : Z)
    (comment : string) (uid : option string) (t : Feedback.Tracking) :
  let t' := Feedback.log_user_feedback B amb id rating comment uid t in
  length (Ledger.runs (Feedback.store t')) =
    length (Ledger.runs (Feedback.store t)) ∧
  (∀ i r, Ledger.runs (Feedback.store t) !! i = Some r ->
     ∃ r', Ledger.runs (Feedback.store t') !! i = Some r' ∧
           Props.extends r r' ∧ (Ledger.run_id r ≠ id -> r' = r)) ∧
  (Feedback.feedback_artifacts t' = Feedback.feedback_artifacts t ∨
   ∃ a, Feedback.feedback_artifacts t' = Feedback.feedback_artifacts t ++ [a]).
Proof.
  intros t'.
  assert (Props.rated id (Ledger.runs (Feedback.store t)) t' ∧
          (Feedback.feedback_artifacts t' = Feedback.feedback_artifacts t ∨
           ∃ a, Feedback.feedback_artifacts t' =
                Feedback.feedback_artifacts t ++ [a])) as [(g & Hg & Hruns) Ha].
  { subst t'. unfold Feedback.log_user_feedback, Feedback.on_store,
      Feedback.resume_run.
    destruct (Ledger.raises B (Ledger.calls (Feedback.store t))).
    { split; [|by left]. exists (λ r, r). split; [apply extends_refl|].
      simpl. unfold Feedback.on_run. rewrite <- (map_id (Ledger.runs _)) at 1.
      apply map_ext. intros r. by destruct (String.eqb _ _). }
    destruct (Feedback.has_run id (Ledger.runs (Feedback.store t))).
    2:{ split; [|by left]. exists (λ r, r). split; [apply extends_refl|].
        simpl. unfold Feedback.on_run.
        rewrite <- (map_id (Ledger.runs _)) at 1.
        apply map_ext. intros r. by destruct (String.eqb _ _). }
    set (t1 := {| Feedback.store := _; Feedback.feedback_artifacts := _ |}).
    pose proof (feedback_body_leads B amb id rating comment uid
                  (Ledger.runs (Feedback.store t))
                  (Feedback.feedback_artifacts t) t1) as Hb.
    destruct Hb as [Hr Hfa].
    { split; [|by left]. exists (Ledger.set_status "RUNNING").
      split; [apply extends_set_status|done]. }
    assert (∀ ok, Props.rated id (Ledger.runs (Feedback.store t))
              (Feedback.end_resumed id ok
                 (Feedback.feedback_body B amb id rating comment uid t1).2))
      as Hend.
    { intros ok. apply (rated_on_run id _ _ _ (extends_set_status _) Hr). }
    destruct (Feedback.feedback_body B amb id rating comment uid t1)
      as [[[]|e] t2]; simpl in *.
    - split; [apply (Hend true)|]. destruct Hfa as [?|[_ ?]]; by auto.
    - split; [apply (Hend false)|]. destruct Hfa as [?|[_ ?]]; by auto. }
  split; [|split; [|done]].
  - rewrite Hruns. unfold Feedback.on_run. by rewrite length_map.
  - intros i r Hi. rewrite Hruns, (on_run_lookup id g _ i r Hi).
    eexists. split; [done|].
    destruct (String.eqb_spec (Ledger.run_id r) id) as [He|Hne].
    + split; [apply Hg|done].
    + split; [apply extends_refl|done].
Qed.

(** X19.  On a backend that raises in none of the eight calls, feedback
    for a known run reaches it: every run under that identifier ends up
    FINISHED with the rating as its [user_rating] metric, the comment and
    the user (anonymous when none or an empty one is given) as parameters,
    and its other metrics as before; and the feedback artifact of the run
    is added to the artifacts, named after the run. *)
Theorem X19_feedback_recorded (B : Ledger.Backend)
    (amb : Feedback.FeedbackAmbient) (id : string) (rating : Z)
    (comment : string) (uid : option string) (t : Feedback.Tracking) :
  Spec.quiet B (Ledger.calls (Feedback.store t)) 8 ->
  Feedback.has_run id (Ledger.runs (Feedback.store t)) = true ->
  let t' := Feedback.log_user_feedback B amb id rating comment uid t in
  Feedback.feedback_artifacts t' =
    Feedback.feedback_artifacts t ++
    [(id, "feedback_" +:+ id +:+ ".json",
      {| Feedback.fd_run_id := id; Feedback.fd_user_rating := rating;
         Feedback.fd_user_comment := comment; Feedback.fd_user_id := uid;
         Feedback.fd_feedback_timestamp :=
           Feedback.now_feedback_artifact amb |})] ∧
  ∀ i r, Ledger.runs (Feedback.store t) !! i = Some r ->
         Ledger.run_id r = id ->
    ∃ r', Ledger.runs (Feedback.store t') !! i = Some r' ∧
          Ledger.run_status r' = "FINISHED" ∧
          Spec.metric "user_rating" r' = Some (VInt rating) ∧
          Props.param "user_comment" r' = Some comment ∧
          Props.param "user_id" r' =
            Some (match uid with
                  | Some (String c rest) => String c rest
                  | _ => "anonymous"
                  end) ∧
          ∀ k, k ≠ "user_rating" -> Spec.metric k r' = Spec.metric k r.
Proof.
  intros Hq Hrun t'. subst t'.
  rewrite (log_user_feedback_quiet B amb id rating comment uid t Hq Hrun).
  cbn [Feedback.feedback_artifacts Feedback.store Ledger.runs].
  split; [done|]. intros i r Hi Hid.
  rewrite (on_run_lookup id _ _ i r Hi), Hid, String.eqb_refl.
  eexists. split; [reflexivity|].
  unfold Spec.metric, Props.param.
  cbn [Ledger.run_metrics Ledger.run_params Ledger.run_status
       Ledger.set_status Ledger.add_param Ledger.add_metric].
  split; [done|].
  rewrite !lookup_param_snoc, lookup_last_snoc. cbn [String.eqb Ascii.eqb Bool.eqb].
  split; [done|]. split; [done|]. split; [by destruct uid as [[|? ?]|]|].
  intros k Hk. rewrite lookup_last_snoc.
  by destruct (String.eqb_spec k "user_rating").
Qed.

Lemma X19_feedback_recorded_witness :
  let t' := Feedback.log_user_feedback Demo.backend_ok
              Samples.feedback_ambient "run-0" 1 "thanks" None
              Samples.logged in
  ∃ r', Ledger.runs (Feedback.store t') !! 0 = Some r' ∧
        Ledger.run_status r' = "FINISHED" ∧
        Spec.metric "user_rating" r' = Some (VInt 1) ∧
        Props.param "user_comment" r' = Some "thanks" ∧
        Props.param "user_id" r' = Some "anonymous".
Proof.
  destruct (X19_feedback_recorded Demo.backend_ok Samples.feedback_ambient
              "run-0" 1 "thanks" None Samples.logged) as [_ Hruns].
  - intros k _. reflexivity.
  - reflexivity.
  - destruct (Hruns 0
                (Ledger.set_status "FINISHED"
                   (Props.record_query Demo.ambient "run-0"
                      "How many customers do we have?" "Pattern Match"
                      Demo.pattern_response Ledger.zero (Some "session")
                      (Ledger.new_run "run-0"))))
      as (r' & H0 & Hst & Hm & Hc & Hu & _); [reflexivity|reflexivity|].
    exists r'. exact (conj H0 (conj Hst (conj Hm (conj Hc Hu)))).
Defined.

(** X20.  A query and its feedback end up in one record.  On a backend
    that raises in none of the calls and hands out an identifier no run has
    yet, logging a query and then logging feedback under the identifier
    handed back adds one run and leaves the older runs as they are; that
    run is FINISHED and carries the question, the [success] metric of the
    response and the rating. *)
Theorem X20_query_then_feedback (B : Ledger.Backend) (amb : Ledger.Ambient)
    (famb : Feedback.FeedbackAmbient) (question approach : string)
    (result : Router.Response) (time : float) (sid : option string)
    (rating : Z) (comment : string) (uid : option string)
    (t : Feedback.Tracking) :
  let s := Feedback.store t in
  Spec.quiet B (Ledger.calls s) 22 ->
  Feedback.has_run (Ledger.fresh_run_id B (length (Ledger.runs s)))
    (Ledger.runs s) = false ->
  let logged := Ledger.log_query_experiment B amb question approach result
                  time sid s in
  ∃ id run,
    logged.1 = Some id ∧ Ledger.run_id run = id ∧
    Ledger.runs
      (Feedback.store
         (Feedback.log_user_feedback B famb id rating comment uid
            {| Feedback.store := logged.2;
               Feedback.feedback_artifacts := Feedback.feedback_artifacts t |}))
      = Ledger.runs s ++ [run] ∧
    Ledger.run_status run = "FINISHED" ∧
    Props.param "question" run = Some question ∧
    Spec.metric "success" run =
      Some (VInt (if Router.success result then 1 else 0)) ∧
    Spec.metric "user_rating" run = Some (VInt rating).
Proof.
  intros s Hq Hfresh logged.
  destruct (log_query_experiment_quiet B amb question approach result time
              sid s) as (Hid & Hruns & Hcalls).
  { intros k Hk. apply Hq. lia. }
  fold logged in Hid, Hruns, Hcalls.
  set (id := Ledger.fresh_run_id B (length (Ledger.runs s))) in *.
  set (run0 := Ledger.set_status "FINISHED" _) in Hruns.
  assert (Ledger.run_id run0 = id) as Hid0.
  { subst run0. unfold Ledger.set_status. cbn [Ledger.run_id].
    by rewrite record_query_id. }
  eexists id, _. split; [done|].
  rewrite log_user_feedback_quiet.
  2:{ cbn [Feedback.store]. intros k Hk. apply Hq. lia. }
  2:{ cbn [Feedback.store]. rewrite Hruns. by apply has_run_snoc. }
  cbn [Feedback.store Ledger.runs]. rewrite Hruns.
  rewrite on_run_snoc by done.
  split; [|split; [reflexivity|]].
  { unfold Ledger.set_status, Ledger.add_param, Ledger.add_metric.
    by cbn [Ledger.run_id]. }
  split; [done|].
  unfold Spec.metric, Props.param.
  cbn [Ledger.run_metrics Ledger.run_params Ledger.set_status
       Ledger.add_param Ledger.add_metric].
  rewrite !lookup_param_snoc, !lookup_last_snoc.
  cbn [String.eqb Ascii.eqb Bool.eqb].
  subst run0. cbn [Ledger.run_metrics Ledger.run_params Ledger.set_status].
  rewrite record_query_params, record_query_metrics.
  cbn [Ledger.run_metrics Ledger.run_params Ledger.new_run].
  split; [|split; [|done]].
  - destruct (Router.truthy_str (Router.sql_query result)),
      (negb (Router.success result) && Router.truthy_str (Router.error result));
      done.
  - destruct (String.eqb approach "Pattern Match"),
      (String.eqb approach "AI-Powered"),
      (String.eqb approach "AutoGen Multi-Agent"); done.
Qed.

Lemma X20_query_then_feedback_witness :
  let logged := Ledger.log_query_experiment Demo.backend_ok Demo.ambient
                  "How many customers do we have?" "Pattern Match"
                  Demo.pattern_response Ledger.zero (Some "session")
                  Demo.empty_store in
  ∃ id run,
    logged.1 = Some id ∧ Ledger.run_id run = id ∧
    Ledger.runs
      (Feedback.store
         (Feedback.log_user_feedback Demo.backend_ok Samples.feedback_ambient
            id 1 "thanks" None
            {| Feedback.store := logged.2;
               Feedback.feedback_artifacts := [] |}))
      = [run] ∧
    Ledger.run_status run = "FINISHED" ∧
    Props.param "question" run = Some "How many customers do we have?" ∧
    Spec.metric "success" run = Some (VInt 1) ∧
    Spec.metric "user_rating" run = Some (VInt 1).
Proof.
  apply (X20_query_then_feedback Demo.backend_ok Demo.ambient
           Samples.feedback_ambient "How many customers do we have?"
           "Pattern Match" Demo.pattern_response Ledger.zero (Some "session")
           1 "thanks" None Samples.nothing_logged).
  - intros k _. reflexivity.
  - reflexivity.
Defined.

(** ** Further properties of the retrieval engine *)

Section RetrievalMore.
Import Chroma Spec Props.

Lemma entries_created (client : gmap string (gmap string Entry)) idx name :
  entries (match client !! idx with
           | Some _ => client
           | None => <[idx := ∅]> client
           end) name = entries client name.
Proof.
  unfold entries. destruct (client !! idx) eqn:Hc; [done|].
  destruct (decide (name = idx)) as [->|Hne].
  - by rewrite lookup_insert_eq, Hc.
  - by rewrite lookup_insert_ne.
Qed.

Lemma results_loop_unfiltered mds : ∀ i ds inc acc out,
  results_loop i mds ds inc None acc = Ok out ->
  ∃ new, out = acc ++ new ∧ length new = length mds ∧
    ∀ j item, mds !! j = Some item ->
      ∃ md s, item = Some md ∧ score_at ds (i + j) = Ok s ∧
              new !! j = Some (result_item inc md s).
Proof.
  induction mds as [|omd mds IH]; intros i ds inc acc out; simpl.
  - intros [= <-]. exists []. rewrite app_nil_r. by repeat split.
  - unfold mbind, res_bind, Py.bind.
    destruct (score_at ds i) as [s|x] eqn:Hs; [|done].
    destruct omd as [md|]; [|done].
    intros Hl. destruct (IH _ _ _ _ _ Hl) as (new & -> & Hlen & Hnew).
    exists (result_item inc md s :: new).
    split; [by rewrite <- app_assoc|]. split; [simpl; by rewrite Hlen|].
    intros [|j] item Hj; simpl in Hj.
    + injection Hj as <-. exists md, s. by rewrite Nat.add_0_r.
    + destruct (Hnew j item Hj) as (md' & s' & -> & Hsc & Hj').
      exists md', s'. by rewrite Nat.add_succ_r.
Qed.

End RetrievalMore.

(** X21.  Searching never changes what is stored.  After any of the
    three search calls, whether it returns or raises, every collection has
    the entries it had before; the only change is that a collection missing
    under the index name now exists, empty, even when the search itself
    failed. *)
Theorem X21_search_read_only `{StrLower} {F} `{Chroma.Str F}
    (C : Chroma.Connector) (env : Chroma.Environ) (q : string)
    (vf rf : list string) (idx : string) (sc : option string) (top : Z)
    (inc : bool) (ms : option float) (excl : list string) (fields : list F)
    (client : gmap string (gmap string Chroma.Entry)) :
  (∀ name,
     Props.entries
       (Chroma.run_ai_search_query C q vf rf idx sc top inc ms client).2 name
       = Props.entries client name ∧
     Props.entries (Chroma.get_column_values C env q client).2 name
       = Props.entries client name ∧
     Props.entries (Chroma.get_entity_schemas C env q excl fields client).2 name
       = Props.entries client name) ∧
  (client !! idx = None ->
   (Chroma.run_ai_search_query C q vf rf idx sc top inc ms client).2
     = <[idx := ∅]> client).
Proof.
  split.
  - intros name. split; [|split].
    + rewrite run_ai_search_query_unfold. apply entries_created.
    + unfold Chroma.get_column_values. rewrite run_ai_search_query_unfold.
      apply entries_created.
    + rewrite get_entity_schemas_unfold, run_ai_search_query_unfold.
      destruct (_ ← Chroma.search C _ q _ 3; _) as [schemas|e];
        apply entries_created.
  - intros Hc. rewrite run_ai_search_query_unfold. by rewrite Hc.
Qed.

Lemma X21_search_read_only_witness :
  (Chroma.run_ai_search_query Samples.connector_down "customers"
     ["DefinitionEmbedding"] [] "text2sql-schema-store" None 3 false None
     Demo.no_collections).2
  = <["text2sql-schema-store" := ∅]> Demo.no_collections.
Proof.
  exact (proj2 (X21_search_read_only (H := ascii_StrLower)
                  (H0 := Demo.str_string) Samples.connector_down Demo.environ
                  "customers" ["DefinitionEmbedding"] []
                  "text2sql-schema-store" None 3 false None [] []
                  Demo.no_collections) eq_refl).
Defined.

(** X22.  Without a minimum score nothing is filtered: a search that
    returns hands back one entry per candidate of the answer, in their
    order, each the metadata of its candidate, with its score attached on
    request; and an answer without candidates gives the empty list. *)
Theorem X22_unfiltered_search (C : Chroma.Connector) (q : string)
    (vf rf : list string) (idx : string) (sc : option string) (top : Z)
    (inc : bool) (client client' : gmap string (gmap string Chroma.Entry))
    (out : list dict) :
  Chroma.run_ai_search_query C q vf rf idx sc top inc None client =
    (Ok out, client') ->
  ∃ r, Chroma.search C (Props.entries client idx) q vf top = Ok r ∧
       match Chroma.metadatas r with
       | Some (m0 :: _) =>
           length out = length m0 ∧
           ∀ j item, m0 !! j = Some item ->
             ∃ md s, item = Some md ∧
                     Chroma.score_at (Chroma.distances r) j = Ok s ∧
                     out !! j = Some (Chroma.result_item inc md s)
       | _ => out = []
       end.
Proof.
  rewrite run_ai_search_query_unfold. intros [= Hrun _].
  unfold Props.entries.
  destruct (Chroma.search C _ q vf top) as [r|x]; [|done].
  exists r. split; [done|]. simpl in Hrun.
  unfold Chroma.process_results in Hrun.
  destruct (Chroma.metadatas r) as [[|m0 rest]|]; try by injection Hrun.
  apply results_loop_unfiltered in Hrun as (new & -> & Hlen & Hnew).
  split; [done|]. intros j item Hj.
  destruct (Hnew j item Hj) as (md & s & -> & Hs & Hj'). by exists md, s.
Qed.

Lemma X22_unfiltered_search_witness :
  ∃ r, Chroma.search Demo.connector
         (Props.entries Demo.no_collections "text2sql-schema-store")
         "customers" ["DefinitionEmbedding"] 3 = Ok r ∧
       match Chroma.metadatas r with
       | Some (m0 :: _) =>
           length [Chroma.result_item true Demo.customer
                     (Chroma.similarity Demo.distance_02);
                   Chroma.result_item true Demo.product
                     (Chroma.similarity Demo.distance_05);
                   Chroma.result_item true Demo.address
                     (Chroma.similarity Demo.distance_09)] = length m0 ∧
           ∀ j item, m0 !! j = Some item ->
             ∃ md s, item = Some md ∧
                     Chroma.score_at (Chroma.distances r) j = Ok s ∧
                     [Chroma.result_item true Demo.customer
                        (Chroma.similarity Demo.distance_02);
                      Chroma.result_item true Demo.product
                        (Chroma.similarity Demo.distance_05);
                      Chroma.result_item true Demo.address
                        (Chroma.similarity Demo.distance_09)] !! j
                     = Some (Chroma.result_item true md s)
       | _ => [Chroma.result_item true Demo.customer
                 (Chroma.similarity Demo.distance_02);
               Chroma.result_item true Demo.product
                 (Chroma.similarity Demo.distance_05);
               Chroma.result_item true Demo.address
                 (Chroma.similarity Demo.distance_09)] = []
       end.
Proof.
  apply (X22_unfiltered_search Demo.connector "customers"
           ["DefinitionEmbedding"] [] "text2sql-schema-store" None 3 true
           Demo.no_collections {["text2sql-schema-store" := ∅]}).
  rewrite run_ai_search_query_unfold. f_equal.
Defined.

(** X23.  The column-value search is a full-text search: it never asks
    for an embedding, so its outcome is the same with any embedding
    provider.  The schema search is a vector search: when the embedding
    request raises, or answers with no embedding, the search raises too,
    without querying the collection. *)
Theorem X23_embedding_use `{StrLower} {F} `{Chroma.Str F}
    (C : Chroma.Connector) (env : Chroma.Environ) (text : string)
    (excl : list string) (fields : list F)
    (client : gmap string (gmap string Chroma.Entry)) :
  (∀ C', (∀ coll t n, Chroma.query_texts C' coll t n =
                      Chroma.query_texts C coll t n) ->
         Chroma.get_column_values C' env text client =
         Chroma.get_column_values C env text client) ∧
  (∀ e, Chroma.run_embedding_request C [VStr text] = Raise e ->
        (Chroma.get_entity_schemas C env text excl fields client).1 = Raise e) ∧
  (Chroma.run_embedding_request C [VStr text] = Ok [] ->
   (Chroma.get_entity_schemas C env text excl fields client).1 =
     Raise (Exn "IndexError" "list index out of range")).
Proof.
  split; [|split].
  - intros C' Hq. unfold Chroma.get_column_values.
    rewrite !run_ai_search_query_unfold. unfold Chroma.search. simpl.
    by rewrite Hq.
  - intros e He. rewrite get_entity_schemas_unfold, run_ai_search_query_unfold.
    unfold Chroma.search. simpl. by rewrite He.
  - intros He. rewrite get_entity_schemas_unfold, run_ai_search_query_unfold.
    unfold Chroma.search. simpl. by rewrite He.
Qed.

Lemma X23_embedding_use_witness :
  (Chroma.get_entity_schemas (H := ascii_StrLower) (H0 := Demo.str_string)
     Samples.connector_down Demo.environ "customers" ["product"] ["db"]
     Demo.no_collections).1
  = Raise (Exn "APIConnectionError" "Connection error.").
Proof.
  exact (proj1 (proj2 (X23_embedding_use (H := ascii_StrLower)
                         (H0 := Demo.str_string) Samples.connector_down
                         Demo.environ "customers" ["product"] ["db"]
                         Demo.no_collections))
           (Exn "APIConnectionError" "Connection error.") eq_refl).
Defined.

Section SchemaMore.
Import Chroma Spec Props.
Context `{StrLower}.

Lemma schemas_loop_length trim excl schemas : ∀ acc out,
  schemas_loop trim excl schemas acc = Ok out ->
  length out ≤ length acc + length schemas.
Proof.
  induction schemas as [|schema schemas IH]; intros acc out; simpl.
  - intros [= <-]. lia.
  - unfold mbind, res_bind, Py.bind.
    destruct (schema_step trim excl schema) as [[schema' keep]|]; [|done].
    intros Hl. apply IH in Hl. destruct keep; [|lia].
    rewrite length_app in Hl. simpl in Hl. lia.
Qed.

(** One entry the loop body cannot handle fails the loop. *)
Lemma schemas_loop_raises trim excl schemas : ∀ acc,
  (∃ schema, schema ∈ schemas ∧ ∃ e, schema_step trim excl schema = Raise e) ->
  ∃ e, schemas_loop trim excl schemas acc = Raise e.
Proof.
  induction schemas as [|schema schemas IH]; intros acc (bad & Hin & e & Hbad).
  - by apply elem_of_nil in Hin.
  - simpl. unfold mbind, res_bind, Py.bind.
    destruct (schema_step trim excl schema) as [[schema' keep]|e'] eqn:Hstep;
      [|by eauto].
    apply elem_of_cons in Hin as [->|Hin]; [congruence|].
    apply IH. by eauto.
Qed.

Lemma schema_step_bad_entity trim excl schema v :
  schema !! "Entity" = Some v -> (∀ s, v ≠ VStr s) ->
  ∃ e, schema_step trim excl schema = Raise e.
Proof.
  intros Hv Hns.
  destruct (schema_step trim excl schema) as [[schema' keep]|e] eqn:Hstep;
    [|by eauto].
  apply schema_step_lookup in Hstep as (_ & _ & _ & _ & ent & He & _).
  unfold entity_lower in He. rewrite Hv in He.
  destruct v; try done. by destruct (Hns s).
Qed.

End SchemaMore.

(** X24.  With a non-empty exclusion list the entries handed back are
    cleaned matches: there are no more of them than matches; each comes
    from a match and has, under the keys of the relationship graph, the
    sample values and the entity relationships, no empty list and no empty
    string (such a field is removed; a non-empty one is kept as it is under
    the last two keys); and every other key but [FQN] has the value it had
    in the match. *)
Theorem X24_cleaned_matches `{StrLower} {F} `{Chroma.Str F}
    (C : Chroma.Connector) (env : Chroma.Environ) (text : string)
    (excluded_entities : list string) (engine_specific_fields : list F)
    (client client' : gmap string (gmap string Chroma.Entry))
    (out : list dict) :
  excluded_entities ≠ [] ->
  Chroma.get_entity_schemas C env text excluded_entities
    engine_specific_fields client = (Ok out, client') ->
  ∃ schemas,
    Chroma.get_entity_schemas C env text [] engine_specific_fields client
      = (Ok schemas, client') ∧
    length out ≤ length schemas ∧
    ∀ e, e ∈ out ->
      ∃ raw, raw ∈ schemas ∧
        (∀ k, k ∈ [Spec.graph_key; "SampleValues"; "EntityRelationships"] ->
              ¬ Props.empty_field (e !! k)) ∧
        (∀ k, k ∈ ["SampleValues"; "EntityRelationships"] ->
              ¬ Props.empty_field (raw !! k) -> e !! k = raw !! k) ∧
        (∀ k, k ∉ ["FQN"; Spec.graph_key; "SampleValues";
                   "EntityRelationships"] -> e !! k = raw !! k).
Proof.
  intros Hne Hget.
  rewrite get_entity_schemas_nothing_excluded.
  rewrite get_entity_schemas_unfold in Hget.
  destruct (Chroma.run_ai_search_query _ _ _ _ _ _ _ _ _ client)
    as [[schemas|x] c']; [|done].
  destruct excluded_entities as [|x excl]; [done|]. simpl in Hget.
  injection Hget as Hloop <-. exists schemas. split; [done|].
  split; [by apply schemas_loop_length in Hloop|].
  apply schemas_loop_spec in Hloop as (new & -> & Hnew).
  intros e He. destruct (Hnew e He) as (raw & Hraw & Hstep).
  exists raw. split; [done|].
  apply schema_step_lookup in Hstep as (_ & Hg & Hsv & Hother & _).
  split; [|split; [|done]].
  - intros k Hk [Hempty|Hempty].
    + apply elem_of_cons in Hk as [->|Hk].
      { rewrite Hg in Hempty.
        by destruct (raw !! Spec.graph_key) as [[| | | |[|? ?]|[|? ?]]|]. }
      rewrite Hsv in Hempty.
      * by destruct (raw !! k) as [[| | | |[|? ?]|[|? ?]]|].
      * apply elem_of_cons in Hk as [->|Hk]; [by left|].
        apply elem_of_cons in Hk as [->|Hk]; [by right|].
        by apply elem_of_nil in Hk.
    + apply elem_of_cons in Hk as [->|Hk].
      { rewrite Hg in Hempty.
        by destruct (raw !! Spec.graph_key) as [[| | | |[|? ?]|[|? ?]]|]. }
      rewrite Hsv in Hempty.
      * by destruct (raw !! k) as [[| | | |[|? ?]|[|? ?]]|].
      * apply elem_of_cons in Hk as [->|Hk]; [by left|].
        apply elem_of_cons in Hk as [->|Hk]; [by right|].
        by apply elem_of_nil in Hk.
  - intros k Hk Hnon. rewrite Hsv.
    + destruct (raw !! k) as [[| | | |[|? ?]|[|? ?]]|]; try done;
        destruct Hnon; first [by left|by right].
    + apply elem_of_cons in Hk as [->|Hk]; [by left|].
      apply elem_of_cons in Hk as [->|Hk]; [by right|].
      by apply elem_of_nil in Hk.
Qed.

(** The schema search on a collection answering with the order and the
    product entries, excluding [product], with the field [db]. *)
Lemma samples_entity_schemas :
  @Chroma.get_entity_schemas ascii_StrLower string Demo.str_string
    (Samples.answering [(Samples.order, Demo.distance_02);
                        (Demo.product, Demo.distance_05)])
    Demo.environ "orders" ["product"] ["db"] Demo.no_collections =
  (Ok [Samples.order_exploded], {["text2sql-schema-store" := ∅]}).
Proof.
  vm_cast_no_check
    (eq_refl (Ok [Samples.order_exploded],
              ({["text2sql-schema-store" := ∅]}
                 : gmap string (gmap string Chroma.Entry)))).
Qed.

(** The schema search on a collection answering with the customer entry
    and an entry whose [Entity] is a number, without exclusion. *)
Lemma samples_numbered_schemas :
  @Chroma.get_entity_schemas ascii_StrLower string Demo.str_string
    (Samples.answering [(Demo.customer, Demo.distance_02);
                        (Samples.numbered, Demo.distance_05)])
    Demo.environ "customers" [] ["db"; "sch"] Demo.no_collections =
  (Ok [Demo.customer; Samples.numbered], {["text2sql-schema-store" := ∅]}).
Proof.
  vm_cast_no_check
    (eq_refl (Ok [Demo.customer; Samples.numbered],
              ({["text2sql-schema-store" := ∅]}
                 : gmap string (gmap string Chroma.Entry)))).
Qed.

Lemma X24_cleaned_matches_witness :
  ∃ schemas,
    @Chroma.get_entity_schemas ascii_StrLower string Demo.str_string
      (Samples.answering [(Samples.order, Demo.distance_02);
                          (Demo.product, Demo.distance_05)])
      Demo.environ "orders" [] ["db"] Demo.no_collections
      = (Ok schemas, {["text2sql-schema-store" := ∅]}) ∧
    length [Samples.order_exploded] ≤ length schemas ∧
    ∀ e, e ∈ [Samples.order_exploded] ->
      ∃ raw, raw ∈ schemas ∧
        (∀ k, k ∈ [Spec.graph_key; "SampleValues"; "EntityRelationships"] ->
              ¬ Props.empty_field (e !! k)) ∧
        (∀ k, k ∈ ["SampleValues"; "EntityRelationships"] ->
              ¬ Props.empty_field (raw !! k) -> e !! k = raw !! k) ∧
        (∀ k, k ∉ ["FQN"; Spec.graph_key; "SampleValues";
                   "EntityRelationships"] -> e !! k = raw !! k).
Proof.
  apply (@X24_cleaned_matches ascii_StrLower string Demo.str_string
           (Samples.answering [(Samples.order, Demo.distance_02);
                               (Demo.product, Demo.distance_05)])
           Demo.environ "orders" ["product"] ["db"] Demo.no_collections
           {["text2sql-schema-store" := ∅]} [Samples.order_exploded]).
  - discriminate.
  - apply samples_entity_schemas.
Defined.

(** X25.  A relationship graph stored as a string is taken apart.  With
    a non-empty exclusion list, the returned entries are, in their order,
    the matches whose lowercase name is not excluded; an entry whose match
    has a non-empty string as its graph has as its graph the list of the
    characters of that string, one element per character, each with the
    occurrences of the joined engine-specific fields removed from it. *)
Theorem X25_string_graph_exploded `{StrLower} {F} `{Chroma.Str F}
    (C : Chroma.Connector) (env : Chroma.Environ) (text : string)
    (excluded_entities : list string) (engine_specific_fields : list F)
    (client client' : gmap string (gmap string Chroma.Entry))
    (out : list dict) :
  excluded_entities ≠ [] ->
  Chroma.get_entity_schemas C env text excluded_entities
    engine_specific_fields client = (Ok out, client') ->
  let fqn_to_trim := Py.join "." (map Chroma.str engine_specific_fields) in
  ∃ schemas,
    Chroma.get_entity_schemas C env text [] engine_specific_fields client
      = (Ok schemas, client') ∧
    Forall2
      (λ raw e,
         (∀ k, k ∉ Spec.post_processed_keys -> e !! k = raw !! k) ∧
         ∀ s, raw !! Spec.graph_key = Some (VStr s) -> s ≠ "" ->
           e !! Spec.graph_key =
             Some (VList (map (Py.replace fqn_to_trim "") (Py.chars s))) ∧
           length (map (Py.replace fqn_to_trim "") (Py.chars s)) =
             String.length s)
      (filter (λ raw, Spec.entity_name raw ∉ excluded_entities) schemas)
      out.
Proof.
  intros Hne Hget fqn_to_trim.
  rewrite get_entity_schemas_nothing_excluded.
  rewrite get_entity_schemas_unfold in Hget.
  destruct (Chroma.run_ai_search_query _ _ _ _ _ _ _ _ _ client)
    as [[schemas|x] c']; [|done].
  destruct excluded_entities as [|x excl]; [done|]. simpl in Hget.
  injection Hget as Hloop <-. exists schemas. split; [done|].
  apply schemas_loop_linked in Hloop as (new & -> & Hnew). simpl.
  eapply Forall2_impl; [exact Hnew|].
  intros raw e Hstep. simpl in Hstep.
  apply schema_step_lookup in Hstep as (_ & Hg & _ & Hother & _).
  split; [exact Hother|]. intros s Hs Hnonempty.
  rewrite Hs in Hg. destruct s as [|c s]; [done|].
  split; [exact Hg|].
  rewrite length_map. clear. generalize (String c s). intros s0.
  induction s0 as [|a s0 IH]; simpl; [done|]. by rewrite IH.
Qed.

Lemma X25_string_graph_exploded_witness :
  ∃ schemas,
    @Chroma.get_entity_schemas ascii_StrLower string Demo.str_string
      (Samples.answering [(Samples.order, Demo.distance_02);
                          (Demo.product, Demo.distance_05)])
      Demo.environ "orders" [] ["db"] Demo.no_collections
      = (Ok schemas, {["text2sql-schema-store" := ∅]}) ∧
    Forall2
      (λ raw e,
         (∀ k, k ∉ Spec.post_processed_keys -> e !! k = raw !! k) ∧
         ∀ s, raw !! Spec.graph_key = Some (VStr s) -> s ≠ "" ->
           e !! Spec.graph_key =
             Some (VList (map (Py.replace "db" "") (Py.chars s))) ∧
           length (map (Py.replace "db" "") (Py.chars s)) = String.length s)
      (filter (λ raw, Spec.entity_name (H := ascii_StrLower) raw ∉ ["product"])
         schemas)
      [Samples.order_exploded].
Proof.
  apply (@X25_string_graph_exploded ascii_StrLower string Demo.str_string
           (Samples.answering [(Samples.order, Demo.distance_02);
                               (Demo.product, Demo.distance_05)])
           Demo.environ "orders" ["product"] ["db"] Demo.no_collections
           {["text2sql-schema-store" := ∅]} [Samples.order_exploded]).
  - discriminate.
  - apply samples_entity_schemas.
Defined.

(** X26.  One match the post-processing cannot handle fails the whole
    call.  With a non-empty exclusion list, when some match of the search
    has an [Entity] that is not a string, [get_entity_schemas] raises and
    hands back no entry at all, the good matches included. *)
Theorem X26_bad_entity_fails_all `{StrLower} {F} `{Chroma.Str F}
    (C : Chroma.Connector) (env : Chroma.Environ) (text : string)
    (excluded_entities : list string) (engine_specific_fields : list F)
    (client client' : gmap string (gmap string Chroma.Entry))
    (schemas : list dict) (bad : dict) (v : value) :
  excluded_entities ≠ [] ->
  Chroma.get_entity_schemas C env text [] engine_specific_fields client
    = (Ok schemas, client') ->
  bad ∈ schemas -> bad !! "Entity" = Some v -> (∀ s, v ≠ VStr s) ->
  ∃ e, Chroma.get_entity_schemas C env text excluded_entities
         engine_specific_fields client = (Raise e, client').
Proof.
  intros Hne Hraw Hin Hv Hns.
  rewrite get_entity_schemas_nothing_excluded in Hraw.
  rewrite get_entity_schemas_unfold, Hraw.
  destruct excluded_entities as [|x excl]; [done|]. simpl.
  destruct (schemas_loop_raises
              (Py.join "." (map Chroma.str engine_specific_fields))
              (x :: excl) schemas []) as [e He].
  { exists bad. split; [done|]. by eapply schema_step_bad_entity. }
  exists e. by rewrite He.
Qed.

Lemma X26_bad_entity_fails_all_witness :
  ∃ e, @Chroma.get_entity_schemas ascii_StrLower string Demo.str_string
         (Samples.answering [(Demo.customer, Demo.distance_02);
                             (Samples.numbered, Demo.distance_05)])
         Demo.environ "customers" ["product"] ["db"; "sch"]
         Demo.no_collections
       = (Raise e, {["text2sql-schema-store" := ∅]}).
Proof.
  apply (@X26_bad_entity_fails_all ascii_StrLower string Demo.str_string
           (Samples.answering [(Demo.customer, Demo.distance_02);
                               (Samples.numbered, Demo.distance_05)])
           Demo.environ "customers" ["product"] ["db"; "sch"]
           Demo.no_collections {["text2sql-schema-store" := ∅]}
           [Demo.customer; Samples.numbered] Samples.numbered (VInt 7)).
  - discriminate.
  - apply samples_numbered_schemas.
  - right. left.
  - reflexivity.
  - discriminate.
Defined.

(** X27.  A failure while adding an entry is silent and stores nothing.
    When the document passes validation but the embedding request raises or
    answers with no embedding, or the document has no string under
    [Question], the call returns normally; the collection exists
    afterwards with the entries it had; and the caller's document has been
    stamped with the time of the call all the same. *)
Theorem X27_add_entry_failure (C : Chroma.Connector) (now : string)
    (document : dict) (vector_fields : list (string * string))
    (index_name : string) (client : gmap string (gmap string Chroma.Entry)) :
  Chroma.fields_in_document (map fst vector_fields) document = true ->
  let embeddings :=
    Chroma.run_embedding_request C
      (omap (λ field, document !! field) (map fst vector_fields)) in
  (∃ e, embeddings = Raise e) ∨ embeddings = Ok [] ∨
  (∀ q, document !! "Question" ≠ Some (VStr q)) ->
  let out := Chroma.add_entry_to_index C now document vector_fields index_name
               client in
  out.1 = <["DateLastModified" := VStr now]> document ∧
  out.2 !! index_name = Some (Props.entries client index_name) ∧
  ∀ other, other ≠ index_name -> out.2 !! other = client !! other.
Proof.
  intros Hv embeddings Hfail out. subst out.
  unfold Chroma.add_entry_to_index. rewrite Hv. cbn [negb].
  assert (Chroma.prepare_entry C (<["DateLastModified" := VStr now]> document)
            vector_fields
            (omap (λ field, document !! field) (map fst vector_fields))
          = Raise (match embeddings with
                   | Raise e => e
                   | Ok [] =>
                       match Chroma.question_of
                               (<["DateLastModified" := VStr now]> document) with
                       | Raise e => e
                       | Ok _ => Exn "IndexError" "list index out of range"
                       end
                   | Ok _ =>
                       match Chroma.question_of
                               (<["DateLastModified" := VStr now]> document) with
                       | Raise e => e
                       | Ok _ => Exn "" ""
                       end
                   end)) as Hprep.
  { unfold Chroma.prepare_entry. fold embeddings.
    destruct Hfail as [[e He]|[He|Hq]].
    - by rewrite He.
    - rewrite He. simpl.
      by destruct (Chroma.question_of _).
    - destruct embeddings as [[|e0 es]|e]; simpl; [| |done];
        unfold Chroma.question_of; rewrite lookup_insert_ne by done;
        destruct (document !! "Question") as [[| | | |q|]|] eqn:Hd;
        try done; by destruct (Hq q). }
  unfold Chroma._get_or_create_collection, Props.entries.
  destruct (client !! index_name) as [coll|] eqn:Hc; cbn [fst snd];
    rewrite Hprep; cbn [fst snd].
  - by rewrite Hc.
  - split; [done|]. split; [by rewrite lookup_insert_eq|].
    intros other Hother. by rewrite lookup_insert_ne.
Qed.

Lemma X27_add_entry_failure_witness :
  let out := Chroma.add_entry_to_index Samples.connector_down
               "2025-01-01T00:00:00+00:00" Demo.document_A1
               Demo.question_fields "cache" Demo.no_collections in
  out.1 = <["DateLastModified" := VStr "2025-01-01T00:00:00+00:00"]>
            Demo.document_A1 ∧
  out.2 !! "cache" = Some (Props.entries Demo.no_collections "cache") ∧
  ∀ other, other ≠ "cache" -> out.2 !! other = Demo.no_collections !! other.
Proof.
  apply (X27_add_entry_failure Samples.connector_down
           "2025-01-01T00:00:00+00:00" Demo.document_A1 Demo.question_fields
           "cache" Demo.no_collections).
  - reflexivity.
  - left. eexists. reflexivity.
Defined.

(** X28.  Whatever happens, adding an entry touches one place at most.
    Every other collection is as before, and the named collection has the
    entries it had, or those with one entry put under the identifier of the
    document's question, that entry holding the question as its text. *)
Theorem X28_add_entry_footprint (C : Chroma.Connector) (now : string)
    (document : dict) (vector_fields : list (string * string))
    (index_name : string) (client : gmap string (gmap string Chroma.Entry)) :
  let out := Chroma.add_entry_to_index C now document vector_fields index_name
               client in
  (∀ other, other ≠ index_name -> out.2 !! other = client !! other) ∧
  (Props.entries out.2 index_name = Props.entries client index_name ∨
   ∃ q e, document !! "Question" = Some (VStr q) ∧
          Chroma.entry_document e = q ∧
          Props.entries out.2 index_name =
            <[Chroma.doc_id q := e]> (Props.entries client index_name)) ∧
  (out.1 = document ∨ out.1 = <["DateLastModified" := VStr now]> document).
Proof.
  intros out. subst out. unfold Chroma.add_entry_to_index.
  destruct (Chroma.fields_in_document _ document); cbn [negb];
    [|by repeat split; auto].
  set (stamped := <["DateLastModified" := VStr now]> document).
  set (fields := omap _ _).
  assert (∀ id e, Chroma.prepare_entry C stamped vector_fields fields
                  = Ok (id, e) ->
            ∃ q, document !! "Question" = Some (VStr q) ∧ id = Chroma.doc_id q ∧
                 Chroma.entry_document e = q) as Hprep.
  { intros id e. unfold Chroma.prepare_entry, mbind, res_bind, Py.bind.
    destruct (Chroma.run_embedding_request C fields) as [embs|]; [|done].
    unfold Chroma.question_of. subst stamped.
    rewrite lookup_insert_ne by done.
    destruct (document !! "Question") as [[| | | |q|]|]; try done.
    destruct (Chroma.first_embedding embs); [|done].
    intros [= <- <-]. by exists q. }
  pose proof (created_collection client index_name) as Hcoll.
  assert (∀ other, other ≠ index_name ->
            (Chroma._get_or_create_collection index_name client).2 !! other
            = client !! other) as Hother.
  { intros other Hne. unfold Chroma._get_or_create_collection.
    destruct (client !! index_name); simpl; [done|].
    by rewrite lookup_insert_ne. }
  destruct (Chroma._get_or_create_collection index_name client)
    as [r client1]. cbn [snd] in Hcoll, Hother.
  unfold Props.entries, Chroma.upsert.
  destruct (Chroma.prepare_entry C stamped vector_fields fields)
    as [[id e]|x] eqn:Hp; cbn [fst snd].
  - destruct (Hprep id e eq_refl) as (q & Hq & -> & He).
    destruct (Chroma.upsert_rejects C _ (Chroma.doc_id q) e); cbn [fst snd].
    + split; [done|]. split; [by left|by right].
    + split; [intros other Hne; rewrite lookup_insert_ne by done; by auto|].
      split; [|by right]. right. exists q, e.
      by rewrite lookup_insert_eq, Hcoll.
  - split; [done|]. split; [by left|by right].
Qed.


(** ** Usage statistics *)

Section StatsFacts.
Import Router Ledger Spec Props Stats.
Context `{SeriesMean}.

Lemma column_raises k runs :
  (∀ r, r ∈ runs -> metric k r = None) <->
  column k runs = Raise (Exn "KeyError" ("'metrics." +:+ k +:+ "'")).
Proof.
  unfold column.
  destruct (existsb _ runs) eqn:He.
  - split; [|done]. intros Hnone.
    apply existsb_exists in He as (r & Hr & Hsome).
    apply bool_decide_eq_true in Hsome. apply list_elem_of_In in Hr.
    rewrite (Hnone r Hr) in Hsome. by destruct Hsome.
  - split; [done|]. intros _ r Hr.
    destruct (metric k r) eqn:Hm; [|done].
    assert (existsb (λ r, bool_decide (is_Some (metric k r))) runs = true)
      as Hex; [|congruence].
    apply existsb_exists. exists r. split; [by apply list_elem_of_In|].
    apply bool_decide_eq_true. by rewrite Hm.
Qed.

Lemma column_ok k runs c :
  column k runs = Ok c -> c = map (metric k) runs.
Proof. unfold column. destruct (existsb _ runs); by intros [= <-]. Qed.

Lemma column_cases k runs :
  (column k runs = Ok (map (metric k) runs) ∧
   ∃ r, r ∈ runs ∧ is_Some (metric k r)) ∨
  (column k runs = Raise (Exn "KeyError" ("'metrics." +:+ k +:+ "'")) ∧
   ∀ r, r ∈ runs -> metric k r = None).
Proof.
  destruct (column k runs) as [c|e] eqn:Hc.
  - left. unfold column in Hc.
    destruct (existsb _ runs) eqn:He; [|done]. split; [done|].
    apply existsb_exists in He as (r & Hr & Hsome).
    exists r. split; [by apply list_elem_of_In|].
    by apply bool_decide_eq_true in Hsome.
  - right. assert (e = Exn "KeyError" ("'metrics." +:+ k +:+ "'")) as ->.
    { unfold column in Hc. destruct (existsb _ runs); congruence. }
    split; [done|]. by apply column_raises.
Qed.

Lemma count_ones_cases k runs :
  (∃ n, count_ones k runs = Ok n ∧ n ≤ length runs ∧
        ∃ r, r ∈ runs ∧ is_Some (metric k r)) ∨
  ((∃ e, count_ones k runs = Raise e) ∧ ∀ r, r ∈ runs -> metric k r = None).
Proof.
  unfold count_ones.
  destruct (column_cases k runs) as [[-> Hsome]|[-> Hnone]]; simpl.
  - left. eexists. split; [done|]. split; [|done].
    etrans; [apply length_filter|]. by rewrite length_map.
  - right. by eauto.
Qed.

(** The statistics of a non-empty list of runs. *)
Lemma get_experiment_stats_runs r0 runs :
  let stats := get_experiment_stats (Ok true) (Ok (r0 :: runs)) in
  (stats = Nothing ∧
   ∃ k, k ∈ stats_columns ∧ ∀ r, r ∈ r0 :: runs -> metric k r = None) ∨
  (∃ f, stats = Filled f ∧
        (∀ k, k ∈ stats_columns ->
              ∃ r, r ∈ r0 :: runs ∧ is_Some (metric k r)) ∧
        total_runs f = length (r0 :: runs) ∧
        successful_runs f ≤ total_runs f ∧
        pattern_match f ≤ total_runs f ∧ ai_powered f ≤ total_runs f ∧
        autogen f ≤ total_runs f ∧
        is_Some (average_user_rating f) ∧
        ∃ n, total_rated_runs f = Some n ∧ 1 ≤ n ≤ total_runs f).
Proof.
  intros stats. subst stats.
  unfold get_experiment_stats, get_experiment_stats_try.
  cbn [mbind res_bind Py.bind negb]. set (rs := r0 :: runs).
  assert (∀ k, k ∈ stats_columns -> (∀ r, r ∈ rs -> metric k r = None) ->
            ∃ k, k ∈ stats_columns ∧ ∀ r, r ∈ rs -> metric k r = None)
    as Hmiss by eauto.
  destruct (count_ones_cases "success" rs)
    as [(n1 & -> & Hn1 & Hs1)|[[e ->] Hnone]];
    [|left; split; [done|]; apply (Hmiss "success"); [repeat constructor|done]].
  cbn [mbind res_bind Py.bind].
  destruct (column_cases "execution_time_seconds" rs) as [[-> Hs2]|[-> Hnone]];
    [|left; split; [done|]; apply (Hmiss "execution_time_seconds");
      [repeat constructor|done]].
  cbn [mbind res_bind Py.bind].
  destruct (count_ones_cases "pattern_match_used" rs)
    as [(n3 & -> & Hn3 & Hs3)|[[e ->] Hnone]];
    [|left; split; [done|]; apply (Hmiss "pattern_match_used");
      [repeat constructor|done]].
  cbn [mbind res_bind Py.bind].
  destruct (count_ones_cases "ai_powered_used" rs)
    as [(n4 & -> & Hn4 & Hs4)|[[e ->] Hnone]];
    [|left; split; [done|]; apply (Hmiss "ai_powered_used");
      [repeat constructor|done]].
  cbn [mbind res_bind Py.bind].
  destruct (count_ones_cases "autogen_used" rs)
    as [(n5 & -> & Hn5 & Hs5)|[[e ->] Hnone]];
    [|left; split; [done|]; apply (Hmiss "autogen_used");
      [repeat constructor|done]].
  cbn [mbind res_bind Py.bind].
  destruct (column_cases "user_rating" rs) as [[-> Hs6]|[-> Hnone]];
    [|left; split; [done|]; apply (Hmiss "user_rating");
      [repeat constructor|done]].
  cbn [mbind res_bind Py.bind]. right. eexists. split; [done|].
  cbn [total_runs successful_runs pattern_match ai_powered autogen
       average_user_rating total_rated_runs].
  split.
  { intros k Hk. unfold stats_columns in Hk.
    repeat (apply elem_of_cons in Hk as [->|Hk]; [done|]).
    by apply elem_of_nil in Hk. }
  split; [done|]. do 4 (split; [done|]).
  destruct Hs6 as (r & Hr & v & Hv).
  assert (Some v ∈ filter is_Some (map (metric "user_rating") rs)) as Hin.
  { apply list_elem_of_filter. split; [done|].
    apply list_elem_of_fmap. exists r. by rewrite Hv. }
  assert (length (filter is_Some (map (metric "user_rating") rs)) ≤ length rs)
    as Hlen.
  { etrans; [apply length_filter|]. by rewrite length_map. }
  destruct (filter is_Some (map (metric "user_rating") rs)) as [|x l].
  - by apply elem_of_nil in Hin.
  - split; [done|]. eexists. split; [done|]. simpl in *. lia.
Qed.

(** Logging queries never writes a rating. *)
Lemma log_queries_unrated B qs : ∀ s,
  (∀ r, r ∈ runs s -> metric "user_rating" r = None) ->
  ∀ r, r ∈ runs (log_queries B qs s) -> metric "user_rating" r = None.
Proof.
  induction qs as [|q qs IH]; intros s Hs; [done|].
  simpl. apply IH.
  destruct (log_query_experiment_no_metric B "user_rating" (q_ambient q)
              (q_question q) (q_approach q) (q_result q) (q_time q)
              (q_session q) s) as (new & -> & _ & Hnew);
    [intros Hin; not_listed Hin|done|done|done|].
  intros r Hr. apply elem_of_app in Hr as [Hr|Hr]; by auto.
Qed.

End StatsFacts.

(** X29.  The statistics need every metric they read.  For an
    experiment with runs, [get_experiment_stats] gives the empty dictionary
    exactly when one of the six metrics it reads ([success],
    [execution_time_seconds], the three usage metrics, [user_rating]) has
    been logged for no run at all; otherwise it gives the full statistics,
    in which the counts are at most the number of runs and the rating
    entries are always present, over at least one rated run. *)
Theorem X29_stats_need_every_metric `{SeriesMean} (r0 : Ledger.Run)
    (runs : list Ledger.Run) :
  let stats := Stats.get_experiment_stats (Ok true) (Ok (r0 :: runs)) in
  (stats = Stats.Nothing <->
   ∃ k, k ∈ Props.stats_columns ∧
        ∀ r, r ∈ r0 :: runs -> Spec.metric k r = None) ∧
  (stats ≠ Stats.Nothing ->
   ∃ f, stats = Stats.Filled f ∧
        Stats.total_runs f = S (length runs) ∧
        Stats.successful_runs f ≤ Stats.total_runs f ∧
        Stats.pattern_match f ≤ Stats.total_runs f ∧
        Stats.ai_powered f ≤ Stats.total_runs f ∧
        Stats.autogen f ≤ Stats.total_runs f ∧
        is_Some (Stats.average_user_rating f) ∧
        ∃ n, Stats.total_rated_runs f = Some n ∧ 1 ≤ n ≤ Stats.total_runs f).
Proof.
  intros stats.
  destruct (get_experiment_stats_runs r0 runs)
    as [[Hs Hk]|(f & Hs & Hall & Hrest)]; fold stats in Hs.
  - split; [by split|]. done.
  - split.
    + split; [by rewrite Hs|].
      intros (k & Hk & Hnone). destruct (Hall k Hk) as (r & Hr & v & Hv).
      rewrite (Hnone r Hr) in Hv. done.
    + intros _. exists f. split; [done|]. exact Hrest.
Qed.

(** X30.  Queries alone never fill the statistics.  However many
    queries are logged into a ledger without rated runs, and whatever the
    backend does, no run carries a rating afterwards, so the statistics of
    the ledger are the empty dictionary (or the zero count when there is no
    run): they stay empty until feedback has been logged. *)
Theorem X30_stats_empty_without_feedback `{SeriesMean} (B : Ledger.Backend)
    (qs : list Props.Query) (s : Ledger.Store) :
  (∀ r, r ∈ Ledger.runs s -> Spec.metric "user_rating" r = None) ->
  let s' := Props.log_queries B qs s in
  let stats := Stats.get_experiment_stats (Ok true) (Ok (Ledger.runs s')) in
  (∀ r, r ∈ Ledger.runs s' -> Spec.metric "user_rating" r = None) ∧
  (Ledger.runs s' = [] -> stats = Stats.NoRuns) ∧
  (Ledger.runs s' ≠ [] -> stats = Stats.Nothing).
Proof.
  intros Hs s' stats.
  pose proof (log_queries_unrated B qs s Hs) as Hun. fold s' in Hun.
  split; [done|]. subst stats.
  destruct (Ledger.runs s') as [|r0 runs] eqn:Hruns.
  - split; [done|]. done.
  - split; [done|]. intros _.
    destruct (get_experiment_stats_runs r0 runs)
      as [[Hn _]|(f & _ & Hall & _)]; [done|].
    destruct (Hall "user_rating") as (r & Hr & v & Hv);
      [repeat constructor|].
    rewrite (Hun r Hr) in Hv. done.
Qed.

Lemma X30_stats_empty_without_feedback_witness :
  let s' := Props.log_queries Demo.backend_ok
              [Samples.customers_query; Samples.customers_query]
              Demo.empty_store in
  let stats := Stats.get_experiment_stats (H := Samples.first_SeriesMean) (Ok true) (Ok (Ledger.runs s')) in
  (∀ r, r ∈ Ledger.runs s' -> Spec.metric "user_rating" r = None) ∧
  (Ledger.runs s' = [] -> stats = Stats.NoRuns) ∧
  (Ledger.runs s' ≠ [] -> stats = Stats.Nothing).
Proof.
  apply (X30_stats_empty_without_feedback (H := Samples.first_SeriesMean)
           Demo.backend_ok [Samples.customers_query; Samples.customers_query]
           Demo.empty_store).
  intros r Hr. simpl in Hr. by apply elem_of_nil in Hr.
Defined.
